(** * rag-base frontend: session provider, request gateway and page workflows

    A shallow embedding of the browser code of the repository
    ([frontend/js/auth.js], [admin.js], [chat.js]) and the properties of its
    authenticated-request lifecycle.

    The JavaScript functions are embedded as computations in a small monad
    that threads the page state (the lazily created client handle and the
    history of observable effects) and may end by throwing.  Everything the
    page does not implement itself -- the identity library and its client,
    [fetch], [confirm], the DOM, a few engine primitives -- is an oracle of
    the [World] the computation runs in; an oracle answers as a function of
    the history so far, so two calls of the same oracle may answer
    differently.  The conversions of the engine that can throw ([ToString],
    [ToNumber], the read of a property) are modelled with their throws.
    One workflow runs from its start to its end: what other listeners do
    while a workflow waits for a promise is not part of the model. *)

From Stdlib Require Import ZArith List String Ascii Bool Lia Floats.
From Stdlib Require Import DecimalString.
Import ListNotations.
Local Open Scope list_scope.
Local Open Scope string_scope.
Set Warnings "-register-all".

(** ** JavaScript values, coercions and the engine primitives the code uses *)

Module JS.

(** Values that reach the page as parsed JSON. *)
Inductive Value : Type :=
| VUndefined
| VNull
| VBool (b : bool)
| VNum (x : float)
| VStr (s : string)
| VArr (items : list Value)
| VObj (fields : list (string * Value)).

(** Induction on a value, with the property at hand for the elements of an
    array. *)
Section ValueInduction.
Variable P : Value -> Prop.
Hypothesis on_undefined : P VUndefined.
Hypothesis on_null : P VNull.
Hypothesis on_bool : forall b, P (VBool b).
Hypothesis on_number : forall x, P (VNum x).
Hypothesis on_string : forall s, P (VStr s).
Hypothesis on_array : forall items, Forall P items -> P (VArr items).
Hypothesis on_object : forall fields, P (VObj fields).

Fixpoint Value_induction (v : Value) : P v :=
  match v with
  | VUndefined => on_undefined
  | VNull => on_null
  | VBool b => on_bool b
  | VNum x => on_number x
  | VStr s => on_string s
  | VArr items =>
      on_array items
        ((fix all (l : list Value) : Forall P l :=
            match l with
            | [] => Forall_nil P
            | i :: rest => Forall_cons i (Value_induction i) (all rest)
            end) items)
  | VObj fields => on_object fields
  end.

End ValueInduction.

(** A thrown value: every value thrown in this code base is an [Error]
    object (or one of the engine's subclasses), read through [name] and
    [message]. *)
Record Exception : Type := mkException { exn_name : string; exn_message : string }.

(** [new Error(msg)] *)
Definition Error (msg : string) : Exception := mkException "Error" msg.

(** A [TypeError] raised by the engine itself; the message text is the
    engine's and no property below depends on it. *)
Definition TypeError (msg : string) : Exception := mkException "TypeError" msg.

(** How a promise settles.  The same type gives the completion of an engine
    operation that may throw (a property read, a conversion): its result,
    or the error it throws. *)
Inductive Settled (A : Type) : Type :=
| Fulfilled (a : A)
| Rejected (e : Exception).
Arguments Fulfilled {A} a.
Arguments Rejected {A} e.

(** One operation after the other, up to the first that throws. *)
Definition and_then {A B} (r : Settled A) (k : A -> Settled B) : Settled B :=
  match r with
  | Fulfilled a => k a
  | Rejected e => Rejected e
  end.

Definition dquote : string := String "034"%char EmptyString.
Definition backslash : string := String "092"%char EmptyString.
Definition newline : string := String "010"%char EmptyString.

(** Engine primitives that are taken as given: the shortest round-trip
    decimal of a finite non-zero number ([Number::toString]), the numeric
    value of a string ([StringToNumber]), the text of
    [new Date(v).toLocaleString(locale)] for a primitive [v], and the text of
    a member that every object inherits from [Object.prototype] (the source
    text of a built-in function). *)
Record Engine : Type := mkEngine {
  finite_toString : float -> string;
  StringToNumber : string -> float;
  Date_toLocaleString : Value -> string -> string;
  inherited_toString : string -> string
}.

(** *** Truthiness and [||] *)

Definition truthy (v : Value) : bool :=
  match v with
  | VUndefined | VNull => false
  | VBool b => b
  | VNum x => negb (PrimFloat.is_zero x || PrimFloat.is_nan x)
  | VStr s => negb (s =? "")
  | VArr _ | VObj _ => true
  end.

(** [a || b] *)
Definition or_else (a b : Value) : Value := if truthy a then a else b.

(** [s || d] for a string-or-undefined [s] (the [window.X || default] idiom). *)
Definition string_or (s : option string) (d : string) : string :=
  match s with
  | Some x => if x =? "" then d else x
  | None => d
  end.

(** *** Decimal digits *)

(** The decimal representation of a non-negative integer. *)
Definition decimal (n : Z) : string := NilZero.string_of_uint (N.to_uint (Z.to_N n)).

Fixpoint zeros (n : nat) : string :=
  match n with
  | O => ""
  | S k => String "0"%char (zeros k)
  end.

(** *** [Number.prototype.toFixed] *)

(** The integer [n] for which [n / 10^f - m * 2^e] is as close to zero as
    possible, the larger one when there are two. *)
Definition nearest_scaled (m : positive) (e : Z) (f : nat) : Z :=
  let p := (Z.pos m * 10 ^ Z.of_nat f)%Z in
  if (0 <=? e)%Z then (p * 2 ^ e)%Z
  else ((2 * p + 2 ^ (- e)) / 2 ^ (1 - e))%Z.

(** Steps 10-11 of [toFixed]: the digits of [n] with a point before the
    last [f] of them, padded with zeros on the left up to [f + 1] digits. *)
Definition place_point (n : Z) (f : nat) : string :=
  let m := decimal n in
  match f with
  | O => m
  | S _ =>
      let k := String.length m in
      let m' := if (k <=? f)%nat then zeros (f + 1 - k) ++ m else m in
      let k' := String.length m' in
      substring 0 (k' - f) m' ++ "." ++ substring (k' - f) f m'
  end.

(** [10^21 <= m * 2^e] *)
Definition at_least_1e21 (m : positive) (e : Z) : bool :=
  if (0 <=? e)%Z then (10 ^ 21 <=? Z.pos m * 2 ^ e)%Z
  else (10 ^ 21 * 2 ^ (- e) <=? Z.pos m)%Z.

(** [Number::toString] *)
Definition Number_toString (g : Engine) (x : float) : string :=
  match Prim2SF x with
  | S754_nan => "NaN"
  | S754_infinity false => "Infinity"
  | S754_infinity true => "-Infinity"
  | S754_zero _ => "0"
  | S754_finite _ _ _ => finite_toString g x
  end.

(** [x.toFixed(f)] for [0 <= f <= 100]: a value that is not finite is
    printed by [Number::toString]; otherwise the sign is split off, and the
    magnitude is printed by [Number::toString] from [10^21] on and in fixed
    notation below. *)
Definition toFixed (g : Engine) (x : float) (f : nat) : string :=
  match Prim2SF x with
  | S754_nan | S754_infinity _ => Number_toString g x
  | S754_zero _ => place_point 0 f
  | S754_finite sgn m e =>
      (if sgn then "-" else "")
      ++ (if at_least_1e21 m e then Number_toString g (PrimFloat.abs x)
          else place_point (nearest_scaled m e f) f)
  end.

(** *** [ToString], [ToNumber] and [ToPrimitive]

    A parsed JSON object inherits [toString] and [valueOf] from
    [Object.prototype], and an own property of either name holds a JSON
    value, which is not callable.  The inherited [valueOf] returns the
    object itself, so the only way to a primitive is the inherited
    [toString], which gives [[object Object]]; an object with an own
    property [toString] has no way left, and its conversion throws a
    [TypeError].  An array is converted by [Array.prototype.join], which
    converts the elements in order, [null] and [undefined] to the empty
    string. *)

Fixpoint join (sep : string) (l : list string) : string :=
  match l with
  | [] => ""
  | [x] => x
  | x :: rest => x ++ sep ++ join sep rest
  end.

Fixpoint has_key (k : string) (fields : list (string * Value)) : bool :=
  match fields with
  | [] => false
  | (k', _) :: rest => (k =? k') || has_key k rest
  end.

(** The error of a conversion that finds no primitive. *)
Definition not_primitive : Exception :=
  TypeError "Cannot convert object to primitive value".

Fixpoint ToString (g : Engine) (v : Value) : Settled string :=
  match v with
  | VUndefined => Fulfilled "undefined"
  | VNull => Fulfilled "null"
  | VBool true => Fulfilled "true"
  | VBool false => Fulfilled "false"
  | VNum x => Fulfilled (Number_toString g x)
  | VStr s => Fulfilled s
  | VArr items =>
      match (fix elements (l : list Value) : Settled (list string) :=
               match l with
               | [] => Fulfilled []
               | i :: rest =>
                   match match i with
                         | VUndefined | VNull => Fulfilled ""
                         | _ => ToString g i
                         end with
                   | Rejected e => Rejected e
                   | Fulfilled x =>
                       match elements rest with
                       | Rejected e => Rejected e
                       | Fulfilled xs => Fulfilled (x :: xs)
                       end
                   end
               end) items with
      | Rejected e => Rejected e
      | Fulfilled texts => Fulfilled (join "," texts)
      end
  | VObj fields =>
      if has_key "toString" fields then Rejected not_primitive
      else Fulfilled "[object Object]"
  end.

(** A value that is neither an array nor an object. *)
Definition primitive (v : Value) : bool :=
  match v with
  | VArr _ | VObj _ => false
  | _ => true
  end.

(** [ToPrimitive]: a primitive is left as it is, an array or object gives
    the string of its [toString] (with either hint, since [valueOf] gives
    no primitive). *)
Definition ToPrimitive (g : Engine) (v : Value) : Settled Value :=
  match v with
  | VArr _ | VObj _ =>
      match ToString g v with
      | Fulfilled s => Fulfilled (VStr s)
      | Rejected e => Rejected e
      end
  | _ => Fulfilled v
  end.

Definition ToNumber (g : Engine) (v : Value) : Settled float :=
  match v with
  | VUndefined => Fulfilled PrimFloat.nan
  | VNull => Fulfilled PrimFloat.zero
  | VBool true => Fulfilled PrimFloat.one
  | VBool false => Fulfilled PrimFloat.zero
  | VNum x => Fulfilled x
  | VStr s => Fulfilled (StringToNumber g s)
  | VArr _ | VObj _ =>
      match ToString g v with
      | Fulfilled s => Fulfilled (StringToNumber g s)
      | Rejected e => Rejected e
      end
  end.

(** The string a [DOMString?] attribute such as [textContent] is set to:
    [null] and [undefined] clear it, any other value is converted. *)
Definition textContent_of (g : Engine) (v : Value) : Settled string :=
  match v with
  | VUndefined | VNull => Fulfilled ""
  | _ => ToString g v
  end.

(** *** Property reads *)

Fixpoint lookup (k : string) (fields : list (string * Value)) : Value :=
  match fields with
  | [] => VUndefined
  | (k', v) :: rest => if k =? k' then v else lookup k rest
  end.

(** The value of an own property, [undefined] when there is none. *)
Definition field (v : Value) (k : string) : Value :=
  match v with
  | VObj fields => lookup k fields
  | _ => VUndefined
  end.

(** [v.k] for the property names this code reads from parsed JSON
    ([detail], [answer], [sources], [files], [file_name], [similarity],
    [status], [created_at], [chunk_count], [embedding_count], [id]): none
    of them is defined on a prototype, so the read is an
    own-property lookup on an object, [undefined] on any other value, and a
    [TypeError] on [undefined] and [null]. *)
Definition get (v : Value) (k : string) : Settled Value :=
  match v with
  | VUndefined =>
      Rejected (TypeError ("Cannot read properties of undefined (reading '" ++ k ++ "')"))
  | VNull =>
      Rejected (TypeError ("Cannot read properties of null (reading '" ++ k ++ "')"))
  | _ => Fulfilled (field v k)
  end.

(** The number of UTF-16 code units of a string held as UTF-8 bytes: one
    per character, two for the characters outside the basic plane (those
    with a four-byte encoding). *)
Fixpoint utf16_length (s : string) : nat :=
  match s with
  | EmptyString => 0
  | String c rest =>
      let b := nat_of_ascii c in
      ((if (b <? 128) || (192 <=? b) then 1 else 0)
       + (if 240 <=? b then 1 else 0) + utf16_length rest)%nat
  end.

(** [v.length > 0]: an array or a string has a length that is its number
    of elements or code units; any other value has the [length] it carries
    as a property, compared after [ToNumber] (which may throw). *)
Definition length_positive (g : Engine) (v : Value) : Settled bool :=
  match v with
  | VArr items => Fulfilled (negb (Nat.eqb (List.length items) 0))
  | VStr s => Fulfilled (negb (Nat.eqb (utf16_length s) 0))
  | _ =>
      match get v "length" with
      | Fulfilled l =>
          match ToNumber g l with
          | Fulfilled x => Fulfilled (PrimFloat.ltb PrimFloat.zero x)
          | Rejected e => Rejected e
          end
      | Rejected e => Rejected e
      end
  end.

(** [v.length === 0] *)
Definition length_is_zero (v : Value) : Settled bool :=
  match v with
  | VArr items => Fulfilled (Nat.eqb (List.length items) 0)
  | VStr s => Fulfilled (Nat.eqb (utf16_length s) 0)
  | _ =>
      match get v "length" with
      | Fulfilled (VNum x) => Fulfilled (PrimFloat.eqb x PrimFloat.zero)
      | Fulfilled _ => Fulfilled false
      | Rejected e => Rejected e
      end
  end.

(** *** [String.prototype.split] on a one-character separator *)

Fixpoint split (sep : ascii) (s : string) : list string :=
  match s with
  | EmptyString => [""]
  | String c rest =>
      if Ascii.eqb c sep then "" :: split sep rest
      else match split sep rest with
           | [] => [String c ""]
           | x :: xs => String c x :: xs
           end
  end.

(** [arr.includes(x)] on an array of strings; [x] may be [undefined]. *)
Definition includes (arr : list string) (x : option string) : bool :=
  match x with
  | Some s => existsb (String.eqb s) arr
  | None => false
  end.

(** *** [String.prototype.trim] *)

Definition bytes (l : list nat) : string :=
  fold_right (fun n s => String (ascii_of_nat n) s) "" l.

(** The UTF-8 encodings of WhiteSpace and LineTerminator. *)
Definition whitespace : list string :=
  map bytes
    ([[9]; [10]; [11]; [12]; [13]; [32]; [194; 160]; [225; 154; 128]]
     ++ map (fun k => [226; 128; k]) [128; 129; 130; 131; 132; 133; 134; 135; 136; 137; 138]
     ++ [[226; 128; 168]; [226; 128; 169]; [226; 128; 175]; [226; 129; 159];
         [227; 128; 128]; [239; 187; 191]])%nat%list.

Fixpoint string_rev (s : string) : string :=
  match s with
  | EmptyString => ""
  | String c rest => string_rev rest ++ String c ""
  end.

Fixpoint strip_prefix (p s : string) : option string :=
  match p, s with
  | EmptyString, _ => Some s
  | String a p', String b s' => if Ascii.eqb a b then strip_prefix p' s' else None
  | String _ _, EmptyString => None
  end.

Fixpoint strip_any (ps : list string) (s : string) : option string :=
  match ps with
  | [] => None
  | p :: rest =>
      match strip_prefix p s with
      | Some r => Some r
      | None => strip_any rest s
      end
  end.

Fixpoint strip_all (fuel : nat) (ps : list string) (s : string) : string :=
  match fuel with
  | O => s
  | S k =>
      match strip_any ps s with
      | Some r => strip_all k ps r
      | None => s
      end
  end.

Definition trimStart (s : string) : string := strip_all (String.length s) whitespace s.

Definition trimEnd (s : string) : string :=
  string_rev (strip_all (String.length s) (map string_rev whitespace) (string_rev s)).

Definition trim (s : string) : string := trimEnd (trimStart s).

(** *** [JSON.stringify] of an object with one string field *)

Definition hex_digit (n : nat) : ascii :=
  ascii_of_nat (if (n <? 10)%nat then 48 + n else 87 + n).

Definition quote_char (c : ascii) : string :=
  let n := nat_of_ascii c in
  if (n =? 34)%nat then backslash ++ dquote
  else if (n =? 92)%nat then backslash ++ backslash
  else if (n =? 8)%nat then backslash ++ "b"
  else if (n =? 9)%nat then backslash ++ "t"
  else if (n =? 10)%nat then backslash ++ "n"
  else if (n =? 12)%nat then backslash ++ "f"
  else if (n =? 13)%nat then backslash ++ "r"
  else if (n <? 32)%nat then
    backslash ++ "u00" ++ String (hex_digit (n / 16)) (String (hex_digit (n mod 16)) "")
  else String c "".

Fixpoint quote_chars (s : string) : string :=
  match s with
  | EmptyString => ""
  | String c rest => quote_char c ++ quote_chars rest
  end.

(** [QuoteJSONString] *)
Definition quote (s : string) : string := dquote ++ quote_chars s ++ dquote.

(** [JSON.stringify({ key: value })] for a string [value]. *)
Definition stringify_field (key value : string) : string :=
  "{" ++ quote key ++ ":" ++ quote value ++ "}".

End JS.

(** ** The browser the page runs in *)

Module Browser.
Import JS.

(** A [File] picked by the user. *)
Record File : Type := mkFile { file_name : string; file_content : string }.

Inductive Body : Type :=
| TextBody (text : string)
| FormBody (fields : list (string * File)).

(** The arguments of one [fetch] call. *)
Record Request : Type := mkRequest {
  url : string;
  method : string;
  headers : list (string * string);
  body : option Body
}.

(** What the code reads of a [Response]: [ok] and the outcome of [json()]. *)
Record Response : Type := mkResponse {
  status : nat;
  json : Settled Value
}.

(** [response.ok]: the status is in the range 200-299. *)
Definition ok (r : Response) : bool := (200 <=? status r)%nat && (status r <=? 299)%nat.

(** The identity client's data, as [auth.js] reads it. *)
Record AuthError : Type := mkAuthError { auth_message : string }.
Record User : Type := mkUser { user_id : string; email : option string }.
Record Session : Type := mkSession { access_token : string }.
Record UserResponse : Type := mkUserResponse {
  data_user : option User;
  user_error : option AuthError
}.
Record SessionResponse : Type := mkSessionResponse {
  data_session : option Session;
  session_error : option AuthError
}.

(** The handle [supabase.createClient(url, key)] returns. *)
Record Client : Type := mkClient { supabaseUrl : string; supabaseKey : string }.

(** Writes to the page, each named after what the code sets; the styles
    of the new elements and the scroll position are left out. *)
Inductive DomOp : Type :=
| PreventDefault
| AppendMessage (className header textContent : string)
| AppendError (header textContent : string)
| AppendSources (header : string) (items : list string)
| SetInputValue (value : string)
| SetInputDisabled (disabled : bool)
| SetButtonDisabled (disabled : bool)
| SetButtonHTML (innerHTML : string)
| SetButtonText (textContent : string)
| ShowAlert (className textContent : string)
| HideAlertAfter (ms : nat)
| ClearRows
| AppendRow (innerHTML : string).

(** Everything the page does that the outside can observe, in order;
    [CreateClient] is a call of [supabase.createClient] that returned the
    handle. *)
Inductive Event : Type :=
| ConsoleError (msg : string) (err : option AuthError)
| CreateClient (url key : string)
| GetUser
| GetSession
| Confirm (msg : string)
| Fetch (req : Request)
| SetLocation (href : string)
| Dom (op : DomOp).

(** The configuration the HTML pages set on [window]. *)
Record Window : Type := mkWindow {
  window_SUPABASE_URL : option string;
  window_SUPABASE_ANON_KEY : option string;
  window_API_BASE_URL : option string;
  window_ADMIN_EMAILS : option string
}.

(** The elements [document.getElementById] and [querySelector] find. *)
Record Document : Type := mkDocument {
  has_chat_messages : bool;
  has_submit_button : bool;
  has_alert_message : bool;
  has_files_tbody : bool;
  status_filter_value : option string
}.

(** The environment: configuration, page, and the oracles, each answering
    from the history of events so far.  [supabase_createClient url key] is
    the error [supabase.createClient(url, key)] throws, if it throws: the
    library validates its arguments and refuses, for one, an empty URL. *)
Record World : Type := mkWorld {
  window : Window;
  document : Document;
  engine : Engine;
  supabase_defined : bool;
  supabase_createClient : string -> string -> option Exception;
  auth_getUser : list Event -> Settled UserResponse;
  auth_getSession : list Event -> Settled SessionResponse;
  window_confirm : list Event -> string -> bool;
  window_fetch : list Event -> Request -> Settled Response
}.

(** The page's own state: [supabaseClient] and the history. *)
Record State : Type := mkState {
  supabaseClient : option Client;
  history : list Event
}.

Inductive Outcome (A : Type) : Type :=
| Returned (a : A)
| Thrown (e : Exception).
Arguments Returned {A} a.
Arguments Thrown {A} e.

(** A computation of the page. *)
Definition M (A : Type) : Type := World -> State -> Outcome A * State.

Definition ret {A} (a : A) : M A := fun _ s => (Returned a, s).

Definition throw {A} (e : Exception) : M A := fun _ s => (Thrown e, s).

Definition bind {A B} (c : M A) (k : A -> M B) : M B :=
  fun w s =>
    match c w s with
    | (Returned a, s') => k a w s'
    | (Thrown e, s') => (Thrown e, s')
    end.

(** [try { c } catch (error) { h error }] *)
Definition try_catch {A} (c : M A) (h : Exception -> M A) : M A :=
  fun w s =>
    match c w s with
    | (Returned a, s') => (Returned a, s')
    | (Thrown e, s') => h e w s'
    end.

(** [try { c } finally { f }] for an [f] that has no [return]. *)
Definition try_finally {A} (c : M A) (f : M unit) : M A :=
  fun w s =>
    let (r, s') := c w s in
    match f w s' with
    | (Returned _, s'') => (r, s'')
    | (Thrown e, s'') => (Thrown e, s'')
    end.

Definition ask : M World := fun w s => (Returned w, s).

(** The state after one more event. *)
Definition log (s : State) (e : Event) : State :=
  mkState (supabaseClient s) (history s ++ [e]).

Definition emit (e : Event) : M unit := fun _ s => (Returned tt, log s e).

Definition dom (op : DomOp) : M unit := emit (Dom op).

(** [await p] for a promise that settles as [p]. *)
Definition await {A} (p : Settled A) : M A :=
  match p with
  | Fulfilled a => ret a
  | Rejected e => throw e
  end.

(** A call of an oracle: the call is recorded, the answer is the one the
    world gives after the history up to the call. *)
Definition oracle {A} (e : Event) (answer : World -> list Event -> A) : M A :=
  fun w s => (Returned (answer w (history s)), log s e).

Definition get_client : M (option Client) := fun _ s => (Returned (supabaseClient s), s).

Definition set_client (c : Client) : M unit :=
  fun _ s => (Returned tt, mkState (Some c) (history s)).

Fixpoint for_each {A} (f : A -> M unit) (l : list A) : M unit :=
  match l with
  | [] => ret tt
  | x :: rest => bind (f x) (fun _ => for_each f rest)
  end.

Module Notations.
  Notation "x <- c ;; k" := (bind c (fun x => k))
    (at level 61, c at next level, right associativity).
  Notation "c ;; k" := (bind c (fun _ => k))
    (at level 61, right associativity).
End Notations.

Import Notations.

(** The lines every gateway call ends with:
    [if (!response.ok) { const error = await response.json();
    throw new Error(error.detail || fallback); } return await response.json();] *)
Definition read_response (fallback : string) (response : Response) : M Value :=
  w <- ask ;;
  if negb (ok response) then
    error <- await (json response) ;;
    detail <- await (get error "detail") ;;
    message <- await (ToString (engine w) (or_else detail (VStr fallback))) ;;
    throw (Error message)
  else
    await (json response).

(** [error.message || fallback] in a [catch] block. *)
Definition message_or (error : Exception) (fallback : string) : string :=
  if exn_message error =? "" then fallback else exn_message error.

(** The requests among some events. *)
Fixpoint requests (evs : list Event) : list Request :=
  match evs with
  | [] => []
  | Fetch r :: rest => r :: requests rest
  | _ :: rest => requests rest
  end.

(** The events recorded between two states of one run. *)
Definition since (s s' : State) : list Event :=
  skipn (List.length (history s)) (history s').

(** Whatever [c] records, in any world and from any state, are events that
    satisfy [Q]. *)
Definition only {A} (Q : Event -> Prop) (c : M A) : Prop :=
  forall w s r s',
    c w s = (r, s') ->
    exists evs, history s' = (history s ++ evs)%list /\ Forall Q evs.

(** An event that is not a request. *)
Definition no_fetch (e : Event) : Prop :=
  match e with
  | Fetch _ => False
  | _ => True
  end.

(** An event that is no write to the location. *)
Definition stays (e : Event) : Prop :=
  match e with
  | SetLocation _ => False
  | _ => True
  end.

(** An event that is not a request, or is a [GET]. *)
Definition at_most_get (e : Event) : Prop :=
  match e with
  | Fetch r => method r = "GET"
  | _ => True
  end.

End Browser.

(** ** [auth.js]: the session provider *)

Module Auth.
Import JS Browser Browser.Notations.

Definition SUPABASE_URL (w : World) : string :=
  string_or (window_SUPABASE_URL (window w)) "".

Definition SUPABASE_ANON_KEY (w : World) : string :=
  string_or (window_SUPABASE_ANON_KEY (window w)) "".

(** [supabase.createClient(url, key)]: the handle, or the error the
    library throws; a call that throws leaves nothing behind. *)
Definition createClient (url key : string) : M Client :=
  w <- ask ;;
  match supabase_createClient w url key with
  | Some e => throw e
  | None =>
      emit (CreateClient url key) ;;
      ret (mkClient url key)
  end.

Definition initSupabase : M (option Client) :=
  w <- ask ;;
  if negb (supabase_defined w) then
    emit (ConsoleError "Supabaseクライアントが読み込まれていません" None) ;;
    ret None
  else
    c <- get_client ;;
    match c with
    | Some client => ret (Some client)
    | None =>
        client <- createClient (SUPABASE_URL w) (SUPABASE_ANON_KEY w) ;;
        set_client client ;;
        ret (Some client)
    end.

(** The error of [initSupabase], if it throws: the library is loaded, no
    handle exists yet, and [createClient] refuses the configuration. *)
Definition client_error (w : World) (s : State) : option Exception :=
  if supabase_defined w then
    match supabaseClient s with
    | Some _ => None
    | None => supabase_createClient w (SUPABASE_URL w) (SUPABASE_ANON_KEY w)
    end
  else None.

(** The state [initSupabase] leaves behind: the handle is created on the
    first use and kept; a refused creation leaves the state as it is; a
    page without the library logs the fact. *)
Definition client_state (w : World) (s : State) : State :=
  if supabase_defined w then
    match supabaseClient s with
    | Some _ => s
    | None =>
        match supabase_createClient w (SUPABASE_URL w) (SUPABASE_ANON_KEY w) with
        | Some _ => s
        | None =>
            mkState (Some (mkClient (SUPABASE_URL w) (SUPABASE_ANON_KEY w)))
              (history s ++ [CreateClient (SUPABASE_URL w) (SUPABASE_ANON_KEY w)])
        end
    end
  else log s (ConsoleError "Supabaseクライアントが読み込まれていません" None).

Definition getCurrentUser : M (option User) :=
  client <- initSupabase ;;
  match client with
  | None => ret None
  | Some _ =>
      p <- oracle GetUser auth_getUser ;;
      r <- await p ;;
      match user_error r with
      | Some error =>
          emit (ConsoleError "ユーザー取得エラー:" (Some error)) ;;
          ret None
      | None => ret (data_user r)
      end
  end.

Definition getAuthToken : M (option string) :=
  client <- initSupabase ;;
  match client with
  | None => ret None
  | Some _ =>
      p <- oracle GetSession auth_getSession ;;
      r <- await p ;;
      match session_error r, data_session r with
      | None, Some session => ret (Some (access_token session))
      | _, _ => ret None
      end
  end.

Definition checkAuth : M bool :=
  user <- getCurrentUser ;;
  ret (match user with Some _ => true | None => false end).

Definition requireAuth : M bool :=
  isAuthenticated <- checkAuth ;;
  if negb isAuthenticated then
    emit (SetLocation "/login.html") ;;
    ret false
  else ret true.

Definition isAdmin : M bool :=
  user <- getCurrentUser ;;
  match user with
  | None => ret false
  | Some u =>
      w <- ask ;;
      let adminEmails :=
        match window_ADMIN_EMAILS (window w) with
        | Some l => if l =? "" then [] else split "," l
        | None => []
        end in
      ret (includes adminEmails (email u))
  end.

(** The token is usable when it is a non-empty string ([!token] is false). *)
Definition getAuthHeaders : M (list (string * string)) :=
  token <- getAuthToken ;;
  match token with
  | None => throw (Error "認証トークンが取得できませんでした")
  | Some t =>
      if t =? "" then throw (Error "認証トークンが取得できませんでした")
      else ret [("Authorization", "Bearer " ++ t); ("Content-Type", "application/json")]
  end.

End Auth.

(** ** [admin.js]: the file-management gateway calls and workflows *)

Module Admin.
Import JS Browser Browser.Notations Auth.

Definition API_BASE_URL (w : World) : string :=
  string_or (window_API_BASE_URL (window w)) "http://localhost:7071/api".

Definition getFiles (status : option string) : M Value :=
  w <- ask ;;
  headers <- getAuthHeaders ;;
  let url := API_BASE_URL w ++ "/admin/files" in
  let url :=
    match status with
    | Some s => if s =? "" then url else url ++ "?status=" ++ s
    | None => url
    end in
  p <- oracle (Fetch (mkRequest url "GET" headers None))
         (fun w h => window_fetch w h (mkRequest url "GET" headers None)) ;;
  response <- await p ;;
  read_response "ファイル一覧の取得に失敗しました" response.

Fixpoint delete_key (k : string) (o : list (string * string)) : list (string * string) :=
  match o with
  | [] => []
  | (k', v) :: rest => if k =? k' then delete_key k rest else (k', v) :: delete_key k rest
  end.

Fixpoint get_key (k : string) (o : list (string * string)) : option string :=
  match o with
  | [] => None
  | (k', v) :: rest => if k =? k' then Some v else get_key k rest
  end.

(** A header given as [undefined] is sent as the string "undefined". *)
Definition header_value (v : option string) : string :=
  match v with
  | Some s => s
  | None => "undefined"
  end.

Definition uploadFile (file : File) : M Value :=
  w <- ask ;;
  headers <- getAuthHeaders ;;
  let headers := delete_key "Content-Type" headers in
  let formData := FormBody [("file", file)] in
  let req :=
    mkRequest (API_BASE_URL w ++ "/admin/upload") "POST"
      [("Authorization", header_value (get_key "Authorization" headers))]
      (Some formData) in
  p <- oracle (Fetch req) (fun w h => window_fetch w h req) ;;
  response <- await p ;;
  read_response "ファイルアップロードに失敗しました" response.

(** [deleteFile] returns [undefined] when the confirmation is declined. *)
Definition deleteFile (fileId : string) : M Value :=
  w <- ask ;;
  confirmed <- oracle (Confirm "このファイルを削除しますか？")
                 (fun w h => window_confirm w h "このファイルを削除しますか？") ;;
  if negb confirmed then ret VUndefined
  else
    headers <- getAuthHeaders ;;
    let req :=
      mkRequest (API_BASE_URL w ++ "/admin/delete") "POST" headers
        (Some (TextBody (stringify_field "file_id" fileId))) in
    p <- oracle (Fetch req) (fun w h => window_fetch w h req) ;;
    response <- await p ;;
    read_response "ファイル削除に失敗しました" response.

(** The own keys of [badges], with their markup. *)
Definition badges : list (string * string) :=
  [("uploaded", "<span class=" ++ dquote ++ "badge badge-uploaded" ++ dquote
                ++ ">アップロード済み</span>");
   ("indexing", "<span class=" ++ dquote ++ "badge badge-indexing" ++ dquote
                ++ ">処理中</span>");
   ("indexed", "<span class=" ++ dquote ++ "badge badge-indexed" ++ dquote
               ++ ">完了</span>");
   ("error", "<span class=" ++ dquote ++ "badge badge-error" ++ dquote
             ++ ">エラー</span>")].

(** The names every object literal inherits from [Object.prototype]; each
    of them reads as a function or an object, which is truthy. *)
Definition inherited : list string :=
  ["constructor"; "hasOwnProperty"; "isPrototypeOf"; "propertyIsEnumerable";
   "toLocaleString"; "toString"; "valueOf"; "__proto__";
   "__defineGetter__"; "__defineSetter__"; "__lookupGetter__"; "__lookupSetter__"].

(** What [getStatusBadge] returns: the markup of a badge, a member
    inherited from [Object.prototype], or the status it was given. *)
Inductive Badge : Type :=
| Html (markup : string)
| Member (name : string)
| Status (status : Value).

(** [badges[status] || status]: the key is the status as a string, and a
    status that has no string makes the read throw. *)
Definition getStatusBadge (g : Engine) (status : Value) : Settled Badge :=
  match ToString g status with
  | Rejected e => Rejected e
  | Fulfilled key =>
      Fulfilled match get_key key badges with
                | Some markup => Html markup
                | None =>
                    if existsb (String.eqb key) inherited then Member key
                    else Status status
                end
  end.

(** A badge as it is printed in the template of a row. *)
Definition badge_text (g : Engine) (b : Badge) : Settled string :=
  match b with
  | Html markup => Fulfilled markup
  | Member name => Fulfilled (inherited_toString g name)
  | Status status => ToString g status
  end.

(** The serialization of a text node: [&], [<], [>] and the no-break space
    (bytes 194 160) are written as character references. *)
Fixpoint escape_text (s : string) : string :=
  match s with
  | EmptyString => ""
  | String c rest =>
      let n := nat_of_ascii c in
      if (n =? 38)%nat then "&amp;" ++ escape_text rest
      else if (n =? 60)%nat then "&lt;" ++ escape_text rest
      else if (n =? 62)%nat then "&gt;" ++ escape_text rest
      else
        match rest with
        | String d rest' =>
            if ((n =? 194) && (nat_of_ascii d =? 160))%nat
            then "&nbsp;" ++ escape_text rest'
            else String c (escape_text rest)
        | EmptyString => String c ""
        end
  end.

(** [div.textContent = text; return div.innerHTML]: the assignment converts
    the value, and throws when it has no string. *)
Definition escapeHtml (g : Engine) (text : Value) : Settled string :=
  match textContent_of g text with
  | Fulfilled s => Fulfilled (escape_text s)
  | Rejected e => Rejected e
  end.

(** The markup of one row, in the order the callback of [forEach] works:
    the badge of [file.status], the date of [file.created_at], then the
    template from left to right.  Each read of [file] throws on a missing
    element, and each conversion may throw. *)
Definition row_html (g : Engine) (file : Value) : Settled string :=
  and_then (get file "status") (fun status =>
  and_then (getStatusBadge g status) (fun statusBadge =>
  and_then (get file "created_at") (fun created_at =>
  and_then (ToPrimitive g created_at) (fun date =>
  let createdAt := Date_toLocaleString g date "ja-JP" in
  and_then (get file "file_name") (fun file_name =>
  and_then (escapeHtml g file_name) (fun name =>
  and_then (badge_text g statusBadge) (fun badge =>
  and_then (get file "chunk_count") (fun chunk_count =>
  and_then (ToString g (or_else chunk_count (VNum 0))) (fun chunks =>
  and_then (get file "embedding_count") (fun embedding_count =>
  and_then (ToString g (or_else embedding_count (VNum 0))) (fun embeddings =>
  and_then (get file "id") (fun id =>
  and_then (ToString g id) (fun id_text =>
  Fulfilled
    (newline ++ "      <td>" ++ name ++ "</td>"
     ++ newline ++ "      <td>" ++ createdAt ++ "</td>"
     ++ newline ++ "      <td>" ++ badge ++ "</td>"
     ++ newline ++ "      <td>" ++ chunks ++ " / " ++ embeddings ++ "</td>"
     ++ newline ++ "      <td>"
     ++ newline ++ "        <button class=" ++ dquote ++ "btn btn-danger btn-sm" ++ dquote
     ++ " onclick=" ++ dquote ++ "handleDeleteFile('" ++ id_text ++ "')" ++ dquote ++ ">"
     ++ newline ++ "          削除"
     ++ newline ++ "        </button>"
     ++ newline ++ "      </td>"
     ++ newline ++ "    ")))))))))))))).

(** One row of the table: the row is appended once its markup is built. *)
Definition file_row (file : Value) : M unit :=
  w <- ask ;;
  markup <- await (row_html (engine w) file) ;;
  dom (AppendRow markup).

Definition displayFiles (files : Value) : M unit :=
  w <- ask ;;
  if negb (has_files_tbody (document w)) then ret tt
  else
    dom ClearRows ;;
    empty <- await (length_is_zero files) ;;
    if empty then
      dom (AppendRow ("<td colspan=" ++ dquote ++ "5" ++ dquote ++ " style=" ++ dquote
                      ++ "text-align: center;" ++ dquote ++ ">ファイルがありません</td>"))
    else
      match files with
      | VArr items => for_each file_row items
      | _ => throw (TypeError "files.forEach is not a function")
      end.

Definition showAlert (message type : string) : M unit :=
  w <- ask ;;
  if negb (has_alert_message (document w)) then ret tt
  else
    dom (ShowAlert ("alert alert-" ++ type) message) ;;
    dom (HideAlertAfter 5000).

Definition loadFiles : M unit :=
  w <- ask ;;
  let statusFilter := string_or (status_filter_value (document w)) "" in
  try_catch
    (data <- getFiles (if statusFilter =? "" then None else Some statusFilter) ;;
     files <- await (get data "files") ;;
     displayFiles files)
    (fun error => showAlert (message_or error "ファイル一覧の取得に失敗しました") "error").

Definition handleDeleteFile (fileId : string) : M unit :=
  try_catch
    (_ <- deleteFile fileId ;;
     loadFiles ;;
     showAlert "ファイルを削除しました" "success")
    (fun error => showAlert (message_or error "ファイル削除に失敗しました") "error").

End Admin.

(** ** [chat.js]: the chat gateway call and the submit workflow *)

Module Chat.
Import JS Browser Browser.Notations Auth.

Definition API_BASE_URL (w : World) : string :=
  string_or (window_API_BASE_URL (window w)) "http://localhost:7071/api".

Definition sendMessage (message : string) : M Value :=
  w <- ask ;;
  headers <- getAuthHeaders ;;
  let req :=
    mkRequest (API_BASE_URL w ++ "/chat") "POST" headers
      (Some (TextBody (stringify_field "message" message))) in
  p <- oracle (Fetch req) (fun w h => window_fetch w h req) ;;
  response <- await p ;;
  read_response "メッセージ送信に失敗しました" response.

(** The message is put on the page once [contentDiv.textContent = message]
    has converted it; a message that has no string makes the assignment
    throw, and nothing is put on the page. *)
Definition displayMessage (message : Value) (isUser : bool) : M unit :=
  w <- ask ;;
  if negb (has_chat_messages (document w)) then ret tt
  else
    text <- await (textContent_of (engine w) message) ;;
    dom (AppendMessage ("message " ++ (if isUser then "user" else "assistant"))
           (if isUser then "あなた" else "アシスタント") text).

(** The text of one list item:
    [`${source.file_name} (類似度: ${(source.similarity * 100).toFixed(1)}%)`],
    from left to right: the name is converted before the similarity is
    read. *)
Definition source_text (source : Value) : M string :=
  w <- ask ;;
  file_name <- await (get source "file_name") ;;
  name <- await (ToString (engine w) file_name) ;;
  similarity <- await (get source "similarity") ;;
  x <- await (ToNumber (engine w) similarity) ;;
  ret (name ++ " (類似度: " ++ toFixed (engine w) (x * 100)%float 1 ++ "%)").

Fixpoint map_m {A B} (f : A -> M B) (l : list A) : M (list B) :=
  match l with
  | [] => ret []
  | x :: rest =>
      y <- f x ;;
      ys <- map_m f rest ;;
      ret (y :: ys)
  end.

(** The list is attached to the page after every item has been built, so
    the page changes in one step, or not at all when an item throws. *)
Definition displaySources (sources : Value) : M unit :=
  w <- ask ;;
  if negb (truthy sources) then ret tt
  else
    empty <- await (length_is_zero sources) ;;
    if empty then ret tt
    else if negb (has_chat_messages (document w)) then ret tt
    else
      match sources with
      | VArr items =>
          texts <- map_m source_text items ;;
          dom (AppendSources "参考資料" texts)
      | _ => throw (TypeError "sources.forEach is not a function")
      end.

Definition displayError (message : string) : M unit :=
  w <- ask ;;
  if negb (has_chat_messages (document w)) then ret tt
  else dom (AppendError "エラー" message).

(** The state in which the listener sends a message: the user's message
    is on the page and the controls are disabled. *)
Definition submitting (message : string) (w : World) (s : State) : State :=
  mkState (supabaseClient s)
    (history s
     ++ [Dom PreventDefault]
     ++ (if has_chat_messages (document w)
         then [Dom (AppendMessage "message user" "あなた" message)] else [])
     ++ [Dom (SetInputValue ""); Dom (SetInputDisabled true)]
     ++ (if has_submit_button (document w)
         then [Dom (SetButtonDisabled true);
               Dom (SetButtonHTML ("<span class=" ++ dquote ++ "loading" ++ dquote
                                   ++ "></span> 送信中..."))]
         else []))%list.

(** The [try] block of the submit listener. *)
Definition exchange (message : string) : M unit :=
  w <- ask ;;
  response <- sendMessage message ;;
  answer <- await (get response "answer") ;;
  displayMessage answer false ;;
  sources <- await (get response "sources") ;;
  if truthy sources then
    positive <- await (length_positive (engine w) sources) ;;
    if positive then displaySources sources else ret tt
  else ret tt.

(** The [finally] block of the submit listener. *)
Definition enable_controls : M unit :=
  w <- ask ;;
  dom (SetInputDisabled false) ;;
  if has_submit_button (document w) then
    dom (SetButtonDisabled false) ;;
    dom (SetButtonText "送信")
  else ret tt.

(** The [submit] listener [initChat] installs on the chat form;
    [input_value] is [messageInput.value] when the form is submitted. *)
Definition onSubmit (input_value : string) : M unit :=
  w <- ask ;;
  dom PreventDefault ;;
  let message := trim input_value in
  if message =? "" then ret tt
  else
    displayMessage (VStr message) true ;;
    dom (SetInputValue "") ;;
    dom (SetInputDisabled true) ;;
    (if has_submit_button (document w) then
       dom (SetButtonDisabled true) ;;
       dom (SetButtonHTML ("<span class=" ++ dquote ++ "loading" ++ dquote ++ "></span> 送信中..."))
     else ret tt) ;;
    try_finally
      (try_catch (exchange message)
         (fun error => displayError (message_or error "メッセージ送信に失敗しました")))
      enable_controls.

End Chat.

(** ** The four gateway calls *)

Module Gateway.
Import JS Browser.

Inductive Call : Type :=
| SendMessage (message : string)
| GetFiles (status : option string)
| UploadFile (file : File)
| DeleteFile (fileId : string).

Definition run (c : Call) : M Value :=
  match c with
  | SendMessage message => Chat.sendMessage message
  | GetFiles status => Admin.getFiles status
  | UploadFile file => Admin.uploadFile file
  | DeleteFile fileId => Admin.deleteFile fileId
  end.

(** The message of each call for a failure the backend does not explain. *)
Definition fallback (c : Call) : string :=
  match c with
  | SendMessage _ => "メッセージ送信に失敗しました"
  | GetFiles _ => "ファイル一覧の取得に失敗しました"
  | UploadFile _ => "ファイルアップロードに失敗しました"
  | DeleteFile _ => "ファイル削除に失敗しました"
  end.

(** The question [deleteFile] asks before anything else. *)
Definition question : string := "このファイルを削除しますか？".

(** Whether the call goes on to the gateway: [deleteFile] does when the
    question is answered with yes, the other calls always do. *)
Definition accepted (c : Call) (w : World) (s : State) : bool :=
  match c with
  | DeleteFile _ => window_confirm w (history s) question
  | _ => true
  end.

(** The state in which the call asks for the token. *)
Definition entry (c : Call) (s : State) : State :=
  match c with
  | DeleteFile _ => log s (Confirm question)
  | _ => s
  end.

(** Between [s] and [s'] the last thing that happened is a request, and the
    world answered it with [response]. *)
Definition answered (w : World) (s s' : State) (response : Response) : Prop :=
  exists before req,
    since s s' = (before ++ [Fetch req])%list
    /\ window_fetch w (history s ++ before) req = Fulfilled response.

(** The request a call issues once it holds the headers. *)
Definition request (c : Call) (w : World) (h : list (string * string)) : Request :=
  match c with
  | SendMessage message =>
      mkRequest (Chat.API_BASE_URL w ++ "/chat") "POST" h
        (Some (TextBody (stringify_field "message" message)))
  | GetFiles status =>
      mkRequest
        (match status with
         | Some st =>
             if st =? "" then Admin.API_BASE_URL w ++ "/admin/files"
             else (Admin.API_BASE_URL w ++ "/admin/files") ++ "?status=" ++ st
         | None => Admin.API_BASE_URL w ++ "/admin/files"
         end) "GET" h None
  | UploadFile file =>
      mkRequest (Admin.API_BASE_URL w ++ "/admin/upload") "POST"
        [("Authorization",
          Admin.header_value (Admin.get_key "Authorization" (Admin.delete_key "Content-Type" h)))]
        (Some (FormBody [("file", file)]))
  | DeleteFile fileId =>
      mkRequest (Admin.API_BASE_URL w ++ "/admin/delete") "POST" h
        (Some (TextBody (stringify_field "file_id" fileId)))
  end.

(** No request among some events. *)
Definition silent (evs : list Event) : Prop := Forall no_fetch evs.

(** The error of a call that finds no usable token. *)
Definition no_token : Exception := Error "認証トークンが取得できませんでした".

End Gateway.

(** ** Concrete worlds and states *)

Module Examples.
Import JS Browser.

Definition engine0 : Engine :=
  mkEngine (fun _ => "0") (fun _ => PrimFloat.nan)
    (fun _ _ => "2024/1/15 9:30:00") (fun _ => "function () { [native code] }").

(** The check the identity library makes of its arguments. *)
Definition library_createClient (url key : string) : option Exception :=
  if url =? "" then Some (Error "supabaseUrl is required.")
  else if key =? "" then Some (Error "supabaseKey is required.")
  else None.

Definition window0 : Window :=
  mkWindow (Some "https://id.example") (Some "anon-key") (Some "https://api.example/api")
    (Some "admin@example.com,root@example.com").

Definition document0 : Document := mkDocument true true true true (Some "indexed").

(** The state of a freshly loaded page. *)
Definition fresh : State := mkState None [].

Definition alice : User := mkUser "u-1" (Some "admin@example.com").

Definition response_ok (body : Value) : Response := mkResponse 200 (Fulfilled body).

(** A world with a signed-in user whose backend answers every request
    with [reply]; [accept] is the answer to every [confirm]. *)
Definition signed_in (reply : Response) (accept : bool) : World :=
  mkWorld window0 document0 engine0 true library_createClient
    (fun _ => Fulfilled (mkUserResponse (Some alice) None))
    (fun _ => Fulfilled (mkSessionResponse (Some (mkSession "tok-123")) None))
    (fun _ _ => accept)
    (fun _ _ => Fulfilled reply).

(** A world with no session: the identity backend answers, and reports
    neither a user nor a session. *)
Definition signed_out (accept : bool) : World :=
  mkWorld window0 document0 engine0 true library_createClient
    (fun _ => Fulfilled (mkUserResponse None None))
    (fun _ => Fulfilled (mkSessionResponse None None))
    (fun _ _ => accept)
    (fun _ _ => Rejected (TypeError "Failed to fetch")).

(** A world whose identity backend reports an error. *)
Definition auth_failing : World :=
  mkWorld window0 document0 engine0 true library_createClient
    (fun _ => Fulfilled (mkUserResponse None (Some (mkAuthError "invalid JWT"))))
    (fun _ => Fulfilled (mkSessionResponse None (Some (mkAuthError "invalid JWT"))))
    (fun _ _ => true)
    (fun _ _ => Rejected (TypeError "Failed to fetch")).

(** A world whose identity query does not settle with a response: the
    promise is rejected. *)
Definition auth_rejecting : World :=
  mkWorld window0 document0 engine0 true library_createClient
    (fun _ => Rejected (mkException "AuthUnknownError" "unexpected failure"))
    (fun _ => Rejected (mkException "AuthUnknownError" "unexpected failure"))
    (fun _ _ => true)
    (fun _ _ => Rejected (TypeError "Failed to fetch")).

(** A page that did not load the identity library. *)
Definition no_library : World :=
  mkWorld window0 document0 engine0 false library_createClient
    (fun _ => Fulfilled (mkUserResponse None None))
    (fun _ => Fulfilled (mkSessionResponse None None))
    (fun _ _ => true)
    (fun _ _ => Rejected (TypeError "Failed to fetch")).

(** A page that loads the identity library but sets neither
    [SUPABASE_URL] nor [SUPABASE_ANON_KEY]: [createClient] gets two empty
    strings, and refuses them. *)
Definition not_configured : World :=
  mkWorld (mkWindow None None (Some "https://api.example/api") None)
    document0 engine0 true library_createClient
    (fun _ => Fulfilled (mkUserResponse (Some alice) None))
    (fun _ => Fulfilled (mkSessionResponse (Some (mkSession "tok-123")) None))
    (fun _ _ => true)
    (fun _ _ => Rejected (TypeError "Failed to fetch")).

(** A backend failure whose body is not JSON (an HTML error page). *)
Definition html_error : Response :=
  mkResponse 502 (Rejected (mkException "SyntaxError" "Unexpected token '<'"))%string.

(** A backend failure with a given JSON body. *)
Definition json_error (body : Value) : Response := mkResponse 500 (Fulfilled body).

(** A reply of the chat endpoint with one source of similarity 0.823. *)
Definition chat_reply : Value :=
  VObj [("answer", VStr "It is in the handbook.");
        ("sources", VArr [VObj [("file_name", VStr "handbook.pdf");
                                ("similarity", VNum 0x1.a5604189374bcp-1%float)]])].

End Examples.

(** ** [auth.js]: signing in and out *)

Module Session.
Import JS Browser Browser.Notations Auth.

(** What [signInWithPassword] resolves to, as [login] reads it: [data] is
    handed to the caller as it is, [error] is tested and read. *)
Record SignInData : Type := mkSignInData {
  signin_user : option User;
  signin_session : option Session
}.
Record SignInResponse : Type := mkSignInResponse {
  signin_data : SignInData;
  signin_error : option AuthError
}.

(** The two calls of the identity client that change the session.  They
    are answered from the history like the other oracles; the page's
    history itself records the queries and effects of the page, and is left
    as it is by these two calls. *)
Record Identity : Type := mkIdentity {
  auth_signInWithPassword : list Event -> string -> string -> Settled SignInResponse;
  auth_signOut : list Event -> Settled (option AuthError)
}.

(** The answer of a call that the history does not record. *)
Definition consult {A} (answer : list Event -> A) : M A :=
  fun _ s => (Returned (answer (history s)), s).

Definition login (id : Identity) (email password : string) : M SignInData :=
  client <- initSupabase ;;
  match client with
  | None => throw (Error "Supabaseクライアントが初期化されていません")
  | Some _ =>
      p <- consult (fun h => auth_signInWithPassword id h email password) ;;
      r <- await p ;;
      match signin_error r with
      | Some error => throw (Error (auth_message error))
      | None => ret (signin_data r)
      end
  end.

Definition logout (id : Identity) : M unit :=
  client <- initSupabase ;;
  match client with
  | None => ret tt
  | Some _ =>
      p <- consult (auth_signOut id) ;;
      error <- await p ;;
      match error with
      | Some error =>
          emit (ConsoleError "ログアウトエラー:" (Some error)) ;;
          throw (Error (auth_message error))
      | None => ret tt
      end
  end.

End Session.

(** ** [admin.js]: the upload listener *)

Module AdminPage.
Import JS Browser Browser.Notations Auth Admin.

(** The [try] block of the [change] listener of the file input. *)
Definition upload_and_reload (file : File) : M unit :=
  _ <- uploadFile file ;;
  showAlert "ファイルをアップロードしました" "success" ;;
  loadFiles ;;
  dom (SetInputValue "").

(** The [finally] block of the listener, on the upload button. *)
Definition enable_upload : M unit :=
  dom (SetButtonDisabled false) ;;
  dom (SetButtonText "アップロード").

(** The [change] listener [initAdmin] installs on the file input (it is
    installed when the input, the upload area and the upload button all
    exist); [file] is [e.target.files[0]]. *)
Definition onFileChange (file : option File) : M unit :=
  match file with
  | None => ret tt
  | Some file =>
      dom (SetButtonDisabled true) ;;
      dom (SetButtonText "アップロード中...") ;;
      try_finally
        (try_catch (upload_and_reload file)
           (fun error =>
              showAlert (message_or error "ファイルアップロードに失敗しました") "error"))
        enable_upload
  end.

End AdminPage.

(** ** What the workflows of a page do together *)

Module Lifecycle.
Import JS Browser.

(** How often the client handle was created. *)
Fixpoint creations (evs : list Event) : nat :=
  match evs with
  | [] => 0
  | CreateClient _ _ :: rest => S (creations rest)
  | _ :: rest => creations rest
  end.

(** The handle is created at most once, and not at all while
    [supabaseClient] is still [null]. *)
Definition single_client (s : State) : Prop :=
  (creations (history s) <= 1)%nat
  /\ (supabaseClient s = None -> creations (history s) = 0%nat).

(** An event of the identity client or the console: no request and no
    write to the page. *)
Definition behind_the_page (e : Event) : Prop :=
  match e with
  | ConsoleError _ _ | CreateClient _ _ | GetUser | GetSession => True
  | _ => False
  end.

(** [c] keeps [I]: from a state with [I] it ends in a state with [I],
    however it ends. *)
Definition keeps {A} (I : State -> Prop) (c : M A) : Prop :=
  forall w s r s', I s -> c w s = (r, s') -> I s'.

(** [c] issues at most [n] requests, in any world and from any state. *)
Definition sends_at_most {A} (n : nat) (c : M A) : Prop :=
  forall w s r s',
    c w s = (r, s') ->
    exists evs,
      history s' = (history s ++ evs)%list /\ (List.length (requests evs) <= n)%nat.

(** Between [s] and [s'] the last thing that happened is a request, and the
    network failed it with [e]. *)
Definition refused (w : World) (s s' : State) (e : Exception) : Prop :=
  exists before req,
    since s s' = (before ++ [Fetch req])%list
    /\ window_fetch w (history s ++ before) req = Rejected e.

(** The address of the backend: the configured one, or the local default
    when none or an empty one is configured. *)
Definition backend (w : World) : string :=
  match window_API_BASE_URL (window w) with
  | Some base => if base =? "" then "http://localhost:7071/api" else base
  | None => "http://localhost:7071/api"
  end.

(** A string of ASCII white space only: tabs, line feeds, vertical tabs,
    form feeds, carriage returns and spaces. *)
Fixpoint ascii_blank (s : string) : bool :=
  match s with
  | EmptyString => true
  | String c rest =>
      let n := nat_of_ascii c in
      (((9 <=? n) && (n <=? 13)) || (n =? 32))%nat && ascii_blank rest
  end.

(** What a user or a page script may start. *)
Inductive Workflow : Type :=
| GuardPage
| AskAdmin
| SignIn (id : Session.Identity) (email password : string)
| SignOut (id : Session.Identity)
| SubmitChat (input_value : string)
| ReloadFiles
| ChooseFile (file : option File)
| RemoveFile (fileId : string).

(** The state a workflow leaves, however it ends. *)
Definition perform (a : Workflow) (w : World) (s : State) : State :=
  match a with
  | GuardPage => snd (Auth.requireAuth w s)
  | AskAdmin => snd (Auth.isAdmin w s)
  | SignIn id email password => snd (Session.login id email password w s)
  | SignOut id => snd (Session.logout id w s)
  | SubmitChat input_value => snd (Chat.onSubmit input_value w s)
  | ReloadFiles => snd (Admin.loadFiles w s)
  | ChooseFile file => snd (AdminPage.onFileChange file w s)
  | RemoveFile fileId => snd (Admin.handleDeleteFile fileId w s)
  end.

(** One workflow after the other. *)
Fixpoint perform_all (l : list Workflow) (w : World) (s : State) : State :=
  match l with
  | [] => s
  | a :: rest => perform_all rest w (perform a w s)
  end.

End Lifecycle.

(** ** More concrete worlds *)

Module Examples2.
Import JS Browser Session.

(** An identity service that rejects the credentials. *)
Definition rejecting : Identity :=
  mkIdentity
    (fun _ _ _ =>
       Fulfilled (mkSignInResponse (mkSignInData None None)
                    (Some (mkAuthError "Invalid login credentials"))))
    (fun _ => Fulfilled (Some (mkAuthError "session not found"))).

(** An identity service that accepts. *)
Definition accepting : Identity :=
  mkIdentity
    (fun _ _ _ =>
       Fulfilled (mkSignInResponse
                    (mkSignInData (Some Examples.alice) (Some (mkSession "tok-123"))) None))
    (fun _ => Fulfilled None).

(** A signed-in world whose session carries the empty token. *)
Definition empty_token : World :=
  mkWorld Examples.window0 Examples.document0 Examples.engine0 true
    Examples.library_createClient
    (fun _ => Fulfilled (mkUserResponse (Some Examples.alice) None))
    (fun _ => Fulfilled (mkSessionResponse (Some (mkSession "")) None))
    (fun _ _ => true)
    (fun _ _ => Fulfilled (Examples.response_ok VNull)).

(** A signed-in world without network. *)
Definition offline : World :=
  mkWorld Examples.window0 Examples.document0 Examples.engine0 true
    Examples.library_createClient
    (fun _ => Fulfilled (mkUserResponse (Some Examples.alice) None))
    (fun _ => Fulfilled (mkSessionResponse (Some (mkSession "tok-123")) None))
    (fun _ _ => true)
    (fun _ _ => Rejected (TypeError "Failed to fetch")).

(** A signed-in world whose pages configure no backend address. *)
Definition unconfigured : World :=
  mkWorld (mkWindow (Some "https://id.example") (Some "anon-key") None None)
    Examples.document0 Examples.engine0 true Examples.library_createClient
    (fun _ => Fulfilled (mkUserResponse (Some Examples.alice) None))
    (fun _ => Fulfilled (mkSessionResponse (Some (mkSession "tok-123")) None))
    (fun _ _ => true)
    (fun _ _ => Fulfilled (Examples.response_ok (VObj [("files", VArr [])]))).

End Examples2.

(** * Properties *)

Import JS Browser Browser.Notations.

Ltac unfold_monad :=
  cbv [bind ret throw ask emit dom await oracle get_client set_client
       try_catch try_finally] in *.

(** ** Splitting on commas, rounding to a digit *)

Section EngineFacts.

Lemma split_nonempty (sep : ascii) (s : string) : split sep s <> [].
Proof.
  destruct s as [|c rest]; simpl; [discriminate|].
  destruct (Ascii.eqb c sep); [discriminate|].
  destruct (split sep rest); discriminate.
Qed.

(** Joining the pieces with the separator gives the string back. *)
Lemma join_split (sep : ascii) (s : string) :
  join (String sep "") (split sep s) = s.
Proof.
  induction s as [|c rest IH]; [reflexivity|]. simpl.
  destruct (Ascii.eqb_spec c sep) as [->|Hc].
  - pose proof (split_nonempty sep rest) as Hne.
    destruct (split sep rest) as [|x xs]; [congruence|].
    change (join (String sep "") ("" :: x :: xs))
      with ("" ++ String sep "" ++ join (String sep "") (x :: xs)).
    rewrite IH. reflexivity.
  - destruct (split sep rest) as [|x xs]; [simpl in IH; subst; reflexivity|].
    destruct xs as [|y ys]; simpl in *; rewrite <- IH; reflexivity.
Qed.


(** [nearest_scaled m e f] is the integer nearest to [m * 2^e * 10^f], the
    larger one of two: for a negative exponent, with [d = 2^(-e)],
    [n - 1/2 <= m * 10^f / d < n + 1/2]. *)
Lemma nearest_scaled_spec (m : positive) (e : Z) (f : nat) :
  (e < 0)%Z ->
  ((2 * nearest_scaled m e f - 1) * 2 ^ (- e) <= 2 * (Z.pos m * 10 ^ Z.of_nat f)
   < (2 * nearest_scaled m e f + 1) * 2 ^ (- e))%Z.
Proof.
  intros He. unfold nearest_scaled.
  destruct (Z.leb_spec 0 e) as [Hle|_]; [lia|].
  replace (1 - e)%Z with (Z.succ (- e)) by lia.
  rewrite Z.pow_succ_r by lia.
  set (p := (Z.pos m * 10 ^ Z.of_nat f)%Z).
  set (d := (2 ^ (- e))%Z).
  assert (Hd : (0 < d)%Z) by (apply Z.pow_pos_nonneg; lia).
  pose proof (Z.div_mod (2 * p + d) (2 * d) ltac:(lia)) as Hdm.
  pose proof (Z.mod_pos_bound (2 * p + d) (2 * d) ltac:(lia)) as Hm.
  nia.
Qed.

Lemma nearest_scaled_exact (m : positive) (e : Z) (f : nat) :
  (0 <= e)%Z -> nearest_scaled m e f = (Z.pos m * 10 ^ Z.of_nat f * 2 ^ e)%Z.
Proof.
  intros He. unfold nearest_scaled.
  destruct (Z.leb_spec 0 e); [reflexivity|lia].
Qed.

(** Below [10^21] a finite value is printed from its nearest tenth,
    hundredth, ... *)
Lemma toFixed_fixed (g : Engine) (x : float) (f : nat) (sgn : bool) (m : positive) (e : Z) :
  Prim2SF x = S754_finite sgn m e ->
  at_least_1e21 m e = false ->
  toFixed g x f = (if sgn then "-" else "") ++ place_point (nearest_scaled m e f) f.
Proof. intros Hx Hlt. unfold toFixed. rewrite Hx, Hlt. reflexivity. Qed.

Example toFixed_0_823 (g : Engine) :
  toFixed g (0x1.a5604189374bcp-1 * 100)%float 1 = "82.3".
Proof. reflexivity. Qed.

Example toFixed_tie (g : Engine) : toFixed g 0.25%float 1 = "0.3".
Proof. reflexivity. Qed.

Example toFixed_negative (g : Engine) : toFixed g (-0.5)%float 0 = "-1".
Proof. reflexivity. Qed.

Example trim_both_ends :
  trim (bytes [32; 9; 227; 128; 128] ++ "test question" ++ bytes [10; 194; 160])
  = "test question".
Proof. reflexivity. Qed.

Example stringify_escapes :
  stringify_field "message" ("a" ++ dquote ++ "b" ++ bytes [10])
  = "{" ++ dquote ++ "message" ++ dquote ++ ":" ++ dquote
    ++ "a" ++ backslash ++ dquote ++ "b" ++ backslash ++ "n" ++ dquote ++ "}".
Proof. reflexivity. Qed.

End EngineFacts.

(** ** The history only grows *)

Section History.

Lemma since_app (s s' : State) (evs : list Event) :
  history s' = (history s ++ evs)%list -> since s s' = evs.
Proof.
  intros H. unfold since. rewrite H.
  rewrite skipn_app, skipn_all, Nat.sub_diag. reflexivity.
Qed.

Lemma since_log (s : State) (e : Event) : since s (log s e) = [e].
Proof. apply since_app. reflexivity. Qed.

Lemma requests_app (a b : list Event) : requests (a ++ b) = (requests a ++ requests b)%list.
Proof.
  induction a as [|e a IH]; simpl; [reflexivity|].
  destruct e; simpl; rewrite ?IH; reflexivity.
Qed.

End History.

(** ** What a computation may record *)

Section Only.
Context {A B : Type} (Q : Event -> Prop).

Lemma only_ret (a : A) : only Q (ret a).
Proof.
  intros w s r s' H. inversion H; subst. exists []. rewrite app_nil_r.
  split; [reflexivity|constructor].
Qed.

Lemma only_throw (e : Exception) : only Q (@throw A e).
Proof.
  intros w s r s' H. inversion H; subst. exists []. rewrite app_nil_r.
  split; [reflexivity|constructor].
Qed.

Lemma only_await (p : Settled A) : only Q (await p).
Proof. destruct p; [apply only_ret|apply only_throw]. Qed.

Lemma only_bind (c : M A) (k : A -> M B) :
  only Q c -> (forall a, only Q (k a)) -> only Q (bind c k).
Proof.
  intros Hc Hk w s r s' H. unfold bind in H.
  destruct (c w s) as [[a|e] s1] eqn:Ec.
  - destruct (Hc _ _ _ _ Ec) as (e1 & H1 & Q1).
    destruct (Hk a _ _ _ _ H) as (e2 & H2 & Q2).
    exists (e1 ++ e2)%list. rewrite H2, H1, app_assoc.
    split; [reflexivity|]. apply Forall_app. split; assumption.
  - inversion H; subst. exact (Hc _ _ _ _ Ec).
Qed.

Lemma only_try_catch (c : M A) (h : Exception -> M A) :
  only Q c -> (forall e, only Q (h e)) -> only Q (try_catch c h).
Proof.
  intros Hc Hh w s r s' H. unfold try_catch in H.
  destruct (c w s) as [[a|e] s1] eqn:Ec.
  - inversion H; subst. exact (Hc _ _ _ _ Ec).
  - destruct (Hc _ _ _ _ Ec) as (e1 & H1 & Q1).
    destruct (Hh e _ _ _ _ H) as (e2 & H2 & Q2).
    exists (e1 ++ e2)%list. rewrite H2, H1, app_assoc.
    split; [reflexivity|]. apply Forall_app. split; assumption.
Qed.

End Only.

Lemma only_emit (Q : Event -> Prop) (e : Event) : Q e -> only Q (emit e).
Proof.
  intros He w s r s' H. inversion H; subst. exists [e].
  split; [reflexivity|]. repeat constructor. exact He.
Qed.

Lemma only_oracle {A} (Q : Event -> Prop) (e : Event) (f : World -> list Event -> A) :
  Q e -> only Q (oracle e f).
Proof.
  intros He w s r s' H. inversion H; subst. exists [e].
  split; [reflexivity|]. repeat constructor. exact He.
Qed.

Lemma only_ask (Q : Event -> Prop) : only Q ask.
Proof.
  intros w s r s' H. inversion H; subst. exists []. rewrite app_nil_r.
  split; [reflexivity|constructor].
Qed.

Lemma only_for_each {A} (Q : Event -> Prop) (f : A -> M unit) (l : list A) :
  (forall a, only Q (f a)) -> only Q (for_each f l).
Proof.
  intros Hf. induction l as [|x l IH]; simpl.
  - apply only_ret.
  - apply only_bind; [apply Hf|intros _; exact IH].
Qed.

Lemma only_weaken {A} (P Q : Event -> Prop) (c : M A) :
  (forall e, P e -> Q e) -> only P c -> only Q c.
Proof.
  intros HPQ Hc w s r s' H. destruct (Hc _ _ _ _ H) as (evs & H1 & H2).
  exists evs. split; [exact H1|]. eapply Forall_impl; eauto.
Qed.

Lemma only_since {A} (Q : Event -> Prop) (c : M A) (w : World) (s : State) :
  only Q c -> Forall Q (since s (snd (c w s))).
Proof.
  intros Hc. destruct (c w s) as [r s'] eqn:E.
  destruct (Hc _ _ _ _ E) as (evs & H1 & H2). simpl.
  rewrite (since_app _ _ _ H1). exact H2.
Qed.

(** ** The session provider *)

Section SessionProviderClaims.
Import Auth.

Lemma initSupabase_eq (w : World) (s : State) :
  initSupabase w s =
  (match client_error w s with
   | Some e => Thrown e
   | None =>
       if supabase_defined w
       then Returned (Some (match supabaseClient s with
                            | Some c => c
                            | None => mkClient (SUPABASE_URL w) (SUPABASE_ANON_KEY w)
                            end))
       else Returned None
   end,
   client_state w s).
Proof.
  unfold initSupabase, createClient, client_error, client_state. unfold_monad.
  destruct (supabase_defined w); simpl; [|reflexivity].
  destruct (supabaseClient s); [reflexivity|].
  destruct (supabase_createClient w _ _); reflexivity.
Qed.

(** A refused creation leaves the state as it is. *)
Lemma client_state_refused (w : World) (s : State) (e : Exception) :
  client_error w s = Some e -> client_state w s = s.
Proof.
  unfold client_error, client_state.
  destruct (supabase_defined w); [|discriminate].
  destruct (supabaseClient s); [discriminate|].
  destruct (supabase_createClient w _ _); [reflexivity|discriminate].
Qed.

Lemma getCurrentUser_eq (w : World) (s : State) :
  getCurrentUser w s =
  match client_error w s with
  | Some e => (Thrown e, client_state w s)
  | None =>
      if supabase_defined w then
        match auth_getUser w (history (client_state w s)) with
        | Fulfilled r =>
            match user_error r with
            | Some error =>
                (Returned None,
                 log (log (client_state w s) GetUser)
                   (ConsoleError "ユーザー取得エラー:" (Some error)))
            | None => (Returned (data_user r), log (client_state w s) GetUser)
            end
        | Rejected e => (Thrown e, log (client_state w s) GetUser)
        end
      else (Returned None, client_state w s)
  end.
Proof.
  unfold getCurrentUser, bind at 1. rewrite initSupabase_eq.
  destruct (client_error w s); [reflexivity|].
  destruct (supabase_defined w); [|reflexivity].
  unfold_monad. destruct (auth_getUser w _) as [r|e]; [|reflexivity].
  destruct (user_error r); reflexivity.
Qed.

Lemma getAuthToken_eq (w : World) (s : State) :
  getAuthToken w s =
  match client_error w s with
  | Some e => (Thrown e, client_state w s)
  | None =>
      if supabase_defined w then
        match auth_getSession w (history (client_state w s)) with
        | Fulfilled r =>
            (Returned match session_error r, data_session r with
                      | None, Some session => Some (access_token session)
                      | _, _ => None
                      end,
             log (client_state w s) GetSession)
        | Rejected e => (Thrown e, log (client_state w s) GetSession)
        end
      else (Returned None, client_state w s)
  end.
Proof.
  unfold getAuthToken, bind at 1. rewrite initSupabase_eq.
  destruct (client_error w s); [reflexivity|].
  destruct (supabase_defined w); [|reflexivity].
  unfold_monad. destruct (auth_getSession w _) as [r|e]; [|reflexivity].
  destruct (session_error r), (data_session r); reflexivity.
Qed.

(** C8 (as amended): [getCurrentUser] returns to its caller whenever the
    client library is missing, or the client handle exists or can be
    created and the identity query settles with a response: with the
    library missing it logs and returns none; on a response that reports an
    error it logs the error and returns none; on a response without error
    it returns the response's user (or none).  When the promise of the
    query is rejected, that rejection is thrown to the caller; and when
    [createClient] refuses the configuration of the page, its error is
    thrown to the caller, with nothing logged. *)
Theorem getCurrentUser_returns_on_response (w : World) (s : State) :
  (supabase_defined w = false ->
   getCurrentUser w s
   = (Returned None, log s (ConsoleError "Supabaseクライアントが読み込まれていません" None)))
  /\ (supabase_defined w = true ->
      client_error w s = None ->
      forall r, auth_getUser w (history (client_state w s)) = Fulfilled r ->
      getCurrentUser w s
      = match user_error r with
        | Some error =>
            (Returned None,
             log (log (client_state w s) GetUser) (ConsoleError "ユーザー取得エラー:" (Some error)))
        | None => (Returned (data_user r), log (client_state w s) GetUser)
        end)
  /\ (supabase_defined w = true ->
      client_error w s = None ->
      forall e, auth_getUser w (history (client_state w s)) = Rejected e ->
      getCurrentUser w s = (Thrown e, log (client_state w s) GetUser))
  /\ (forall e, client_error w s = Some e -> getCurrentUser w s = (Thrown e, s)).
Proof.
  rewrite getCurrentUser_eq.
  split; [|split; [|split]].
  - intros H. unfold client_error, client_state. rewrite H. reflexivity.
  - intros H Hc r Hr. rewrite Hc, H, Hr. reflexivity.
  - intros H Hc e He. rewrite Hc, H, He. reflexivity.
  - intros e He. rewrite He, (client_state_refused _ _ _ He). reflexivity.
Qed.

(** C8 (as stated) fails: a query whose promise is rejected makes
    [getCurrentUser] throw. *)
Lemma getCurrentUser_can_throw :
  exists e s', getCurrentUser Examples.auth_rejecting Examples.fresh = (Thrown e, s').
Proof. do 2 eexists. reflexivity. Qed.

Lemma getCurrentUser_returns_on_response_witness :
  getCurrentUser Examples.no_library Examples.fresh
  = (Returned None,
     log Examples.fresh (ConsoleError "Supabaseクライアントが読み込まれていません" None))
  /\ fst (getCurrentUser Examples.auth_failing Examples.fresh) = Returned None
  /\ fst (getCurrentUser Examples.auth_rejecting Examples.fresh)
     = Thrown (mkException "AuthUnknownError" "unexpected failure")
  /\ getCurrentUser Examples.not_configured Examples.fresh
     = (Thrown (Error "supabaseUrl is required."), Examples.fresh).
Proof.
  split; [|split; [|split]].
  - apply (proj1 (getCurrentUser_returns_on_response Examples.no_library Examples.fresh)).
    reflexivity.
  - rewrite (proj1 (proj2 (getCurrentUser_returns_on_response Examples.auth_failing
                             Examples.fresh)) eq_refl eq_refl _ eq_refl).
    reflexivity.
  - rewrite (proj1 (proj2 (proj2 (getCurrentUser_returns_on_response Examples.auth_rejecting
                                    Examples.fresh))) eq_refl eq_refl _ eq_refl).
    reflexivity.
  - apply (proj2 (proj2 (proj2 (getCurrentUser_returns_on_response Examples.not_configured
                                  Examples.fresh)))).
    reflexivity.
Defined.

Lemma getCurrentUser_stays (w : World) (s : State) :
  exists evs,
    history (snd (getCurrentUser w s)) = (history s ++ evs)%list /\ Forall stays evs.
Proof.
  rewrite getCurrentUser_eq. unfold client_state, client_error.
  destruct (supabase_defined w).
  - destruct (supabaseClient s).
    + destruct (auth_getUser w _) as [r|e]; [destruct (user_error r)|]; simpl;
        rewrite <- ?app_assoc; eexists; (split; [reflexivity|repeat constructor]).
    + destruct (supabase_createClient w _ _).
      * exists []. rewrite app_nil_r. split; [reflexivity|constructor].
      * destruct (auth_getUser w _) as [r|e]; [destruct (user_error r)|]; simpl;
          rewrite <- ?app_assoc; eexists; (split; [reflexivity|repeat constructor]).
  - simpl. eexists. split; [reflexivity|repeat constructor].
Qed.

(** C7 (as amended): [requireAuth] returns true, and leaves the location
    alone, when [getCurrentUser] resolves a user; when it resolves none,
    [requireAuth] sets the location to [/login.html] and returns false; and
    when [getCurrentUser] throws, [requireAuth] throws the same error and
    leaves the location alone.  So the location is written at most once,
    to [/login.html], and only when [getCurrentUser] resolved no user. *)
Theorem requireAuth_guards (w : World) (s s' : State) :
  (forall u, getCurrentUser w s = (Returned (Some u), s') ->
             requireAuth w s = (Returned true, s'))
  /\ (getCurrentUser w s = (Returned None, s') ->
      requireAuth w s = (Returned false, log s' (SetLocation "/login.html")))
  /\ (forall e, getCurrentUser w s = (Thrown e, s') ->
                requireAuth w s = (Thrown e, s'))
  /\ (forall href,
         In (SetLocation href) (since s (snd (requireAuth w s))) ->
         href = "/login.html"
         /\ fst (getCurrentUser w s) = Returned None
         /\ fst (requireAuth w s) = Returned false).
Proof.
  unfold requireAuth, checkAuth, bind, ret, emit.
  split; [|split; [|split]].
  - intros u H. rewrite H. reflexivity.
  - intros H. rewrite H. reflexivity.
  - intros e H. rewrite H. reflexivity.
  - intros href. destruct (getCurrentUser_stays w s) as (evs & Hevs & Hst).
    rewrite Forall_forall in Hst.
    destruct (getCurrentUser w s) as [[[u|]|e] s1]; cbn [fst snd negb] in *.
    + rewrite (since_app _ _ _ Hevs). intros Hin. destruct (Hst _ Hin).
    + rewrite (since_app s _ (evs ++ [SetLocation "/login.html"])%list)
        by (unfold log; cbn [history]; rewrite Hevs, app_assoc; reflexivity).
      intros Hin. apply in_app_or in Hin. destruct Hin as [Hin|[Hin|[]]].
      * destruct (Hst _ Hin).
      * inversion Hin. repeat split; reflexivity.
    + rewrite (since_app _ _ _ Hevs). intros Hin. destruct (Hst _ Hin).
Qed.

(** C7 (as stated) fails: when the promise of the identity query is
    rejected, no authenticated user is resolved, and yet [requireAuth]
    neither returns false nor writes the location: it throws.  The same
    happens on a page whose configuration [createClient] refuses. *)
Lemma requireAuth_throws_without_redirect :
  (fst (getCurrentUser Examples.auth_rejecting Examples.fresh)
   = Thrown (mkException "AuthUnknownError" "unexpected failure")
   /\ requireAuth Examples.auth_rejecting Examples.fresh
      = (Thrown (mkException "AuthUnknownError" "unexpected failure"),
         mkState (Some (mkClient "https://id.example" "anon-key"))
           [CreateClient "https://id.example" "anon-key"; GetUser]))
  /\ (fst (getCurrentUser Examples.not_configured Examples.fresh)
      = Thrown (Error "supabaseUrl is required.")
      /\ requireAuth Examples.not_configured Examples.fresh
         = (Thrown (Error "supabaseUrl is required."), Examples.fresh)).
Proof. repeat split; reflexivity. Qed.

Lemma requireAuth_guards_witness :
  fst (requireAuth (Examples.signed_in (Examples.response_ok VNull) true) Examples.fresh)
  = Returned true
  /\ since Examples.fresh (snd (requireAuth (Examples.signed_out true) Examples.fresh))
     = [CreateClient "https://id.example" "anon-key"; GetUser; SetLocation "/login.html"]
  /\ fst (requireAuth Examples.auth_rejecting Examples.fresh)
     = Thrown (mkException "AuthUnknownError" "unexpected failure").
Proof.
  split; [|split].
  - rewrite (proj1 (requireAuth_guards (Examples.signed_in (Examples.response_ok VNull) true)
                      Examples.fresh _) Examples.alice eq_refl).
    reflexivity.
  - rewrite (proj1 (proj2 (requireAuth_guards (Examples.signed_out true) Examples.fresh _))
               eq_refl).
    reflexivity.
  - rewrite (proj1 (proj2 (proj2 (requireAuth_guards Examples.auth_rejecting Examples.fresh _)))
               _ eq_refl).
    reflexivity.
Defined.

Lemma includes_In (arr : list string) (e : string) :
  includes arr (Some e) = true <-> In e arr.
Proof.
  simpl. rewrite existsb_exists. split.
  - intros (x & Hx & Heq). apply String.eqb_eq in Heq. subst. exact Hx.
  - intros H. exists e. split; [exact H|apply String.eqb_refl].
Qed.

(** C3: whatever [getCurrentUser] resolves, [isAdmin] returns; it returns
    true exactly when a user is present, the allow-list is set and not
    empty, and the user's email is equal to one of the pieces of the
    allow-list split on commas; it returns false when no user is resolved
    and when the allow-list is empty or unset. *)
Theorem isAdmin_iff_allow_listed (w : World) (s s' : State) (u : option User) :
  getCurrentUser w s = (Returned u, s') ->
  exists b,
    isAdmin w s = (Returned b, s')
    /\ (b = true <->
        exists usr e l,
          u = Some usr /\ email usr = Some e
          /\ window_ADMIN_EMAILS (window w) = Some l /\ l <> "" /\ In e (split "," l))
    /\ (u = None -> b = false)
    /\ (window_ADMIN_EMAILS (window w) = None \/ window_ADMIN_EMAILS (window w) = Some "" ->
        b = false).
Proof.
  intros H. unfold isAdmin, bind, ask, ret. rewrite H.
  destruct u as [usr|].
  - eexists. split; [reflexivity|]. split; [|split].
    + split.
      * intros Hb. destruct (email usr) as [e|] eqn:Ee; [|discriminate].
        destruct (window_ADMIN_EMAILS (window w)) as [l|] eqn:El; [|discriminate].
        destruct (String.eqb_spec l ""); [discriminate|].
        exists usr, e, l. repeat split; try assumption. apply includes_In. exact Hb.
      * intros (usr' & e & l & Hu & He & Hl & Hne & Hin). inversion Hu; subst usr'.
        rewrite He, Hl. apply String.eqb_neq in Hne. rewrite Hne.
        apply includes_In. exact Hin.
    + discriminate.
    + intros [Hn | Hn]; rewrite Hn; simpl; destruct (email usr); reflexivity.
  - exists false. split; [reflexivity|]. split; [|split]; try reflexivity.
    split; [discriminate|]. intros (usr & e & l & Hu & _). discriminate.
Qed.

Lemma isAdmin_iff_allow_listed_witness :
  isAdmin (Examples.signed_in (Examples.response_ok VNull) true) Examples.fresh
  = (Returned true,
     snd (getCurrentUser (Examples.signed_in (Examples.response_ok VNull) true)
            Examples.fresh)).
Proof.
  destruct (isAdmin_iff_allow_listed
              (Examples.signed_in (Examples.response_ok VNull) true) Examples.fresh _ _ eq_refl)
    as (b & Hrun & Hiff & _).
  rewrite Hrun. f_equal. f_equal. apply Hiff.
  exists Examples.alice, "admin@example.com", "admin@example.com,root@example.com".
  repeat split; try reflexivity; [discriminate|simpl; auto].
Defined.

End SessionProviderClaims.

(** ** The gateway *)

Section GatewayLemmas.
Import Auth Gateway.

Lemma silent_requests (evs : list Event) : silent evs -> requests evs = [].
Proof.
  induction 1 as [|e evs He _ IH]; [reflexivity|].
  destruct e; simpl; try exact IH. destruct He.
Qed.

Lemma silent_not_last (evs before : list Event) (req : Request) :
  silent evs -> evs <> (before ++ [Fetch req])%list.
Proof.
  intros Hs Heq. subst evs. apply Forall_app in Hs. destruct Hs as [_ Hs].
  inversion Hs as [|e l He Hl]; subst. exact He.
Qed.

Lemma createClient_only (url key : string) : only no_fetch (createClient url key).
Proof.
  unfold createClient. apply only_bind; [apply only_ask|intros w].
  destruct (supabase_createClient w url key); [apply only_throw|].
  apply only_bind; [apply only_emit; exact I|intros _; apply only_ret].
Qed.

Lemma initSupabase_only : only no_fetch initSupabase.
Proof.
  unfold initSupabase. apply only_bind; [apply only_ask|intros w].
  destruct (supabase_defined w); simpl.
  - apply only_bind; [intros ? ? ? ? H; inversion H; subst; exists [];
                       rewrite app_nil_r; split; [reflexivity|constructor]|].
    intros [c|]; [apply only_ret|].
    apply only_bind; [apply createClient_only|intros client].
    apply only_bind; [|intros _; apply only_ret].
    intros ? ? ? ? H; inversion H; subst; exists []; simpl.
    rewrite app_nil_r; split; [reflexivity|constructor].
  - apply only_bind; [apply only_emit; exact I|intros _; apply only_ret].
Qed.

(** Asking for the token never issues a request. *)
Lemma getAuthToken_only : only no_fetch getAuthToken.
Proof.
  unfold getAuthToken. apply only_bind; [apply initSupabase_only|].
  intros [c|]; [|apply only_ret].
  apply only_bind; [apply only_oracle; exact I|intros p].
  apply only_bind; [apply only_await|intros r].
  destruct (session_error r), (data_session r); apply only_ret.
Qed.

Lemma getAuthHeaders_eq (w : World) (s : State) :
  getAuthHeaders w s =
  match getAuthToken w s with
  | (Returned (Some t), s1) =>
      if t =? "" then (Thrown no_token, s1)
      else (Returned [("Authorization", "Bearer " ++ t); ("Content-Type", "application/json")], s1)
  | (Returned None, s1) => (Thrown no_token, s1)
  | (Thrown e, s1) => (Thrown e, s1)
  end.
Proof.
  unfold getAuthHeaders, bind. destruct (getAuthToken w s) as [[[t|]|e] s1]; try reflexivity.
  destruct (t =? ""); reflexivity.
Qed.

Lemma getAuthHeaders_only : only no_fetch getAuthHeaders.
Proof.
  unfold getAuthHeaders. apply only_bind; [apply getAuthToken_only|].
  intros [t|]; [destruct (t =? "")|]; (apply only_throw || apply only_ret).
Qed.

Lemma read_response_state (fb : string) (resp : Response) (w : World) (s : State) :
  snd (read_response fb resp w s) = s.
Proof.
  unfold read_response. unfold_monad.
  destruct (ok resp); simpl.
  - destruct (json resp); reflexivity.
  - destruct (json resp) as [v|e]; [|reflexivity].
    destruct (get v "detail") as [d|e]; [|reflexivity].
    destruct (ToString (engine w) (or_else d (VStr fb))); reflexivity.
Qed.

(** Every gateway call has the same shape. *)
Lemma run_eq (c : Call) (w : World) (s : State) :
  run c w s =
  if accepted c w s then
    match getAuthHeaders w (entry c s) with
    | (Returned h, s1) =>
        match window_fetch w (history s1) (request c w h) with
        | Fulfilled resp => read_response (fallback c) resp w (log s1 (Fetch (request c w h)))
        | Rejected e => (Thrown e, log s1 (Fetch (request c w h)))
        end
    | (Thrown e, s1) => (Thrown e, s1)
    end
  else (Returned VUndefined, entry c s).
Proof.
  destruct c as [message|status|file|fileId]; simpl.
  - unfold Chat.sendMessage, bind, ask, oracle, await.
    destruct (getAuthHeaders w s) as [[h|e] s1]; [|reflexivity].
    destruct (window_fetch w (history s1) _); reflexivity.
  - unfold Admin.getFiles, bind, ask, oracle, await.
    destruct (getAuthHeaders w s) as [[h|e] s1]; [|reflexivity].
    destruct status as [st|]; [destruct (st =? "")|];
      destruct (window_fetch w (history s1) _); reflexivity.
  - unfold Admin.uploadFile, bind, ask, oracle, await.
    destruct (getAuthHeaders w s) as [[h|e] s1]; [|reflexivity].
    destruct (window_fetch w (history s1) _); reflexivity.
  - unfold Admin.deleteFile, bind, ask, oracle, await. fold question.
    destruct (window_confirm w (history s) question); simpl; [|reflexivity].
    destruct (getAuthHeaders w (log s (Confirm question))) as [[h|e] s1]; [|reflexivity].
    destruct (window_fetch w (history s1) _); reflexivity.
Qed.

Lemma entry_grows (c : Call) (s : State) :
  exists evs, history (entry c s) = (history s ++ evs)%list /\ silent evs.
Proof.
  destruct c; simpl; try (exists []; rewrite app_nil_r; split; [reflexivity|constructor]).
  eexists. split; [reflexivity|]. repeat constructor.
Qed.

(** The state in which a call holds the headers, seen from its start. *)
Lemma headers_state_grows (c : Call) (w : World) (s s1 : State)
      (r : Outcome (list (string * string))) :
  getAuthHeaders w (entry c s) = (r, s1) ->
  exists evs, history s1 = (history s ++ evs)%list /\ silent evs.
Proof.
  intros H. destruct (entry_grows c s) as (e0 & H0 & S0).
  destruct (getAuthHeaders_only _ _ _ _ H) as (e1 & H1 & S1).
  exists (e0 ++ e1)%list. rewrite H1, H0, app_assoc. split; [reflexivity|].
  apply Forall_app. split; assumption.
Qed.

(** A call that was answered got as far as its request, and ends as the
    lines that read the response end. *)
Lemma answered_inv (c : Call) (w : World) (s : State) (resp : Response) :
  answered w s (snd (run c w s)) resp ->
  exists h s1,
    accepted c w s = true
    /\ getAuthHeaders w (entry c s) = (Returned h, s1)
    /\ window_fetch w (history s1) (request c w h) = Fulfilled resp
    /\ run c w s = read_response (fallback c) resp w (log s1 (Fetch (request c w h))).
Proof.
  intros (before & req & Hsince & Hfetch). rewrite run_eq in *.
  destruct (accepted c w s).
  - destruct (getAuthHeaders w (entry c s)) as [[h|e] s1] eqn:Eh.
    + destruct (headers_state_grows _ _ _ _ _ Eh) as (evs & Hevs & Hsil).
      assert (Hlast : since s (log s1 (Fetch (request c w h)))
                      = (evs ++ [Fetch (request c w h)])%list).
      { apply since_app. simpl. rewrite Hevs, app_assoc. reflexivity. }
      assert (Hst : snd match window_fetch w (history s1) (request c w h) with
                        | Fulfilled resp0 =>
                            read_response (fallback c) resp0 w (log s1 (Fetch (request c w h)))
                        | Rejected e => (Thrown e, log s1 (Fetch (request c w h)))
                        end = log s1 (Fetch (request c w h))).
      { destruct (window_fetch w (history s1) _); [apply read_response_state|reflexivity]. }
      rewrite Hst, Hlast in Hsince. apply app_inj_tail in Hsince.
      destruct Hsince as [-> Hreq]. inversion Hreq; subst req.
      rewrite <- Hevs in Hfetch. exists h, s1. rewrite Hfetch.
      repeat split; reflexivity.
    + destruct (headers_state_grows _ _ _ _ _ Eh) as (evs & Hevs & Hsil).
      simpl in Hsince. rewrite (since_app _ _ _ Hevs) in Hsince.
      exfalso. exact (silent_not_last _ _ _ Hsil Hsince).
  - destruct (entry_grows c s) as (evs & Hevs & Hsil).
    simpl in Hsince. rewrite (since_app _ _ _ Hevs) in Hsince.
    exfalso. exact (silent_not_last _ _ _ Hsil Hsince).
Qed.

End GatewayLemmas.

Section GatewayClaims.
Import Auth Gateway.

(** C1 (as amended): when the token lookup of a gateway call returns none,
    no request is issued by the call; [sendMessage], [getFiles],
    [uploadFile], and [deleteFile] once its question is answered with yes,
    throw the authentication error in the state the lookup left, while a
    [deleteFile] whose question is answered with no returns [undefined]
    without looking the token up. *)
Theorem no_token_no_request (c : Call) (w : World) (s s1 : State) :
  getAuthToken w (entry c s) = (Returned None, s1) ->
  run c w s = (if accepted c w s then (Thrown no_token, s1)
               else (Returned VUndefined, entry c s))
  /\ requests (since s (snd (run c w s))) = [].
Proof.
  intros Ht.
  assert (Hh : getAuthHeaders w (entry c s) = (Thrown no_token, s1)).
  { rewrite getAuthHeaders_eq, Ht. reflexivity. }
  rewrite run_eq, Hh. split; [reflexivity|].
  apply silent_requests.
  destruct (accepted c w s); simpl.
  - destruct (headers_state_grows _ _ _ _ _ Hh) as (evs & Hevs & Hsil).
    rewrite (since_app _ _ _ Hevs). exact Hsil.
  - destruct (entry_grows c s) as (evs & Hevs & Hsil).
    rewrite (since_app _ _ _ Hevs). exact Hsil.
Qed.

Lemma no_token_no_request_witness :
  (run (SendMessage "test question") (Examples.signed_out true) Examples.fresh
   = (Thrown no_token,
      mkState (Some (mkClient "https://id.example" "anon-key"))
        [CreateClient "https://id.example" "anon-key"; GetSession])
   /\ requests (since Examples.fresh
                  (snd (run (SendMessage "test question") (Examples.signed_out true)
                          Examples.fresh))) = [])
  /\ (run (DeleteFile "f-1") (Examples.signed_out true) Examples.fresh
      = (Thrown no_token,
         mkState (Some (mkClient "https://id.example" "anon-key"))
           [Confirm question; CreateClient "https://id.example" "anon-key"; GetSession])
      /\ requests (since Examples.fresh
                     (snd (run (DeleteFile "f-1") (Examples.signed_out true)
                             Examples.fresh))) = []).
Proof.
  split.
  - apply (no_token_no_request (SendMessage "test question") (Examples.signed_out true)
             Examples.fresh).
    reflexivity.
  - apply (no_token_no_request (DeleteFile "f-1") (Examples.signed_out true)
             Examples.fresh).
    reflexivity.
Defined.

(** C1 (as stated) fails for [deleteFile]: with no session and the question
    answered with no, the token lookup returns none (before and after the
    question) and the call returns [undefined] instead of throwing. *)
Lemma deleteFile_without_token_returns :
  fst (getAuthToken (Examples.signed_out false) Examples.fresh) = Returned None
  /\ fst (getAuthToken (Examples.signed_out false)
            (entry (DeleteFile "f-1") Examples.fresh)) = Returned None
  /\ fst (run (DeleteFile "f-1") (Examples.signed_out false) Examples.fresh)
     = Returned VUndefined.
Proof. repeat split; reflexivity. Qed.

(** C4: a call that goes on to the gateway with a usable token issues
    exactly one request; the request carries [Authorization: Bearer <token>],
    and [Content-Type: application/json] beside it for the chat, the file
    list and the deletion, while the upload sends the [Authorization] header
    alone. *)
Theorem requests_carry_bearer_token (c : Call) (w : World) (s s1 : State) (t : string) :
  accepted c w s = true ->
  getAuthToken w (entry c s) = (Returned (Some t), s1) ->
  t <> "" ->
  exists req,
    requests (since s (snd (run c w s))) = [req]
    /\ headers req
       = match c with
         | UploadFile _ => [("Authorization", "Bearer " ++ t)]
         | _ => [("Authorization", "Bearer " ++ t); ("Content-Type", "application/json")]
         end
    /\ Admin.get_key "Content-Type" (headers req)
       = match c with
         | UploadFile _ => None
         | _ => Some "application/json"
         end.
Proof.
  intros Hacc Ht Hne.
  assert (Hh : getAuthHeaders w (entry c s)
               = (Returned [("Authorization", "Bearer " ++ t);
                            ("Content-Type", "application/json")], s1)).
  { rewrite getAuthHeaders_eq, Ht. apply String.eqb_neq in Hne. rewrite Hne. reflexivity. }
  destruct (headers_state_grows _ _ _ _ _ Hh) as (evs & Hevs & Hsil).
  set (h := [("Authorization", "Bearer " ++ t); ("Content-Type", "application/json")]) in *.
  exists (request c w h). rewrite run_eq, Hacc, Hh.
  assert (Hst : snd match window_fetch w (history s1) (request c w h) with
                    | Fulfilled resp0 =>
                        read_response (fallback c) resp0 w (log s1 (Fetch (request c w h)))
                    | Rejected e => (Thrown e, log s1 (Fetch (request c w h)))
                    end = log s1 (Fetch (request c w h))).
  { destruct (window_fetch w (history s1) _); [apply read_response_state|reflexivity]. }
  rewrite Hst. split.
  - rewrite (since_app s _ (evs ++ [Fetch (request c w h)])).
    + rewrite requests_app, (silent_requests _ Hsil). reflexivity.
    + simpl. rewrite Hevs, app_assoc. reflexivity.
  - destruct c; split; reflexivity.
Qed.

Lemma requests_carry_bearer_token_witness :
  exists req,
    requests (since Examples.fresh
                (snd (run (UploadFile (mkFile "notes.txt" "hello"))
                        (Examples.signed_in (Examples.response_ok (VObj [])) true)
                        Examples.fresh))) = [req]
    /\ headers req = [("Authorization", "Bearer tok-123")]
    /\ Admin.get_key "Content-Type" (headers req) = None.
Proof.
  eapply (requests_carry_bearer_token (UploadFile (mkFile "notes.txt" "hello"))
            (Examples.signed_in (Examples.response_ok (VObj [])) true) Examples.fresh
            _ "tok-123").
  - reflexivity.
  - reflexivity.
  - discriminate.
Defined.

(** C2 (as amended): for a gateway call answered with a non-2xx response,
    the call throws: an [Error] whose message is the body's [detail] when the
    body is JSON with a non-empty string [detail]; an [Error] with the call's
    fixed, non-empty fallback message when the body is JSON (other than
    [null]) whose [detail] is absent or falsy; and, when the body is not
    parseable JSON (or is [null]), the error of the failed read itself. *)
Theorem non_ok_response_error (c : Call) (w : World) (s : State) (resp : Response) :
  answered w s (snd (run c w s)) resp ->
  ok resp = false ->
  (forall body d,
      json resp = Fulfilled body -> get body "detail" = Fulfilled (VStr d) -> d <> "" ->
      fst (run c w s) = Thrown (Error d))
  /\ (forall body d,
      json resp = Fulfilled body -> get body "detail" = Fulfilled d -> truthy d = false ->
      fst (run c w s) = Thrown (Error (fallback c)))
  /\ (forall e, json resp = Rejected e -> fst (run c w s) = Thrown e)
  /\ (forall body e,
      json resp = Fulfilled body -> get body "detail" = Rejected e ->
      fst (run c w s) = Thrown e)
  /\ fallback c <> "".
Proof.
  intros Ha Hok. destruct (answered_inv _ _ _ _ Ha) as (h & s1 & _ & _ & _ & Hrun).
  rewrite Hrun. unfold read_response. rewrite Hok. simpl.
  unfold bind, await, ret, throw.
  repeat split.
  - intros body d Hb Hd Hne. rewrite Hb, Hd. simpl.
    unfold or_else. simpl. apply String.eqb_neq in Hne. rewrite Hne. reflexivity.
  - intros body d Hb Hd Hf. rewrite Hb, Hd. simpl.
    unfold or_else. rewrite Hf. reflexivity.
  - intros e He. rewrite He. reflexivity.
  - intros body e Hb Hd. rewrite Hb, Hd. reflexivity.
  - destruct c; discriminate.
Qed.

Lemma non_ok_response_error_witness :
  fst (run (GetFiles None)
         (Examples.signed_in
            (Examples.json_error (VObj [("detail", VStr "Admin access required")])) true)
         Examples.fresh)
  = Thrown (Error "Admin access required")
  /\ fst (run (UploadFile (mkFile "notes.txt" "hello"))
            (Examples.signed_in (Examples.json_error (VObj [("code", VNum 13%float)])) true)
            Examples.fresh)
     = Thrown (Error "ファイルアップロードに失敗しました")
  /\ fst (run (DeleteFile "f-1") (Examples.signed_in Examples.html_error true) Examples.fresh)
     = Thrown (mkException "SyntaxError" "Unexpected token '<'").
Proof.
  split; [|split].
  - refine (proj1 (non_ok_response_error (GetFiles None)
                     (Examples.signed_in
                        (Examples.json_error (VObj [("detail", VStr "Admin access required")]))
                        true)
                     Examples.fresh _ _ _) _ _ _ _ _).
    + do 2 eexists. split; reflexivity.
    + reflexivity.
    + reflexivity.
    + reflexivity.
    + discriminate.
  - refine (proj1 (proj2 (non_ok_response_error (UploadFile (mkFile "notes.txt" "hello"))
                            (Examples.signed_in
                               (Examples.json_error (VObj [("code", VNum 13%float)])) true)
                            Examples.fresh _ _ _)) _ VUndefined _ _ _).
    + do 2 eexists. split; reflexivity.
    + reflexivity.
    + reflexivity.
    + reflexivity.
    + reflexivity.
  - refine (proj1 (proj2 (proj2 (non_ok_response_error (DeleteFile "f-1")
                                   (Examples.signed_in Examples.html_error true)
                                   Examples.fresh _ _ _))) _ _).
    + do 2 eexists. split; reflexivity.
    + reflexivity.
    + reflexivity.
Defined.

(** C2 (as stated) fails: a non-2xx response whose body is not parseable
    JSON makes the call throw the parser's error, not the fallback message;
    and a body whose [detail] is the empty string makes the call throw the
    fallback message, not the [detail]. *)
Lemma unparseable_body_is_not_the_fallback :
  (ok Examples.html_error = false
   /\ json Examples.html_error = Rejected (mkException "SyntaxError" "Unexpected token '<'")
   /\ fst (run (SendMessage "hello") (Examples.signed_in Examples.html_error true)
             Examples.fresh)
      = Thrown (mkException "SyntaxError" "Unexpected token '<'")
   /\ "Unexpected token '<'" <> fallback (SendMessage "hello"))
  /\ (ok (Examples.json_error (VObj [("detail", VStr "")])) = false
      /\ fst (run (SendMessage "hello")
                (Examples.signed_in (Examples.json_error (VObj [("detail", VStr "")])) true)
                Examples.fresh)
         = Thrown (Error (fallback (SendMessage "hello")))
      /\ fallback (SendMessage "hello") <> "").
Proof. repeat split; try reflexivity; discriminate. Qed.

End GatewayClaims.

(** ** The file-management workflows *)

Section AdminClaims.
Import Auth Gateway Admin.

Lemma read_response_only (Q : Event -> Prop) (fb : string) (resp : Response) :
  only Q (read_response fb resp).
Proof.
  intros w s r s' H. pose proof (read_response_state fb resp w s) as Hs.
  rewrite H in Hs. simpl in Hs. subst s'. exists []. rewrite app_nil_r.
  split; [reflexivity|constructor].
Qed.

Lemma no_fetch_at_most_get (e : Event) : no_fetch e -> at_most_get e.
Proof. destruct e; simpl; auto. intros []. Qed.

Lemma getFiles_only (status : option string) : only at_most_get (getFiles status).
Proof.
  unfold getFiles. apply only_bind; [apply only_ask|intros w].
  apply only_bind.
  { eapply only_weaken; [exact no_fetch_at_most_get|apply getAuthHeaders_only]. }
  intros h. apply only_bind; [apply only_oracle; reflexivity|intros p].
  apply only_bind; [apply only_await|intros r]. apply read_response_only.
Qed.

Lemma showAlert_eq (message type : string) (w : World) (s : State) :
  showAlert message type w s =
  (Returned tt,
   if has_alert_message (document w)
   then log (log s (Dom (ShowAlert ("alert alert-" ++ type) message))) (Dom (HideAlertAfter 5000))
   else s).
Proof.
  unfold showAlert, bind, ask, dom, emit, ret.
  destruct (has_alert_message (document w)); reflexivity.
Qed.

Lemma showAlert_only (message type : string) : only no_fetch (showAlert message type).
Proof.
  intros w s r s' H. rewrite showAlert_eq in H. inversion H; subst.
  destruct (has_alert_message (document w)).
  - eexists. split; [simpl; rewrite <- app_assoc; reflexivity|]. repeat constructor.
  - exists []. rewrite app_nil_r. split; [reflexivity|constructor].
Qed.

Lemma displayFiles_only (files : Value) : only no_fetch (displayFiles files).
Proof.
  unfold displayFiles. apply only_bind; [apply only_ask|intros w].
  destruct (has_files_tbody (document w)); simpl; [|apply only_ret].
  apply only_bind; [apply only_emit; exact I|intros _].
  apply only_bind; [apply only_await|intros empty].
  destruct empty; [apply only_emit; exact I|].
  destruct files; try apply only_throw.
  apply only_for_each. intros file. unfold file_row.
  apply only_bind; [apply only_ask|intros w'].
  apply only_bind; [apply only_await|intros markup]. apply only_emit. exact I.
Qed.

Lemma loadFiles_only : only at_most_get loadFiles.
Proof.
  unfold loadFiles. apply only_bind; [apply only_ask|intros w].
  apply only_try_catch.
  - apply only_bind; [apply getFiles_only|intros data].
    apply only_bind; [apply only_await|intros files].
    eapply only_weaken; [exact no_fetch_at_most_get|apply displayFiles_only].
  - intros e. eapply only_weaken; [exact no_fetch_at_most_get|apply showAlert_only].
Qed.

(** Reloading the list never throws: a failure ends in an alert. *)
Lemma loadFiles_returns (w : World) (s : State) : fst (loadFiles w s) = Returned tt.
Proof.
  unfold loadFiles, bind at 1, ask, try_catch.
  match goal with |- context [match ?c with _ => _ end] => destruct c as [[[]|e] s1] end.
  - reflexivity.
  - rewrite showAlert_eq. reflexivity.
Qed.

Lemma deleteFile_declined (fileId : string) (w : World) (s : State) :
  window_confirm w (history s) question = false ->
  deleteFile fileId w s = (Returned VUndefined, log s (Confirm question)).
Proof.
  intros H. change (deleteFile fileId) with (run (DeleteFile fileId)).
  rewrite run_eq. simpl. rewrite H. reflexivity.
Qed.

Lemma handleDeleteFile_declined (fileId : string) (w : World) (s : State) :
  window_confirm w (history s) question = false ->
  handleDeleteFile fileId w s
  = showAlert "ファイルを削除しました" "success" w
      (snd (loadFiles w (log s (Confirm question)))).
Proof.
  intros H. unfold handleDeleteFile, try_catch, bind.
  rewrite (deleteFile_declined _ _ _ H).
  pose proof (loadFiles_returns w (log s (Confirm question))) as Hl.
  destruct (loadFiles w (log s (Confirm question))) as [r s2]. simpl in Hl. subst r.
  simpl. rewrite showAlert_eq. reflexivity.
Qed.

(** C6: when the confirmation is declined, [deleteFile] returns having done
    nothing but ask -- no token lookup and no request -- and the workflow
    around it, [handleDeleteFile], issues no request other than a [GET]: no
    [POST] to [/admin/delete] is issued. *)
Theorem declined_delete_sends_nothing (fileId : string) (w : World) (s : State) :
  window_confirm w (history s) question = false ->
  since s (snd (deleteFile fileId w s)) = [Confirm question]
  /\ Forall (fun r => method r = "GET")
       (requests (since s (snd (handleDeleteFile fileId w s)))).
Proof.
  intros H. split.
  - rewrite (deleteFile_declined _ _ _ H). apply since_log.
  - rewrite (handleDeleteFile_declined _ _ _ H).
    set (s1 := log s (Confirm question)).
    destruct (loadFiles w s1) as [r s2] eqn:El.
    destruct (loadFiles_only _ _ _ _ El) as (e1 & H1 & Q1). simpl.
    destruct (showAlert "ファイルを削除しました" "success" w s2) as [r3 s3] eqn:Ea.
    destruct (showAlert_only _ _ _ _ _ _ Ea) as (e2 & H2 & Q2).
    simpl. rewrite (since_app s s3 ([Confirm question] ++ e1 ++ e2)).
    + simpl. rewrite requests_app.
      apply Forall_app. split.
      * clear - Q1. induction Q1 as [|e l He _ IH]; simpl; [constructor|].
        destruct e; simpl; try exact IH. constructor; [exact He|exact IH].
      * rewrite silent_requests; [constructor|exact Q2].
    + rewrite H2, H1. subst s1. simpl. rewrite <- !app_assoc. reflexivity.
Qed.

Lemma declined_delete_sends_nothing_witness :
  since Examples.fresh (snd (deleteFile "f-1" (Examples.signed_in (Examples.response_ok (VObj [("files", VArr [])])) false) Examples.fresh))
  = [Confirm question]
  /\ Forall (fun r => method r = "GET")
       (requests (since Examples.fresh
                    (snd (handleDeleteFile "f-1"
                            (Examples.signed_in (Examples.response_ok (VObj [("files", VArr [])])) false)
                            Examples.fresh)))).
Proof.
  apply (declined_delete_sends_nothing "f-1"
           (Examples.signed_in (Examples.response_ok (VObj [("files", VArr [])])) false)
           Examples.fresh).
  reflexivity.
Defined.

(** C9: when the confirmation is declined, [deleteFile] returns [undefined]
    instead of throwing, so [handleDeleteFile] goes on: it reloads the file
    list (which returns) and then shows the alert of a successful deletion,
    and returns. *)
Theorem declined_delete_reports_success (fileId : string) (w : World) (s : State) :
  window_confirm w (history s) question = false ->
  deleteFile fileId w s = (Returned VUndefined, log s (Confirm question))
  /\ fst (loadFiles w (log s (Confirm question))) = Returned tt
  /\ handleDeleteFile fileId w s
     = showAlert "ファイルを削除しました" "success" w
         (snd (loadFiles w (log s (Confirm question))))
  /\ fst (handleDeleteFile fileId w s) = Returned tt
  /\ (has_alert_message (document w) = true ->
      since (snd (loadFiles w (log s (Confirm question))))
        (snd (handleDeleteFile fileId w s))
      = [Dom (ShowAlert "alert alert-success" "ファイルを削除しました");
         Dom (HideAlertAfter 5000)]).
Proof.
  intros H. split; [exact (deleteFile_declined _ _ _ H)|].
  split; [apply loadFiles_returns|].
  split; [exact (handleDeleteFile_declined _ _ _ H)|].
  rewrite (handleDeleteFile_declined _ _ _ H), showAlert_eq. split; [reflexivity|].
  intros Ha. rewrite Ha. simpl. apply since_app. simpl.
  rewrite <- app_assoc. reflexivity.
Qed.

Lemma declined_delete_reports_success_witness :
  fst (handleDeleteFile "f-1"
         (Examples.signed_in (Examples.response_ok (VObj [("files", VArr [])])) false)
         Examples.fresh) = Returned tt.
Proof.
  refine (proj1 (proj2 (proj2 (proj2
    (declined_delete_reports_success "f-1"
       (Examples.signed_in (Examples.response_ok (VObj [("files", VArr [])])) false)
       Examples.fresh _))))).
  reflexivity.
Defined.

(** C10: once it holds the headers, [getFiles] issues exactly one request, a
    [GET]; for a status that is neither null nor empty its URL is the path of
    the file list followed by [?status=] and the status as it is, and for a
    null or empty status it is the path alone. *)
Theorem getFiles_url (status : option string) (w : World) (s s1 : State)
        (h : list (string * string)) :
  getAuthHeaders w s = (Returned h, s1) ->
  exists req,
    requests (since s (snd (getFiles status w s))) = [req]
    /\ method req = "GET"
    /\ (forall st, status = Some st -> st <> "" ->
        url req = (API_BASE_URL w ++ "/admin/files") ++ "?status=" ++ st)
    /\ (status = None \/ status = Some "" ->
        url req = API_BASE_URL w ++ "/admin/files").
Proof.
  intros Hh. exists (request (GetFiles status) w h).
  change (getFiles status) with (run (GetFiles status)).
  rewrite run_eq. simpl accepted. simpl entry. cbv iota. rewrite Hh.
  destruct (getAuthHeaders_only _ _ _ _ Hh) as (evs & Hevs & Hsil).
  assert (Hst : snd match window_fetch w (history s1) (request (GetFiles status) w h) with
                    | Fulfilled resp0 =>
                        read_response (fallback (GetFiles status)) resp0 w
                          (log s1 (Fetch (request (GetFiles status) w h)))
                    | Rejected e => (Thrown e, log s1 (Fetch (request (GetFiles status) w h)))
                    end = log s1 (Fetch (request (GetFiles status) w h))).
  { destruct (window_fetch w (history s1) _); [apply read_response_state|reflexivity]. }
  rewrite Hst. split; [|split; [reflexivity|split]].
  - rewrite (since_app s _ (evs ++ [Fetch (request (GetFiles status) w h)])).
    + rewrite requests_app, (silent_requests _ Hsil). reflexivity.
    + simpl. rewrite Hevs, app_assoc. reflexivity.
  - intros st -> Hne. simpl. apply String.eqb_neq in Hne. rewrite Hne. reflexivity.
  - intros [-> | ->]; reflexivity.
Qed.

Lemma getFiles_url_witness :
  (exists req,
      requests (since Examples.fresh
                  (snd (getFiles (Some "a b&c=d")
                          (Examples.signed_in
                             (Examples.response_ok (VObj [("files", VArr [])])) true)
                          Examples.fresh))) = [req]
      /\ url req = "https://api.example/api/admin/files?status=a b&c=d")
  /\ (exists req,
         requests (since Examples.fresh
                     (snd (getFiles (Some "")
                             (Examples.signed_in
                                (Examples.response_ok (VObj [("files", VArr [])])) true)
                             Examples.fresh))) = [req]
         /\ url req = "https://api.example/api/admin/files").
Proof.
  split.
  - destruct (getFiles_url (Some "a b&c=d")
                (Examples.signed_in (Examples.response_ok (VObj [("files", VArr [])])) true)
                Examples.fresh _ _ eq_refl) as (req & Hreq & _ & Hurl & _).
    exists req. split; [exact Hreq|].
    rewrite (Hurl "a b&c=d" eq_refl); [reflexivity|discriminate].
  - destruct (getFiles_url (Some "")
                (Examples.signed_in (Examples.response_ok (VObj [("files", VArr [])])) true)
                Examples.fresh _ _ eq_refl) as (req & Hreq & _ & _ & Hurl).
    exists req. split; [exact Hreq|].
    rewrite (Hurl (or_intror eq_refl)). reflexivity.
Defined.

End AdminClaims.

(** ** The chat workflow *)

Section ChatClaims.
Import Auth Gateway Chat.

Lemma only_try_finally {A} (Q : Event -> Prop) (c : M A) (f : M unit) :
  only Q c -> only Q f -> only Q (try_finally c f).
Proof.
  intros Hc Hf w s r s' H. unfold try_finally in H.
  destruct (c w s) as [r1 s1] eqn:Ec.
  destruct (Hc _ _ _ _ Ec) as (e1 & H1 & Q1).
  destruct (f w s1) as [[[]|e] s2] eqn:Ef;
    destruct (Hf _ _ _ _ Ef) as (e2 & H2 & Q2); inversion H; subst;
    exists (e1 ++ e2)%list; rewrite H2, H1, app_assoc;
    (split; [reflexivity|apply Forall_app; split; assumption]).
Qed.

Lemma only_map_m {A B} (Q : Event -> Prop) (f : A -> M B) (l : list A) :
  (forall a, only Q (f a)) -> only Q (map_m f l).
Proof.
  intros Hf. induction l as [|x l IH]; simpl.
  - apply only_ret.
  - apply only_bind; [apply Hf|intros y].
    apply only_bind; [exact IH|intros ys; apply only_ret].
Qed.

Lemma source_text_only (source : Value) : only no_fetch (source_text source).
Proof.
  unfold source_text. apply only_bind; [apply only_ask|intros w].
  repeat (apply only_bind; [apply only_await|intros ?]). apply only_ret.
Qed.

Lemma displaySources_only (sources : Value) : only no_fetch (displaySources sources).
Proof.
  unfold displaySources. apply only_bind; [apply only_ask|intros w].
  destruct (truthy sources); simpl; [|apply only_ret].
  apply only_bind; [apply only_await|intros empty].
  destruct empty; [apply only_ret|].
  destruct (has_chat_messages (document w)); simpl; [|apply only_ret].
  destruct sources; try apply only_throw.
  apply only_bind; [apply only_map_m; exact source_text_only|intros texts].
  apply only_emit. exact I.
Qed.

Lemma displayMessage_eq (message : Value) (isUser : bool) (w : World) (s : State) :
  displayMessage message isUser w s =
  if has_chat_messages (document w) then
    match textContent_of (engine w) message with
    | Fulfilled text =>
        (Returned tt,
         log s (Dom (AppendMessage ("message " ++ (if isUser then "user" else "assistant"))
                       (if isUser then "あなた" else "アシスタント") text)))
    | Rejected e => (Thrown e, s)
    end
  else (Returned tt, s).
Proof.
  unfold displayMessage, bind, ask, dom, emit, ret, await.
  destruct (has_chat_messages (document w)); [|reflexivity]. cbn [negb].
  destruct (textContent_of (engine w) message); reflexivity.
Qed.

Lemma displayError_eq (message : string) (w : World) (s : State) :
  displayError message w s =
  (Returned tt,
   if has_chat_messages (document w) then log s (Dom (AppendError "エラー" message)) else s).
Proof.
  unfold displayError, bind, ask, dom, emit, ret.
  destruct (has_chat_messages (document w)); reflexivity.
Qed.

Lemma displayError_only (message : string) : only no_fetch (displayError message).
Proof.
  intros w s r s' H. rewrite displayError_eq in H. inversion H; subst.
  destruct (has_chat_messages (document w)).
  - exists [Dom (AppendError "エラー" message)]. split; [reflexivity|]. repeat constructor.
  - exists []. rewrite app_nil_r. split; [reflexivity|constructor].
Qed.

(** The text of one source that is neither [null] nor [undefined], and
    whose name and similarity convert. *)
Lemma source_text_eq (source : Value) (name : string) (x : float) (w : World) (s : State) :
  source <> VNull -> source <> VUndefined ->
  ToString (engine w) (field source "file_name") = Fulfilled name ->
  ToNumber (engine w) (field source "similarity") = Fulfilled x ->
  source_text source w s =
  (Returned (name ++ " (類似度: " ++ toFixed (engine w) (x * 100)%float 1 ++ "%)"), s).
Proof.
  intros Hn Hu Hname Hx.
  assert (Hget : forall k, get source k = Fulfilled (field source k)).
  { intros k. destruct source; try reflexivity; congruence. }
  unfold source_text, bind, ask. rewrite !Hget. unfold await at 1, ret at 1.
  rewrite Hname. unfold await at 1, ret at 1. unfold await at 1, ret at 1.
  rewrite Hx. reflexivity.
Qed.

(** Every error of a conversion is a [TypeError]. *)
Lemma ToString_error (g : Engine) (v : Value) (e : Exception) :
  ToString g v = Rejected e -> exn_name e = "TypeError".
Proof.
  revert e.
  induction v as [| | b | x | str | items IH | fields] using Value_induction;
    intros e H; try discriminate.
  - destruct b; discriminate.
  - cbn [ToString] in H.
    match type of H with
    | match ?E with _ => _ end = _ => destruct E as [texts|e'] eqn:El; [discriminate|]
    end.
    inversion H; subst e'. clear H. revert El.
    induction IH as [|i items Hi _ IHl]; [discriminate|]. intros El.
    match type of El with
    | match ?E with _ => _ end = _ => destruct E as [x|e'] eqn:Ei
    end.
    + match type of El with
      | match ?E with _ => _ end = _ => destruct E as [xs|e'] eqn:Er; [discriminate|]
      end.
      inversion El; subst e'. exact (IHl eq_refl).
    + inversion El; subst e'.
      destruct i; try discriminate; exact (Hi _ Ei).
  - cbn [ToString] in H. destruct (has_key "toString" fields); inversion H. reflexivity.
Qed.

Lemma ToNumber_error (g : Engine) (v : Value) (e : Exception) :
  ToNumber g v = Rejected e -> exn_name e = "TypeError".
Proof.
  destruct v as [| | [|] | x | str | items | fields]; try discriminate; unfold ToNumber;
    match goal with
    | |- match ?E with _ => _ end = _ -> _ => destruct E as [t|e'] eqn:Es; [discriminate|]
    end;
    intros H; inversion H; subst e'; exact (ToString_error _ _ _ Es).
Qed.

Lemma get_error (v : Value) (k : string) (e : Exception) :
  get v k = Rejected e -> exn_name e = "TypeError".
Proof. destruct v; intros H; inversion H; reflexivity. Qed.

(** Building the text of a source leaves the state as it is, and every
    error it throws is a [TypeError]. *)
Lemma source_text_throws (source : Value) (w : World) (s s' : State) (e : Exception) :
  source_text source w s = (Thrown e, s') -> s' = s /\ exn_name e = "TypeError".
Proof.
  unfold source_text, bind, ask, await, ret, throw.
  destruct (get source "file_name") as [fn|e1] eqn:E1.
  - destruct (ToString (engine w) fn) as [name|e2] eqn:E2.
    + destruct (get source "similarity") as [sim|e3] eqn:E3.
      * destruct (ToNumber (engine w) sim) as [x|e4] eqn:E4; intros H; inversion H; subst.
        split; [reflexivity|exact (ToNumber_error _ _ _ E4)].
      * intros H; inversion H; subst. split; [reflexivity|exact (get_error _ _ _ E3)].
    + intros H; inversion H; subst. split; [reflexivity|exact (ToString_error _ _ _ E2)].
  - intros H; inversion H; subst. split; [reflexivity|exact (get_error _ _ _ E1)].
Qed.

Lemma source_text_state (source : Value) (w : World) (s : State) :
  snd (source_text source w s) = s.
Proof.
  unfold source_text, bind, ask, await, ret, throw.
  destruct (get source "file_name") as [fn|e1]; [|reflexivity].
  destruct (ToString (engine w) fn) as [name|e2]; [|reflexivity].
  destruct (get source "similarity") as [sim|e3]; [|reflexivity].
  destruct (ToNumber (engine w) sim) as [x|e4]; reflexivity.
Qed.

(** The texts of sources that are neither [null] nor [undefined], and
    whose names and similarities convert. *)
Lemma map_m_source_text (items : list Value) (parts : list (string * float))
      (w : World) (s : State) :
  Forall2 (fun i p =>
             i <> VNull /\ i <> VUndefined
             /\ ToString (engine w) (field i "file_name") = Fulfilled (fst p)
             /\ ToNumber (engine w) (field i "similarity") = Fulfilled (snd p))
    items parts ->
  map_m source_text items w s =
  (Returned (map (fun p => fst p ++ " (類似度: "
                           ++ toFixed (engine w) (snd p * 100)%float 1 ++ "%)") parts), s).
Proof.
  induction 1 as [|i p items parts (Hn & Hu & Hname & Hx) _ IH]; [reflexivity|].
  simpl. unfold bind at 1.
  rewrite (source_text_eq _ _ _ _ _ Hn Hu Hname Hx).
  unfold bind. rewrite IH. reflexivity.
Qed.

Lemma sendMessage_ok (message : string) (w : World) (s s1 : State) (t : string)
      (resp : Response) (body : Value) :
  getAuthToken w s = (Returned (Some t), s1) -> t <> "" ->
  window_fetch w (history s1)
    (mkRequest (API_BASE_URL w ++ "/chat") "POST"
       [("Authorization", "Bearer " ++ t); ("Content-Type", "application/json")]
       (Some (TextBody (stringify_field "message" message)))) = Fulfilled resp ->
  ok resp = true ->
  json resp = Fulfilled body ->
  sendMessage message w s
  = (Returned body,
     log s1 (Fetch (mkRequest (API_BASE_URL w ++ "/chat") "POST"
                      [("Authorization", "Bearer " ++ t); ("Content-Type", "application/json")]
                      (Some (TextBody (stringify_field "message" message)))))).
Proof.
  intros Ht Hne Hf Hok Hj.
  change (sendMessage message) with (run (SendMessage message)).
  rewrite run_eq. simpl accepted. simpl entry. cbv iota.
  rewrite getAuthHeaders_eq, Ht. apply String.eqb_neq in Hne. rewrite Hne.
  unfold request. rewrite Hf. unfold read_response. rewrite Hok. cbn [negb]. unfold await.
  rewrite Hj. reflexivity.
Qed.

Lemma onSubmit_eq (input : string) (w : World) (s : State) :
  trim input <> "" ->
  onSubmit input w s
  = try_finally
      (try_catch (exchange (trim input))
         (fun error => displayError (message_or error "メッセージ送信に失敗しました")))
      enable_controls w (submitting (trim input) w s).
Proof.
  intros Hne. apply String.eqb_neq in Hne.
  unfold onSubmit, submitting. cbv beta zeta. rewrite Hne.
  unfold bind at 1, ask at 1. unfold bind at 1, dom at 1, emit at 1.
  unfold bind at 1. rewrite displayMessage_eq.
  unfold bind at 1, dom at 1, emit at 1. unfold bind at 1, dom at 1, emit at 1.
  unfold bind at 1.
  destruct (has_chat_messages (document w)), (has_submit_button (document w));
    unfold bind, dom, emit, ret, log; simpl; rewrite <- ?app_assoc; reflexivity.
Qed.

Lemma enable_controls_eq (w : World) (s : State) :
  enable_controls w s =
  (Returned tt,
   if has_submit_button (document w)
   then log (log (log s (Dom (SetInputDisabled false))) (Dom (SetButtonDisabled false)))
          (Dom (SetButtonText "送信"))
   else log s (Dom (SetInputDisabled false))).
Proof.
  unfold enable_controls, bind, ask, dom, emit, ret.
  destruct (has_submit_button (document w)); reflexivity.
Qed.

(** Whatever the [try] block does, the listener returns, and what it adds
    after the block is no request. *)
Lemma listener_wraps (c : M unit) (w : World) (s : State) :
  exists evs,
    fst (try_finally
           (try_catch c
              (fun error => displayError (message_or error "メッセージ送信に失敗しました")))
           enable_controls w s) = Returned tt
    /\ history (snd (try_finally
                       (try_catch c
                          (fun error =>
                             displayError (message_or error "メッセージ送信に失敗しました")))
                       enable_controls w s))
       = (history (snd (c w s)) ++ evs)%list
    /\ silent evs.
Proof.
  unfold try_finally, try_catch.
  destruct (c w s) as [[[]|e] s4]; simpl.
  - rewrite enable_controls_eq. destruct (has_submit_button (document w)); simpl;
      eexists; (split; [reflexivity|]); rewrite <- ?app_assoc;
      (split; [reflexivity|repeat constructor]).
  - rewrite displayError_eq, enable_controls_eq.
    destruct (has_chat_messages (document w)), (has_submit_button (document w)); simpl;
      eexists; (split; [reflexivity|]); rewrite <- ?app_assoc;
      (split; [reflexivity|repeat constructor]).
Qed.

(** The [try] block up to the answer: the request is sent, the answer is
    put on the page, and the sources remain to be shown. *)
Lemma exchange_steps (message : string) (w : World) (s s1 : State) (t : string)
      (resp : Response) (body : Value) (answer : string) :
  has_chat_messages (document w) = true ->
  getAuthToken w s = (Returned (Some t), s1) -> t <> "" ->
  window_fetch w (history s1)
    (mkRequest (API_BASE_URL w ++ "/chat") "POST"
       [("Authorization", "Bearer " ++ t); ("Content-Type", "application/json")]
       (Some (TextBody (stringify_field "message" message)))) = Fulfilled resp ->
  ok resp = true ->
  json resp = Fulfilled body ->
  body <> VNull -> body <> VUndefined ->
  textContent_of (engine w) (field body "answer") = Fulfilled answer ->
  exchange message w s
  = (if truthy (field body "sources") then
       positive <- await (length_positive (engine w) (field body "sources")) ;;
       if positive then displaySources (field body "sources") else ret tt
     else ret tt) w
      (log (log s1 (Fetch (mkRequest (API_BASE_URL w ++ "/chat") "POST"
                             [("Authorization", "Bearer " ++ t);
                              ("Content-Type", "application/json")]
                             (Some (TextBody (stringify_field "message" message))))))
         (Dom (AppendMessage "message assistant" "アシスタント" answer))).
Proof.
  intros Hc Ht Hne Hf Hok Hj Hn Hu Ha.
  assert (Hget : forall k, get body k = Fulfilled (field body k)).
  { intros k. destruct body; try reflexivity; congruence. }
  unfold exchange. unfold bind at 1, ask at 1. unfold bind at 1.
  rewrite (sendMessage_ok _ _ _ _ _ _ _ Ht Hne Hf Hok Hj).
  unfold bind at 1. rewrite Hget. unfold await at 1, ret at 1.
  unfold bind at 1. rewrite displayMessage_eq, Hc, Ha.
  unfold bind at 1. rewrite Hget. reflexivity.
Qed.

(** The [try] block for an answer that has no text: the request is sent,
    and the assignment of the answer throws. *)
Lemma exchange_no_text (message : string) (w : World) (s s1 : State) (t : string)
      (resp : Response) (body : Value) (e : Exception) :
  has_chat_messages (document w) = true ->
  getAuthToken w s = (Returned (Some t), s1) -> t <> "" ->
  window_fetch w (history s1)
    (mkRequest (API_BASE_URL w ++ "/chat") "POST"
       [("Authorization", "Bearer " ++ t); ("Content-Type", "application/json")]
       (Some (TextBody (stringify_field "message" message)))) = Fulfilled resp ->
  ok resp = true ->
  json resp = Fulfilled body ->
  body <> VNull -> body <> VUndefined ->
  textContent_of (engine w) (field body "answer") = Rejected e ->
  exchange message w s
  = (Thrown e,
     log s1 (Fetch (mkRequest (API_BASE_URL w ++ "/chat") "POST"
                      [("Authorization", "Bearer " ++ t);
                       ("Content-Type", "application/json")]
                      (Some (TextBody (stringify_field "message" message)))))).
Proof.
  intros Hc Ht Hne Hf Hok Hj Hn Hu Ha.
  assert (Hget : forall k, get body k = Fulfilled (field body k)).
  { intros k. destruct body; try reflexivity; congruence. }
  unfold exchange. unfold bind at 1, ask at 1. unfold bind at 1.
  rewrite (sendMessage_ok _ _ _ _ _ _ _ Ht Hne Hf Hok Hj).
  unfold bind at 1. rewrite Hget. unfold await at 1, ret at 1.
  unfold bind at 1. rewrite displayMessage_eq, Hc, Ha. reflexivity.
Qed.

Lemma sources_shown (items : list Value) (parts : list (string * float))
      (w : World) (s : State) :
  has_chat_messages (document w) = true ->
  items <> [] ->
  Forall2 (fun i p =>
             i <> VNull /\ i <> VUndefined
             /\ ToString (engine w) (field i "file_name") = Fulfilled (fst p)
             /\ ToNumber (engine w) (field i "similarity") = Fulfilled (snd p))
    items parts ->
  (if truthy (VArr items) then
     positive <- await (length_positive (engine w) (VArr items)) ;;
     if positive then displaySources (VArr items) else ret tt
   else ret tt) w s
  = (Returned tt,
     log s (Dom (AppendSources "参考資料"
                   (map (fun p => fst p ++ " (類似度: "
                                  ++ toFixed (engine w) (snd p * 100)%float 1 ++ "%)")
                      parts)))).
Proof.
  intros Hc Hne Hall. destruct items as [|i items]; [congruence|].
  cbn [truthy length_positive List.length Nat.eqb negb].
  unfold bind at 1, await at 1, ret at 1. cbv iota.
  unfold displaySources. unfold bind at 1, ask at 1.
  cbn [truthy length_is_zero List.length Nat.eqb negb].
  unfold bind at 1, await at 1, ret at 1. cbv iota. rewrite Hc. cbn [negb]. cbv iota.
  unfold bind at 1. rewrite (map_m_source_text _ _ _ _ Hall). reflexivity.
Qed.

Lemma sources_only (w : World) (sources : Value) :
  only no_fetch
    (if truthy sources then
       positive <- await (length_positive (engine w) sources) ;;
       if positive then displaySources sources else ret tt
     else ret tt).
Proof.
  destruct (truthy sources); [|apply only_ret].
  apply only_bind; [apply only_await|intros positive].
  destruct positive; [apply displaySources_only|apply only_ret].
Qed.

Lemma submitting_grows (message : string) (w : World) (s : State) :
  exists evs, history (submitting message w s) = (history s ++ evs)%list /\ silent evs.
Proof.
  unfold submitting. simpl. eexists. split; [reflexivity|].
  destruct (has_chat_messages (document w)), (has_submit_button (document w));
    repeat constructor.
Qed.

(** C5: a submission of "test question" by a signed-in user, answered by the
    backend with a success whose body is a JSON value [body], issues exactly
    one request, a [POST] to [/chat] with the body
    [{"message":"test question"}], and the listener returns.  When the
    [answer] of the body has a text (it is a string, or converts to one),
    that text is put on the page as the assistant's message; and when,
    beside that, the [sources] of the body are a non-empty array of
    sources, each with a [file_name] that has a string and a [similarity]
    that has a number, the page gets the list with one text for each
    source: the [file_name], then the [similarity] times 100 in
    [toFixed(1)] form followed by a percent sign.  An [answer] that has no
    text is not put on the page: the page shows the error of the failed
    conversion instead. *)
Theorem chat_submit_test_question (w : World) (s s1 : State) (t : string)
        (resp : Response) (body : Value) :
  has_chat_messages (document w) = true ->
  getAuthToken w (submitting "test question" w s) = (Returned (Some t), s1) ->
  t <> "" ->
  window_fetch w (history s1)
    (mkRequest (API_BASE_URL w ++ "/chat") "POST"
       [("Authorization", "Bearer " ++ t); ("Content-Type", "application/json")]
       (Some (TextBody ("{" ++ dquote ++ "message" ++ dquote ++ ":"
                        ++ dquote ++ "test question" ++ dquote ++ "}"))))
  = Fulfilled resp ->
  ok resp = true ->
  json resp = Fulfilled body ->
  body <> VNull -> body <> VUndefined ->
  fst (onSubmit "test question" w s) = Returned tt
  /\ requests (since s (snd (onSubmit "test question" w s)))
     = [mkRequest (API_BASE_URL w ++ "/chat") "POST"
          [("Authorization", "Bearer " ++ t); ("Content-Type", "application/json")]
          (Some (TextBody ("{" ++ dquote ++ "message" ++ dquote ++ ":"
                           ++ dquote ++ "test question" ++ dquote ++ "}")))]
  /\ (forall answer,
         textContent_of (engine w) (field body "answer") = Fulfilled answer ->
         In (Dom (AppendMessage "message assistant" "アシスタント" answer))
           (since s (snd (onSubmit "test question" w s)))
         /\ (forall items parts,
                field body "sources" = VArr items -> items <> [] ->
                Forall2 (fun i p =>
                           i <> VNull /\ i <> VUndefined
                           /\ ToString (engine w) (field i "file_name") = Fulfilled (fst p)
                           /\ ToNumber (engine w) (field i "similarity")
                              = Fulfilled (snd p))
                  items parts ->
                In (Dom (AppendSources "参考資料"
                           (map (fun p => fst p ++ " (類似度: "
                                          ++ toFixed (engine w) (snd p * 100)%float 1
                                          ++ "%)") parts)))
                  (since s (snd (onSubmit "test question" w s)))))
  /\ (forall e,
         textContent_of (engine w) (field body "answer") = Rejected e ->
         onSubmit "test question" w s
         = (Returned tt,
            snd (enable_controls w
                   (log (log s1
                           (Fetch (mkRequest (API_BASE_URL w ++ "/chat") "POST"
                                     [("Authorization", "Bearer " ++ t);
                                      ("Content-Type", "application/json")]
                                     (Some (TextBody ("{" ++ dquote ++ "message" ++ dquote
                                                      ++ ":" ++ dquote ++ "test question"
                                                      ++ dquote ++ "}"))))))
                      (Dom (AppendError "エラー"
                              (message_or e "メッセージ送信に失敗しました"))))))).
Proof.
  intros Hc Ht Hne Hf Hok Hj Hn Hu.
  assert (Htrim : trim "test question" = "test question") by reflexivity.
  assert (Hnonempty : trim "test question" <> "") by (rewrite Htrim; discriminate).
  rewrite (onSubmit_eq _ _ _ Hnonempty), Htrim.
  set (req := mkRequest (API_BASE_URL w ++ "/chat") "POST"
                [("Authorization", "Bearer " ++ t); ("Content-Type", "application/json")]
                (Some (TextBody ("{" ++ dquote ++ "message" ++ dquote ++ ":"
                                 ++ dquote ++ "test question" ++ dquote ++ "}")))) in *.
  set (s0 := submitting "test question" w s) in *.
  destruct (listener_wraps (exchange "test question") w s0) as (ew & Hret & Hw & Sw).
  destruct (submitting_grows "test question" w s) as (e0 & H0 & S0). fold s0 in H0.
  destruct (getAuthToken_only _ _ _ _ Ht) as (e1 & H1 & S1).
  destruct (textContent_of (engine w) (field body "answer")) as [answer|e] eqn:Ha.
  - set (s3 := log (log s1 (Fetch req))
                 (Dom (AppendMessage "message assistant" "アシスタント" answer))).
    pose proof (exchange_steps "test question" w s0 s1 t resp body answer
                  Hc Ht Hne Hf Hok Hj Hn Hu Ha) as Hex.
    change (log (log s1 _) _) with s3 in Hex.
    assert (H3 : history s3
                 = (history s ++ (e0 ++ e1)
                      ++ [Fetch req;
                          Dom (AppendMessage "message assistant" "アシスタント" answer)])%list).
    { unfold s3. simpl. rewrite H1, H0, <- !app_assoc. reflexivity. }
    assert (Htail : exists et, history (snd (exchange "test question" w s0))
                               = (history s3 ++ et)%list /\ silent et).
    { rewrite Hex.
      destruct ((if truthy (field body "sources")
                 then positive <- await (length_positive (engine w) (field body "sources")) ;;
                      if positive then displaySources (field body "sources") else ret tt
                 else ret tt) w s3) as [r s4] eqn:E.
      exact (sources_only _ _ _ _ _ _ E). }
    destruct Htail as (et & Het & St).
    assert (Hall : since s (snd (try_finally
                                   (try_catch (exchange "test question")
                                      (fun error =>
                                         displayError
                                           (message_or error "メッセージ送信に失敗しました")))
                                   enable_controls w s0))
                   = ((e0 ++ e1)
                      ++ [Fetch req;
                          Dom (AppendMessage "message assistant" "アシスタント" answer)]
                      ++ et ++ ew)%list).
    { apply since_app. rewrite Hw, Het, H3, <- !app_assoc. reflexivity. }
    rewrite Hall. split; [exact Hret|]. split; [|split].
    + change ([Fetch req; Dom (AppendMessage "message assistant" "アシスタント" answer)]
              ++ et ++ ew)%list
        with (Fetch req :: Dom (AppendMessage "message assistant" "アシスタント" answer)
                :: (et ++ ew))%list.
      rewrite !requests_app. simpl. rewrite requests_app.
      rewrite (silent_requests _ S0), (silent_requests _ S1),
        (silent_requests _ St), (silent_requests _ Sw).
      reflexivity.
    + intros answer' Ha'. inversion Ha'; subst answer'. split.
      * apply in_or_app. right. right. left. reflexivity.
      * intros items parts Hs Hne' Hitems.
        rewrite Hs in Hex. rewrite (sources_shown _ _ _ _ Hc Hne' Hitems) in Hex.
        rewrite Hex in Het. simpl in Het.
        apply app_inv_head in Het. subst et.
        apply in_or_app. right. right. right. left. reflexivity.
    + intros e He. discriminate.
  - pose proof (exchange_no_text "test question" w s0 s1 t resp body e
                  Hc Ht Hne Hf Hok Hj Hn Hu Ha) as Hex.
    change (stringify_field "message" "test question")
      with ("{" ++ dquote ++ "message" ++ dquote ++ ":"
            ++ dquote ++ "test question" ++ dquote ++ "}") in Hex.
    fold req in Hex.
    split; [exact Hret|]. split; [|split].
    + rewrite (since_app s _ ((e0 ++ e1) ++ [Fetch req] ++ ew)).
      * rewrite !requests_app. simpl.
        rewrite (silent_requests _ S0), (silent_requests _ S1), (silent_requests _ Sw).
        reflexivity.
      * rewrite Hw, Hex. simpl. rewrite H1, H0, <- !app_assoc. reflexivity.
    + intros answer Ha'. discriminate.
    + intros e' He. inversion He; subst e'.
      unfold try_finally, try_catch. rewrite Hex, displayError_eq, Hc.
      rewrite enable_controls_eq. reflexivity.
Qed.

Lemma chat_submit_test_question_witness :
  requests (since Examples.fresh
              (snd (onSubmit "test question"
                      (Examples.signed_in (Examples.response_ok Examples.chat_reply) true)
                      Examples.fresh)))
  = [mkRequest "https://api.example/api/chat" "POST"
       [("Authorization", "Bearer tok-123"); ("Content-Type", "application/json")]
       (Some (TextBody ("{" ++ dquote ++ "message" ++ dquote ++ ":"
                        ++ dquote ++ "test question" ++ dquote ++ "}")))]
  /\ In (Dom (AppendMessage "message assistant" "アシスタント" "It is in the handbook."))
       (since Examples.fresh
          (snd (onSubmit "test question"
                  (Examples.signed_in (Examples.response_ok Examples.chat_reply) true)
                  Examples.fresh)))
  /\ In (Dom (AppendSources "参考資料" ["handbook.pdf (類似度: 82.3%)"]))
       (since Examples.fresh
          (snd (onSubmit "test question"
                  (Examples.signed_in (Examples.response_ok Examples.chat_reply) true)
                  Examples.fresh))).
Proof.
  destruct (chat_submit_test_question
              (Examples.signed_in (Examples.response_ok Examples.chat_reply) true)
              Examples.fresh _ "tok-123" (Examples.response_ok Examples.chat_reply) Examples.chat_reply
              eq_refl eq_refl)
    as (_ & Hreq & Hans & _); try reflexivity; try discriminate.
  destruct (Hans "It is in the handbook." eq_refl) as (Hanswer & Hsrc).
  split; [exact Hreq|]. split; [exact Hanswer|].
  apply (Hsrc [VObj [("file_name", VStr "handbook.pdf");
                     ("similarity", VNum 0x1.a5604189374bcp-1%float)]]
           [("handbook.pdf", 0x1.a5604189374bcp-1%float)]).
  - reflexivity.
  - discriminate.
  - repeat constructor; discriminate.
Defined.

End ChatClaims.


(** * Further properties of the code *)

(** ** Reasoning about what a computation records *)

Section Recording.

Lemma only_get_client (Q : Event -> Prop) : only Q get_client.
Proof.
  intros w s r s' H. inversion H; subst. exists []. rewrite app_nil_r.
  split; [reflexivity|constructor].
Qed.

Lemma only_set_client (Q : Event -> Prop) (c : Client) : only Q (set_client c).
Proof.
  intros w s r s' H. inversion H; subst. exists []. simpl. rewrite app_nil_r.
  split; [reflexivity|constructor].
Qed.

Lemma only_consult {A} (Q : Event -> Prop) (f : list Event -> A) :
  only Q (Session.consult f).
Proof.
  intros w s r s' H. inversion H; subst. exists []. rewrite app_nil_r.
  split; [reflexivity|constructor].
Qed.

End Recording.

(** Takes an [only] goal apart along the structure of the computation. *)
Ltac only_steps :=
  repeat first
    [ apply only_ret | apply only_throw | apply only_await | apply only_ask
    | apply only_get_client | apply only_set_client | apply only_consult
    | apply only_emit; simpl; auto
    | apply only_oracle; simpl; auto
    | apply only_bind; [|intros ?]
    | apply only_try_catch; [|intros ?]
    | apply only_try_finally
    | apply only_for_each; intros ?
    | apply only_map_m; intros ?
    | match goal with
      | |- only _ (if ?b then _ else _) => destruct b
      | |- only _ (match ?x with _ => _ end) => destruct x
      end ].

Section Quiet.
Import Auth Admin Chat Session AdminPage Lifecycle.

Lemma initSupabase_behind : only behind_the_page initSupabase.
Proof. unfold initSupabase. only_steps. Qed.

Lemma getCurrentUser_behind : only behind_the_page getCurrentUser.
Proof.
  unfold getCurrentUser. apply only_bind; [apply initSupabase_behind|intros ?]. only_steps.
Qed.

Lemma getAuthToken_behind : only behind_the_page getAuthToken.
Proof.
  unfold getAuthToken. apply only_bind; [apply initSupabase_behind|intros ?]. only_steps.
Qed.

Lemma getAuthHeaders_behind : only behind_the_page getAuthHeaders.
Proof.
  unfold getAuthHeaders. apply only_bind; [apply getAuthToken_behind|intros ?]. only_steps.
Qed.

Lemma behind_no_fetch (e : Event) : behind_the_page e -> no_fetch e.
Proof. destruct e; simpl; auto. Qed.

End Quiet.

(** ** Signing in and out *)

Section SigningInAndOut.
Import Auth Session.

Lemma login_eq (id : Identity) (email password : string) (w : World) (s : State) :
  login id email password w s =
  match client_error w s with
  | Some e => (Thrown e, client_state w s)
  | None =>
      if supabase_defined w then
        match auth_signInWithPassword id (history (client_state w s)) email password with
        | Fulfilled r =>
            (match signin_error r with
             | Some error => Thrown (Error (auth_message error))
             | None => Returned (signin_data r)
             end, client_state w s)
        | Rejected e => (Thrown e, client_state w s)
        end
      else (Thrown (Error "Supabaseクライアントが初期化されていません"), client_state w s)
  end.
Proof.
  unfold login, bind at 1. rewrite initSupabase_eq.
  destruct (client_error w s); [reflexivity|].
  destruct (supabase_defined w); [|reflexivity].
  unfold bind, consult, await, ret, throw.
  destruct (auth_signInWithPassword id _ email password) as [r|e]; [|reflexivity].
  destruct (signin_error r); reflexivity.
Qed.

(** X1: on a page whose client handle exists or can be created, [login]
    hands back the data of a sign-in the identity service accepts; when the
    service reports an error, [login] throws an [Error] whose message is
    the service's message, unchanged; and a rejected promise is thrown as
    it is.  On a page without the identity library [login] throws its own
    error, and on a page whose configuration [createClient] refuses it
    throws the error of [createClient]; in both cases the service is not
    asked: the outcome is the same for every service. *)
Theorem login_outcomes (id : Identity) (email password : string) (w : World) (s : State) :
  (supabase_defined w = true ->
   client_error w s = None ->
   (forall r,
       auth_signInWithPassword id (history (client_state w s)) email password = Fulfilled r ->
       (forall error, signin_error r = Some error ->
                      fst (login id email password w s) = Thrown (Error (auth_message error)))
       /\ (signin_error r = None ->
           fst (login id email password w s) = Returned (signin_data r)))
   /\ (forall e,
          auth_signInWithPassword id (history (client_state w s)) email password = Rejected e ->
          fst (login id email password w s) = Thrown e))
  /\ (supabase_defined w = false ->
      forall id',
        login id' email password w s
        = (Thrown (Error "Supabaseクライアントが初期化されていません"),
           log s (ConsoleError "Supabaseクライアントが読み込まれていません" None)))
  /\ (forall e,
         client_error w s = Some e ->
         forall id', login id' email password w s = (Thrown e, s)).
Proof.
  split; [|split].
  - intros Hd Hc. split.
    + intros r Hr. rewrite login_eq, Hc, Hd, Hr. simpl.
      split; [intros error He|intros He]; rewrite He; reflexivity.
    + intros e He. rewrite login_eq, Hc, Hd, He. reflexivity.
  - intros Hd id'. rewrite login_eq. unfold client_error, client_state. rewrite Hd.
    reflexivity.
  - intros e He id'. rewrite login_eq, He, (client_state_refused _ _ _ He). reflexivity.
Qed.

Lemma login_outcomes_witness :
  fst (login Examples2.rejecting "a@example.com" "wrong"
         (Examples.signed_out true) Examples.fresh)
  = Thrown (Error "Invalid login credentials")
  /\ fst (login Examples2.accepting "admin@example.com" "right"
            (Examples.signed_out true) Examples.fresh)
     = Returned (mkSignInData (Some Examples.alice) (Some (mkSession "tok-123")))
  /\ fst (login Examples2.accepting "admin@example.com" "right"
            Examples.no_library Examples.fresh)
     = Thrown (Error "Supabaseクライアントが初期化されていません")
  /\ login Examples2.accepting "admin@example.com" "right"
       Examples.not_configured Examples.fresh
     = (Thrown (Error "supabaseUrl is required."), Examples.fresh).
Proof.
  split; [|split; [|split]].
  - apply (proj1 (proj1 (proj1 (login_outcomes Examples2.rejecting "a@example.com" "wrong"
                                   (Examples.signed_out true) Examples.fresh)
                           eq_refl eq_refl) _ eq_refl)
             (mkAuthError "Invalid login credentials")).
    reflexivity.
  - apply (proj2 (proj1 (proj1 (login_outcomes Examples2.accepting "admin@example.com" "right"
                                   (Examples.signed_out true) Examples.fresh)
                           eq_refl eq_refl) _ eq_refl)).
    reflexivity.
  - rewrite (proj1 (proj2 (login_outcomes Examples2.accepting "admin@example.com" "right"
                             Examples.no_library Examples.fresh))
               eq_refl Examples2.accepting).
    reflexivity.
  - apply (proj2 (proj2 (login_outcomes Examples2.accepting "admin@example.com" "right"
                           Examples.not_configured Examples.fresh))).
    reflexivity.
Defined.

Lemma logout_eq (id : Identity) (w : World) (s : State) :
  logout id w s =
  match client_error w s with
  | Some e => (Thrown e, client_state w s)
  | None =>
      if supabase_defined w then
        match auth_signOut id (history (client_state w s)) with
        | Fulfilled (Some error) =>
            (Thrown (Error (auth_message error)),
             log (client_state w s) (ConsoleError "ログアウトエラー:" (Some error)))
        | Fulfilled None => (Returned tt, client_state w s)
        | Rejected e => (Thrown e, client_state w s)
        end
      else (Returned tt, client_state w s)
  end.
Proof.
  unfold logout, bind at 1. rewrite initSupabase_eq.
  destruct (client_error w s); [reflexivity|].
  destruct (supabase_defined w); [|reflexivity].
  unfold bind, consult, await, ret, throw, emit.
  destruct (auth_signOut id _) as [[error|]|e]; reflexivity.
Qed.

(** X2: on a page whose client handle exists or can be created, [logout]
    returns when the identity service signs the user out; when the service
    reports an error, [logout] logs it and throws an [Error] with the
    service's message.  On a page without the identity library -- where
    [login] throws -- [logout] returns without asking the service; and on
    a page whose configuration [createClient] refuses, [logout] throws the
    error of [createClient], as [login] does. *)
Theorem logout_outcomes (id : Identity) (w : World) (s : State) :
  (supabase_defined w = true ->
   client_error w s = None ->
   (auth_signOut id (history (client_state w s)) = Fulfilled None ->
    logout id w s = (Returned tt, client_state w s))
   /\ (forall error,
          auth_signOut id (history (client_state w s)) = Fulfilled (Some error) ->
          logout id w s
          = (Thrown (Error (auth_message error)),
             log (client_state w s) (ConsoleError "ログアウトエラー:" (Some error)))))
  /\ (supabase_defined w = false ->
      forall id' email password,
        fst (logout id' w s) = Returned tt
        /\ exists e, fst (login id' email password w s) = Thrown e)
  /\ (forall e,
         client_error w s = Some e ->
         forall id' email password,
           logout id' w s = (Thrown e, s)
           /\ login id' email password w s = (Thrown e, s)).
Proof.
  split; [|split].
  - intros Hd Hc. split; [intros H|intros error H]; rewrite logout_eq, Hc, Hd, H; reflexivity.
  - intros Hd id' email password. rewrite logout_eq, login_eq.
    unfold client_error. rewrite Hd. split; [reflexivity|].
    eexists. reflexivity.
  - intros e He id' email password.
    rewrite logout_eq, login_eq, He, (client_state_refused _ _ _ He). split; reflexivity.
Qed.

Lemma logout_outcomes_witness :
  logout Examples2.rejecting (Examples.signed_in (Examples.response_ok VNull) true)
    Examples.fresh
  = (Thrown (Error "session not found"),
     mkState (Some (mkClient "https://id.example" "anon-key"))
       [CreateClient "https://id.example" "anon-key";
        ConsoleError "ログアウトエラー:" (Some (mkAuthError "session not found"))])
  /\ fst (logout Examples2.accepting Examples.no_library Examples.fresh) = Returned tt
  /\ logout Examples2.accepting Examples.not_configured Examples.fresh
     = (Thrown (Error "supabaseUrl is required."), Examples.fresh).
Proof.
  split; [|split].
  - apply (proj2 (proj1 (logout_outcomes Examples2.rejecting
                           (Examples.signed_in (Examples.response_ok VNull) true)
                           Examples.fresh) eq_refl eq_refl)
             (mkAuthError "session not found")).
    reflexivity.
  - apply (proj1 (proj2 (logout_outcomes Examples2.accepting Examples.no_library
                           Examples.fresh))
             eq_refl Examples2.accepting "" "").
  - apply (proj2 (proj2 (logout_outcomes Examples2.accepting Examples.not_configured
                           Examples.fresh))
             (Error "supabaseUrl is required.") eq_refl Examples2.accepting "" "").
Defined.

End SigningInAndOut.

(** ** More on the gateway calls *)

Section GatewayMore.
Import Auth Gateway Lifecycle.

(** How a gateway call ends: without a request, or with its one request as
    the last thing recorded. *)
Lemma run_cases (c : Call) (w : World) (s : State) :
  silent (since s (snd (run c w s)))
  \/ exists h s1 evs,
       accepted c w s = true
       /\ getAuthHeaders w (entry c s) = (Returned h, s1)
       /\ history s1 = (history s ++ evs)%list
       /\ silent evs
       /\ snd (run c w s) = log s1 (Fetch (request c w h))
       /\ since s (snd (run c w s)) = (evs ++ [Fetch (request c w h)])%list
       /\ run c w s
          = match window_fetch w (history s1) (request c w h) with
            | Fulfilled resp =>
                read_response (fallback c) resp w (log s1 (Fetch (request c w h)))
            | Rejected e => (Thrown e, log s1 (Fetch (request c w h)))
            end.
Proof.
  rewrite run_eq. destruct (accepted c w s).
  - destruct (getAuthHeaders w (entry c s)) as [[h|e] s1] eqn:Eh;
      destruct (headers_state_grows _ _ _ _ _ Eh) as (evs & Hevs & Hsil).
    + right. exists h, s1, evs.
      assert (Hst : snd match window_fetch w (history s1) (request c w h) with
                        | Fulfilled resp0 =>
                            read_response (fallback c) resp0 w (log s1 (Fetch (request c w h)))
                        | Rejected e => (Thrown e, log s1 (Fetch (request c w h)))
                        end = log s1 (Fetch (request c w h))).
      { destruct (window_fetch w (history s1) _); [apply read_response_state|reflexivity]. }
      rewrite Hst. repeat split; try assumption; try reflexivity.
      apply since_app. simpl. rewrite Hevs, app_assoc. reflexivity.
    + left. simpl. rewrite (since_app _ _ _ Hevs). exact Hsil.
  - left. destruct (entry_grows c s) as (evs & Hevs & Hsil).
    simpl. rewrite (since_app _ _ _ Hevs). exact Hsil.
Qed.

(** X3: a session whose access token is the empty string counts as no
    session: every gateway call that asks for the token throws the
    authentication error, and no call issues a request. *)
Theorem empty_token_is_no_token (c : Call) (w : World) (s s1 : State) :
  getAuthToken w (entry c s) = (Returned (Some ""), s1) ->
  run c w s = (if accepted c w s then (Thrown no_token, s1)
               else (Returned VUndefined, entry c s))
  /\ requests (since s (snd (run c w s))) = [].
Proof.
  intros Ht.
  assert (Hh : getAuthHeaders w (entry c s) = (Thrown no_token, s1)).
  { rewrite getAuthHeaders_eq, Ht. reflexivity. }
  rewrite run_eq, Hh. split; [reflexivity|].
  destruct (run_cases c w s) as [Hs|(h & s1' & _ & _ & Hh' & _)].
  - rewrite run_eq, Hh in Hs. exact (silent_requests _ Hs).
  - rewrite Hh in Hh'. discriminate.
Qed.

Lemma empty_token_is_no_token_witness :
  fst (run (SendMessage "hello") Examples2.empty_token Examples.fresh) = Thrown no_token
  /\ requests (since Examples.fresh
                 (snd (run (SendMessage "hello") Examples2.empty_token Examples.fresh))) = [].
Proof.
  destruct (empty_token_is_no_token (SendMessage "hello") Examples2.empty_token
              Examples.fresh _ eq_refl) as [Hrun Hreq].
  split; [rewrite Hrun; reflexivity|exact Hreq].
Defined.

(** X4: no gateway call ever issues more than one request: nothing is
    retried, whatever the session, the network and the backend do. *)
Theorem at_most_one_request (c : Call) (w : World) (s : State) :
  (List.length (requests (since s (snd (run c w s)))) <= 1)%nat.
Proof.
  destruct (run_cases c w s) as [Hs|(h & s1 & evs & _ & _ & _ & Hsil & _ & Hsince & _)].
  - rewrite (silent_requests _ Hs). simpl. lia.
  - rewrite Hsince, requests_app, (silent_requests _ Hsil). simpl. lia.
Qed.

Lemma answered_or_refused_inv (c : Call) (w : World) (s : State) (p : Settled Response) :
  (exists before req,
      since s (snd (run c w s)) = (before ++ [Fetch req])%list
      /\ window_fetch w (history s ++ before) req = p) ->
  exists h s1,
    window_fetch w (history s1) (request c w h) = p
    /\ requests (since s (snd (run c w s))) = [request c w h]
    /\ run c w s
       = match p with
         | Fulfilled resp =>
             read_response (fallback c) resp w (log s1 (Fetch (request c w h)))
         | Rejected e => (Thrown e, log s1 (Fetch (request c w h)))
         end.
Proof.
  intros (before & req & Hsince & Hfetch).
  destruct (run_cases c w s)
    as [Hs|(h & s1 & evs & _ & _ & Hevs & Hsil & _ & Hsince' & Hrun)].
  - exfalso. exact (silent_not_last _ _ _ Hs Hsince).
  - rewrite Hsince' in Hsince. apply app_inj_tail in Hsince.
    destruct Hsince as [<- Hreq]. inversion Hreq; subst req.
    rewrite <- Hevs in Hfetch. exists h, s1. split; [exact Hfetch|]. split.
    + rewrite Hsince', requests_app, (silent_requests _ Hsil). reflexivity.
    + rewrite Hrun, Hfetch. reflexivity.
Qed.

(** X5: a gateway call whose request the backend answers with a 2xx
    response returns the parsed body as it is; when that body is not
    parseable JSON the call throws the error of the failed read. *)
Theorem ok_response_body (c : Call) (w : World) (s : State) (resp : Response) :
  answered w s (snd (run c w s)) resp ->
  ok resp = true ->
  fst (run c w s)
  = match json resp with
    | Fulfilled body => Returned body
    | Rejected e => Thrown e
    end.
Proof.
  intros Ha Hok. destruct (answered_inv _ _ _ _ Ha) as (h & s1 & _ & _ & _ & Hrun).
  rewrite Hrun. unfold read_response, bind, ask, await, ret, throw. rewrite Hok. simpl.
  destruct (json resp); reflexivity.
Qed.

Lemma ok_response_body_witness :
  fst (run (DeleteFile "f-1")
         (Examples.signed_in (Examples.response_ok (VObj [("deleted", VBool true)])) true)
         Examples.fresh)
  = Returned (VObj [("deleted", VBool true)]).
Proof.
  apply (ok_response_body (DeleteFile "f-1")
           (Examples.signed_in (Examples.response_ok (VObj [("deleted", VBool true)])) true)
           Examples.fresh (Examples.response_ok (VObj [("deleted", VBool true)]))).
  - do 2 eexists. split; reflexivity.
  - reflexivity.
Defined.

(** X6: a gateway call whose request the network fails throws the
    network's error as it is, and has issued that one request only. *)
Theorem network_failure_is_thrown (c : Call) (w : World) (s : State) (e : Exception) :
  refused w s (snd (run c w s)) e ->
  fst (run c w s) = Thrown e
  /\ List.length (requests (since s (snd (run c w s)))) = 1%nat.
Proof.
  intros Hr. destruct (answered_or_refused_inv c w s (Rejected e) Hr)
    as (h & s1 & _ & Hreq & Hrun).
  rewrite Hreq, Hrun. split; reflexivity.
Qed.

Lemma network_failure_is_thrown_witness :
  fst (run (GetFiles (Some "indexed")) Examples2.offline Examples.fresh)
  = Thrown (TypeError "Failed to fetch").
Proof.
  apply (network_failure_is_thrown (GetFiles (Some "indexed")) Examples2.offline
           Examples.fresh).
  do 2 eexists. split; reflexivity.
Defined.

Lemma append_empty_r (s : string) : s ++ "" = s.
Proof. induction s as [|c s IH]; simpl; [reflexivity|rewrite IH; reflexivity]. Qed.

Lemma backend_eq (w : World) :
  Chat.API_BASE_URL w = backend w /\ Admin.API_BASE_URL w = backend w.
Proof.
  unfold Chat.API_BASE_URL, Admin.API_BASE_URL, backend, string_or.
  destruct (window_API_BASE_URL (window w)); split; reflexivity.
Qed.

(** X7: every request of a gateway call goes to the backend's address --
    the configured one, or [http://localhost:7071/api] when the page
    configures none or an empty one -- followed by the path of the call; the
    file list is asked for with [GET] and without a body, the other calls
    [POST]: the chat the message and the deletion the file id as a JSON
    object with that one field, the upload a form with the file in the
    field [file]. *)
Theorem request_of_each_call (c : Call) (w : World) (s : State) (req : Request) :
  In req (requests (since s (snd (run c w s)))) ->
  match c with
  | SendMessage message =>
      url req = backend w ++ "/chat" /\ method req = "POST"
      /\ body req = Some (TextBody (stringify_field "message" message))
  | GetFiles status =>
      (exists query, url req = (backend w ++ "/admin/files") ++ query)
      /\ method req = "GET" /\ body req = None
  | UploadFile file =>
      url req = backend w ++ "/admin/upload" /\ method req = "POST"
      /\ body req = Some (FormBody [("file", file)])
  | DeleteFile fileId =>
      url req = backend w ++ "/admin/delete" /\ method req = "POST"
      /\ body req = Some (TextBody (stringify_field "file_id" fileId))
  end.
Proof.
  intros Hin.
  destruct (run_cases c w s) as [Hs|(h & s1 & evs & _ & _ & _ & Hsil & _ & Hsince & _)].
  - rewrite (silent_requests _ Hs) in Hin. destruct Hin.
  - rewrite Hsince, requests_app, (silent_requests _ Hsil) in Hin.
    destruct Hin as [<-|[]].
    destruct (backend_eq w) as [Hc Ha].
    destruct c as [message|status|file|fileId]; simpl; rewrite <- ?Hc, <- ?Ha;
      repeat split.
    destruct status as [st|]; [destruct (st =? "")|].
    + exists "". symmetry. apply append_empty_r.
    + exists ("?status=" ++ st). reflexivity.
    + exists "". symmetry. apply append_empty_r.
Qed.

Lemma request_of_each_call_witness :
  url (mkRequest "http://localhost:7071/api/admin/delete" "POST"
         [("Authorization", "Bearer tok-123"); ("Content-Type", "application/json")]
         (Some (TextBody (stringify_field "file_id" "f-1"))))
  = backend Examples2.unconfigured ++ "/admin/delete".
Proof.
  refine (proj1 (request_of_each_call (DeleteFile "f-1") Examples2.unconfigured
                   Examples.fresh _ _)).
  left. reflexivity.
Defined.

End GatewayMore.

(** ** The allow-list *)

Section AllowList.
Import Auth.




End AllowList.

(** ** One client handle for the page *)

Section SingleClient.
Import Auth Gateway Admin Chat Session AdminPage Lifecycle.

Lemma keeps_ret {A} (I : State -> Prop) (a : A) : keeps I (ret a).
Proof. intros w s r s' Hi H. inversion H; subst. exact Hi. Qed.

Lemma keeps_throw {A} (I : State -> Prop) (e : Exception) : keeps I (@throw A e).
Proof. intros w s r s' Hi H. inversion H; subst. exact Hi. Qed.

Lemma keeps_ask (I : State -> Prop) : keeps I ask.
Proof. intros w s r s' Hi H. inversion H; subst. exact Hi. Qed.

Lemma keeps_await {A} (I : State -> Prop) (p : Settled A) : keeps I (await p).
Proof. destruct p; [apply keeps_ret|apply keeps_throw]. Qed.

Lemma keeps_consult {A} (I : State -> Prop) (f : list Event -> A) : keeps I (consult f).
Proof. intros w s r s' Hi H. inversion H; subst. exact Hi. Qed.

Lemma keeps_bind {A B} (I : State -> Prop) (c : M A) (k : A -> M B) :
  keeps I c -> (forall a, keeps I (k a)) -> keeps I (bind c k).
Proof.
  intros Hc Hk w s r s' Hi H. unfold bind in H.
  destruct (c w s) as [[a|e] s1] eqn:Ec.
  - exact (Hk a _ _ _ _ (Hc _ _ _ _ Hi Ec) H).
  - inversion H; subst. exact (Hc _ _ _ _ Hi Ec).
Qed.

Lemma keeps_try_catch {A} (I : State -> Prop) (c : M A) (h : Exception -> M A) :
  keeps I c -> (forall e, keeps I (h e)) -> keeps I (try_catch c h).
Proof.
  intros Hc Hh w s r s' Hi H. unfold try_catch in H.
  destruct (c w s) as [[a|e] s1] eqn:Ec.
  - inversion H; subst. exact (Hc _ _ _ _ Hi Ec).
  - exact (Hh e _ _ _ _ (Hc _ _ _ _ Hi Ec) H).
Qed.

Lemma keeps_try_finally {A} (I : State -> Prop) (c : M A) (f : M unit) :
  keeps I c -> keeps I f -> keeps I (try_finally c f).
Proof.
  intros Hc Hf w s r s' Hi H. unfold try_finally in H.
  destruct (c w s) as [r1 s1] eqn:Ec.
  destruct (f w s1) as [[[]|e] s2] eqn:Ef; inversion H; subst;
    exact (Hf _ _ _ _ (Hc _ _ _ _ Hi Ec) Ef).
Qed.

Lemma keeps_for_each {A} (I : State -> Prop) (f : A -> M unit) (l : list A) :
  (forall a, keeps I (f a)) -> keeps I (for_each f l).
Proof.
  intros Hf. induction l as [|x l IH]; simpl.
  - apply keeps_ret.
  - apply keeps_bind; [apply Hf|intros _; exact IH].
Qed.

Lemma keeps_map_m {A B} (I : State -> Prop) (f : A -> M B) (l : list A) :
  (forall a, keeps I (f a)) -> keeps I (map_m f l).
Proof.
  intros Hf. induction l as [|x l IH]; simpl.
  - apply keeps_ret.
  - apply keeps_bind; [apply Hf|intros y].
    apply keeps_bind; [exact IH|intros ys; apply keeps_ret].
Qed.

Lemma creations_app (a b : list Event) :
  creations (a ++ b) = (creations a + creations b)%nat.
Proof.
  induction a as [|e a IH]; simpl; [reflexivity|].
  destruct e; simpl; rewrite ?IH; reflexivity.
Qed.

(** Recording anything but the creation of the handle keeps the count. *)
Lemma keeps_emit (e : Event) :
  creations [e] = 0%nat -> keeps single_client (emit e).
Proof.
  intros He w s r s' [H1 H2] H. inversion H; subst. unfold single_client, log. simpl.
  rewrite creations_app, He, Nat.add_0_r. split; assumption.
Qed.

Lemma keeps_oracle {A} (e : Event) (f : World -> list Event -> A) :
  creations [e] = 0%nat -> keeps single_client (oracle e f).
Proof.
  intros He w s r s' [H1 H2] H. inversion H; subst. unfold single_client, log. simpl.
  rewrite creations_app, He, Nat.add_0_r. split; assumption.
Qed.

(** The one place that creates the handle does so only while there is
    none. *)
Lemma initSupabase_keeps : keeps single_client initSupabase.
Proof.
  intros w s r s' [H1 H2] H. rewrite initSupabase_eq in H. inversion H; subst.
  unfold client_state, single_client.
  destruct (supabase_defined w).
  - destruct (supabaseClient s) eqn:Ec.
    + split; [assumption|intros Hn; congruence].
    + destruct (supabase_createClient w _ _).
      * split; [assumption|intros _; exact (H2 eq_refl)].
      * simpl. rewrite creations_app, (H2 eq_refl). simpl. split; [lia|discriminate].
  - unfold log. simpl. rewrite creations_app, Nat.add_0_r. split; assumption.
Qed.

End SingleClient.

(** Takes a [keeps single_client] goal apart along the computation. *)
Ltac keeps_steps :=
  repeat first
    [ apply keeps_ret | apply keeps_throw | apply keeps_await | apply keeps_ask
    | apply keeps_consult
    | apply initSupabase_keeps
    | apply keeps_emit; reflexivity
    | apply keeps_oracle; reflexivity
    | apply keeps_bind; [|intros ?]
    | apply keeps_try_catch; [|intros ?]
    | apply keeps_try_finally
    | apply keeps_for_each; intros ?
    | apply keeps_map_m; intros ?
    | match goal with
      | |- Lifecycle.keeps _ (if ?b then _ else _) => destruct b
      | |- Lifecycle.keeps _ (match ?x with _ => _ end) => destruct x
      end ].

Section SingleClientWorkflows.
Import Auth Gateway Admin Chat Session AdminPage Lifecycle.

Lemma getCurrentUser_keeps : keeps single_client getCurrentUser.
Proof. unfold getCurrentUser. keeps_steps. Qed.

Lemma getAuthHeaders_keeps : keeps single_client getAuthHeaders.
Proof. unfold getAuthHeaders, getAuthToken. keeps_steps. Qed.

Lemma read_response_keeps (fb : string) (resp : Response) :
  keeps single_client (read_response fb resp).
Proof. unfold read_response. keeps_steps. Qed.

Lemma run_keeps (c : Call) : keeps single_client (run c).
Proof.
  destruct c; simpl;
    [unfold sendMessage|unfold getFiles|unfold uploadFile|unfold deleteFile];
    repeat first
      [ apply getAuthHeaders_keeps | apply read_response_keeps
      | apply keeps_ask | apply keeps_ret | apply keeps_await
      | apply keeps_oracle; reflexivity
      | apply keeps_bind; [|intros ?]
      | match goal with |- keeps _ (if ?b then _ else _) => destruct b end ].
Qed.

Lemma showAlert_keeps (message type : string) : keeps single_client (showAlert message type).
Proof. unfold showAlert, dom. keeps_steps. Qed.

Lemma displayFiles_keeps (files : Value) : keeps single_client (displayFiles files).
Proof. unfold displayFiles, file_row, dom. keeps_steps. Qed.

Lemma loadFiles_keeps : keeps single_client loadFiles.
Proof.
  unfold loadFiles. apply keeps_bind; [apply keeps_ask|intros w].
  apply keeps_try_catch; [|intros e; apply showAlert_keeps].
  apply keeps_bind; [exact (run_keeps (GetFiles _))|intros data].
  apply keeps_bind; [apply keeps_await|intros files]. apply displayFiles_keeps.
Qed.

Lemma handleDeleteFile_keeps (fileId : string) : keeps single_client (handleDeleteFile fileId).
Proof.
  unfold handleDeleteFile.
  apply keeps_try_catch; [|intros e; apply showAlert_keeps].
  apply keeps_bind; [exact (run_keeps (Gateway.DeleteFile fileId))|intros _].
  apply keeps_bind; [apply loadFiles_keeps|intros _]. apply showAlert_keeps.
Qed.

Lemma onFileChange_keeps (file : option File) : keeps single_client (onFileChange file).
Proof.
  unfold onFileChange. destruct file as [file|]; [|apply keeps_ret].
  unfold dom.
  apply keeps_bind; [apply keeps_emit; reflexivity|intros _].
  apply keeps_bind; [apply keeps_emit; reflexivity|intros _].
  apply keeps_try_finally.
  - apply keeps_try_catch; [|intros e; apply showAlert_keeps].
    unfold upload_and_reload.
    apply keeps_bind; [exact (run_keeps (UploadFile file))|intros _].
    apply keeps_bind; [apply showAlert_keeps|intros _].
    apply keeps_bind; [apply loadFiles_keeps|intros _].
    apply keeps_emit; reflexivity.
  - unfold enable_upload, dom. keeps_steps.
Qed.

Lemma displaySources_keeps (sources : Value) : keeps single_client (displaySources sources).
Proof. unfold displaySources, source_text, dom. keeps_steps. Qed.

Lemma onSubmit_keeps (input : string) : keeps single_client (onSubmit input).
Proof.
  unfold onSubmit. apply keeps_bind; [apply keeps_ask|intros w]. unfold dom.
  apply keeps_bind; [apply keeps_emit; reflexivity|intros _]. cbv zeta.
  destruct (trim input =? ""); [apply keeps_ret|].
  apply keeps_bind; [unfold displayMessage, dom; keeps_steps|intros _].
  apply keeps_bind; [apply keeps_emit; reflexivity|intros _].
  apply keeps_bind; [apply keeps_emit; reflexivity|intros _].
  apply keeps_bind; [keeps_steps|intros _].
  apply keeps_try_finally; [|unfold enable_controls, dom; keeps_steps].
  apply keeps_try_catch; [|intros e; unfold displayError, dom; keeps_steps].
  unfold exchange. apply keeps_bind; [apply keeps_ask|intros w'].
  apply keeps_bind; [exact (run_keeps (SendMessage _))|intros response].
  apply keeps_bind; [apply keeps_await|intros answer].
  apply keeps_bind; [unfold displayMessage, dom; keeps_steps|intros _].
  apply keeps_bind; [apply keeps_await|intros sources].
  destruct (truthy sources); [|apply keeps_ret].
  apply keeps_bind; [apply keeps_await|intros positive].
  destruct positive; [apply displaySources_keeps|apply keeps_ret].
Qed.

Lemma perform_keeps (a : Workflow) (w : World) (s : State) :
  single_client s -> single_client (perform a w s).
Proof.
  intros Hs. destruct a as [| |id mail password|id|input_value| |file|fileId]; simpl.
  - destruct (requireAuth w s) as [r s'] eqn:E. simpl.
    revert E. apply (fun H => H w s r s' Hs).
    change (keeps single_client requireAuth). unfold requireAuth, checkAuth.
    apply keeps_bind; [|intros b; keeps_steps].
    apply keeps_bind; [apply getCurrentUser_keeps|intros u; apply keeps_ret].
  - destruct (isAdmin w s) as [r s'] eqn:E. simpl.
    revert E. apply (fun H => H w s r s' Hs).
    change (keeps single_client isAdmin). unfold isAdmin.
    apply keeps_bind; [apply getCurrentUser_keeps|intros u]. keeps_steps.
  - destruct (login id mail password w s) as [r s'] eqn:E. simpl.
    revert E. apply (fun H => H w s r s' Hs).
    change (keeps single_client (login id mail password)). unfold login. keeps_steps.
  - destruct (logout id w s) as [r s'] eqn:E. simpl.
    revert E. apply (fun H => H w s r s' Hs).
    change (keeps single_client (logout id)). unfold logout. keeps_steps.
  - destruct (onSubmit input_value w s) as [r s'] eqn:E. simpl.
    exact (onSubmit_keeps _ _ _ _ _ Hs E).
  - destruct (loadFiles w s) as [r s'] eqn:E. simpl.
    exact (loadFiles_keeps _ _ _ _ Hs E).
  - destruct (onFileChange file w s) as [r s'] eqn:E. simpl.
    exact (onFileChange_keeps _ _ _ _ _ Hs E).
  - destruct (handleDeleteFile fileId w s) as [r s'] eqn:E. simpl.
    exact (handleDeleteFile_keeps _ _ _ _ _ Hs E).
Qed.

(** X9: whatever workflows a page runs after it is loaded, in whatever
    order and however each of them ends, the client handle is created at
    most once. *)
Theorem client_created_at_most_once (l : list Workflow) (w : World) :
  (creations (history (perform_all l w (mkState None []))) <= 1)%nat.
Proof.
  assert (H : forall s, single_client s -> single_client (perform_all l w s)).
  { induction l as [|a l IH]; intros s Hs; simpl; [exact Hs|].
    apply IH. apply perform_keeps. exact Hs. }
  apply H. split; [simpl; lia|reflexivity].
Qed.

End SingleClientWorkflows.

(** ** How many requests a workflow may issue *)

Section Budget.
Import Auth Gateway Admin Chat Session AdminPage Lifecycle.

Lemma sends_of_only {A} (c : M A) : only no_fetch c -> sends_at_most 0 c.
Proof.
  intros Hc w s r s' H. destruct (Hc _ _ _ _ H) as (evs & H1 & H2).
  exists evs. split; [exact H1|]. rewrite (silent_requests _ H2). simpl. lia.
Qed.

Lemma sends_weaken {A} (n m : nat) (c : M A) :
  (n <= m)%nat -> sends_at_most n c -> sends_at_most m c.
Proof.
  intros Hle Hc w s r s' H. destruct (Hc _ _ _ _ H) as (evs & H1 & H2).
  exists evs. split; [exact H1|lia].
Qed.

Lemma sends_bind {A B} (n m : nat) (c : M A) (k : A -> M B) :
  sends_at_most n c -> (forall a, sends_at_most m (k a)) ->
  sends_at_most (n + m) (bind c k).
Proof.
  intros Hc Hk w s r s' H. unfold bind in H.
  destruct (c w s) as [[a|e] s1] eqn:Ec.
  - destruct (Hc _ _ _ _ Ec) as (e1 & H1 & Q1).
    destruct (Hk a _ _ _ _ H) as (e2 & H2 & Q2).
    exists (e1 ++ e2)%list. rewrite H2, H1, app_assoc.
    split; [reflexivity|]. rewrite requests_app, length_app. lia.
  - inversion H; subst. destruct (Hc _ _ _ _ Ec) as (e1 & H1 & Q1).
    exists e1. split; [exact H1|lia].
Qed.

Lemma sends_try_catch {A} (n m : nat) (c : M A) (h : Exception -> M A) :
  sends_at_most n c -> (forall e, sends_at_most m (h e)) ->
  sends_at_most (n + m) (try_catch c h).
Proof.
  intros Hc Hh w s r s' H. unfold try_catch in H.
  destruct (c w s) as [[a|e] s1] eqn:Ec.
  - inversion H; subst. destruct (Hc _ _ _ _ Ec) as (e1 & H1 & Q1).
    exists e1. split; [exact H1|lia].
  - destruct (Hc _ _ _ _ Ec) as (e1 & H1 & Q1).
    destruct (Hh e _ _ _ _ H) as (e2 & H2 & Q2).
    exists (e1 ++ e2)%list. rewrite H2, H1, app_assoc.
    split; [reflexivity|]. rewrite requests_app, length_app. lia.
Qed.

Lemma sends_try_finally {A} (n m : nat) (c : M A) (f : M unit) :
  sends_at_most n c -> sends_at_most m f -> sends_at_most (n + m) (try_finally c f).
Proof.
  intros Hc Hf w s r s' H. unfold try_finally in H.
  destruct (c w s) as [r1 s1] eqn:Ec.
  destruct (Hc _ _ _ _ Ec) as (e1 & H1 & Q1).
  destruct (f w s1) as [[[]|e] s2] eqn:Ef;
    destruct (Hf _ _ _ _ Ef) as (e2 & H2 & Q2); inversion H; subst;
    exists (e1 ++ e2)%list; rewrite H2, H1, app_assoc;
    (split; [reflexivity|rewrite requests_app, length_app; lia]).
Qed.

Lemma sends_oracle {A} (e : Event) (f : World -> list Event -> A) :
  sends_at_most 1 (oracle e f).
Proof.
  intros w s r s' H. inversion H; subst. exists [e]. split; [reflexivity|].
  destruct e; simpl; lia.
Qed.

Lemma sends_since {A} (n : nat) (c : M A) (w : World) (s : State) :
  sends_at_most n c -> (List.length (requests (since s (snd (c w s)))) <= n)%nat.
Proof.
  intros Hc. destruct (c w s) as [r s'] eqn:E.
  destruct (Hc _ _ _ _ E) as (evs & H1 & H2). simpl.
  rewrite (since_app _ _ _ H1). exact H2.
Qed.

(** A gateway call: nothing before the request, nothing after it. *)
Lemma sends_gateway (e : Event) (f : World -> list Event -> Settled Response)
      (fb : string) :
  sends_at_most 1
    (bind (oracle e f) (fun p => bind (await p) (fun response => read_response fb response))).
Proof.
  apply (sends_bind 1 0); [apply sends_oracle|intros p].
  apply sends_of_only. apply only_bind; [apply only_await|intros r].
  apply read_response_only.
Qed.

Lemma run_sends (c : Call) : sends_at_most 1 (run c).
Proof.
  destruct c as [message|status|file|fileId]; simpl.
  - unfold sendMessage.
    apply (sends_bind 0 1); [apply sends_of_only, only_ask|intros w].
    apply (sends_bind 0 1); [apply sends_of_only, getAuthHeaders_only|intros h].
    apply sends_gateway.
  - unfold getFiles.
    apply (sends_bind 0 1); [apply sends_of_only, only_ask|intros w].
    apply (sends_bind 0 1); [apply sends_of_only, getAuthHeaders_only|intros h].
    apply sends_gateway.
  - unfold uploadFile.
    apply (sends_bind 0 1); [apply sends_of_only, only_ask|intros w].
    apply (sends_bind 0 1); [apply sends_of_only, getAuthHeaders_only|intros h].
    apply sends_gateway.
  - unfold deleteFile.
    apply (sends_bind 0 1); [apply sends_of_only, only_ask|intros w].
    apply (sends_bind 0 1); [apply sends_of_only, only_oracle; exact I|intros confirmed].
    destruct confirmed; simpl.
    + apply (sends_bind 0 1); [apply sends_of_only, getAuthHeaders_only|intros h].
      apply sends_gateway.
    + apply (sends_weaken 0); [lia|]. apply sends_of_only, only_ret.
Qed.

Lemma loadFiles_sends : sends_at_most 1 loadFiles.
Proof.
  unfold loadFiles.
  apply (sends_bind 0 1); [apply sends_of_only, only_ask|intros w].
  apply (sends_try_catch 1 0); [|intros e; apply sends_of_only, showAlert_only].
  apply (sends_bind 1 0); [exact (run_sends (GetFiles _))|intros data].
  apply sends_of_only.
  apply only_bind; [apply only_await|intros files]. apply displayFiles_only.
Qed.

Lemma handleDeleteFile_sends (fileId : string) : sends_at_most 2 (handleDeleteFile fileId).
Proof.
  unfold handleDeleteFile.
  apply (sends_try_catch 2 0); [|intros e; apply sends_of_only, showAlert_only].
  apply (sends_bind 1 1); [exact (run_sends (Gateway.DeleteFile fileId))|intros _].
  apply (sends_bind 1 0); [apply loadFiles_sends|intros _].
  apply sends_of_only, showAlert_only.
Qed.

Lemma onFileChange_sends (file : option File) : sends_at_most 2 (onFileChange file).
Proof.
  unfold onFileChange. destruct file as [file|].
  - unfold dom.
    apply (sends_bind 0 2); [apply sends_of_only, only_emit; exact I|intros _].
    apply (sends_bind 0 2); [apply sends_of_only, only_emit; exact I|intros _].
    apply (sends_try_finally 2 0).
    + apply (sends_try_catch 2 0); [|intros e; apply sends_of_only, showAlert_only].
      unfold upload_and_reload.
      apply (sends_bind 1 1); [exact (run_sends (UploadFile file))|intros _].
      apply (sends_bind 0 1); [apply sends_of_only, showAlert_only|intros _].
      apply (sends_bind 1 0); [apply loadFiles_sends|intros _].
      apply sends_of_only, only_emit. exact I.
    + apply sends_of_only. unfold enable_upload, dom. only_steps.
  - apply (sends_weaken 0); [lia|]. apply sends_of_only, only_ret.
Qed.

Lemma displayMessage_only (message : Value) (isUser : bool) :
  only no_fetch (displayMessage message isUser).
Proof. unfold displayMessage, dom. only_steps. Qed.

Lemma onSubmit_sends (input : string) : sends_at_most 1 (onSubmit input).
Proof.
  unfold onSubmit, dom.
  apply (sends_bind 0 1); [apply sends_of_only, only_ask|intros w].
  apply (sends_bind 0 1); [apply sends_of_only, only_emit; exact I|intros _]. cbv zeta.
  destruct (trim input =? "").
  { apply (sends_weaken 0); [lia|]. apply sends_of_only, only_ret. }
  apply (sends_bind 0 1); [apply sends_of_only, displayMessage_only|intros _].
  apply (sends_bind 0 1); [apply sends_of_only, only_emit; exact I|intros _].
  apply (sends_bind 0 1); [apply sends_of_only, only_emit; exact I|intros _].
  apply (sends_bind 0 1); [apply sends_of_only; only_steps|intros _].
  apply (sends_try_finally 1 0); [|apply sends_of_only; unfold enable_controls, dom; only_steps].
  apply (sends_try_catch 1 0); [|intros e; apply sends_of_only, displayError_only].
  unfold exchange.
  apply (sends_bind 0 1); [apply sends_of_only, only_ask|intros w'].
  apply (sends_bind 1 0); [exact (run_sends (SendMessage _))|intros response].
  apply sends_of_only.
  apply only_bind; [apply only_await|intros answer].
  apply only_bind; [apply displayMessage_only|intros _].
  apply only_bind; [apply only_await|intros sources].
  apply sources_only.
Qed.

Lemma getCurrentUser_only : only no_fetch getCurrentUser.
Proof.
  eapply only_weaken; [exact behind_no_fetch|apply getCurrentUser_behind].
Qed.

(** X10: no workflow of the page loops or retries: checking the session or
    the administrator, signing in and signing out issue no request to the
    backend; a chat submission and a reload of the file list issue at most
    one; choosing a file and deleting one issue at most two (the call and
    the reload). *)
Theorem request_budget (a : Workflow) (w : World) (s : State) :
  (List.length (requests (since s (perform a w s)))
   <= match a with
      | GuardPage | AskAdmin | SignIn _ _ _ | SignOut _ => 0
      | SubmitChat _ | ReloadFiles => 1
      | ChooseFile _ | RemoveFile _ => 2
      end)%nat.
Proof.
  destruct a as [| |id mail password|id|input_value| |file|fileId]; simpl.
  - apply sends_since, sends_of_only. unfold requireAuth, checkAuth.
    apply only_bind; [|intros b; only_steps].
    apply only_bind; [apply getCurrentUser_only|intros u; apply only_ret].
  - apply sends_since, sends_of_only. unfold isAdmin.
    apply only_bind; [apply getCurrentUser_only|intros u]. only_steps.
  - apply sends_since, sends_of_only. unfold login.
    apply only_bind; [apply initSupabase_only|intros c]. only_steps.
  - apply sends_since, sends_of_only. unfold logout.
    apply only_bind; [apply initSupabase_only|intros c]. only_steps.
  - apply sends_since, onSubmit_sends.
  - apply sends_since, loadFiles_sends.
  - apply sends_since, onFileChange_sends.
  - apply sends_since, handleDeleteFile_sends.
Qed.

End Budget.

(** ** More on the file-management workflows *)

Section AdminMore.
Import Auth Gateway Admin AdminPage Lifecycle.



(** X12: the deletion workflow never throws.  When [deleteFile] throws, the
    file list is not reloaded and the error's message is shown as an error
    alert; when [deleteFile] returns, the list is reloaded and the alert of
    a successful deletion is shown last, whether the reload succeeded or
    not. *)
Theorem handleDeleteFile_outcomes (fileId : string) (w : World) (s : State) :
  fst (handleDeleteFile fileId w s) = Returned tt
  /\ (forall e s1,
         deleteFile fileId w s = (Thrown e, s1) ->
         handleDeleteFile fileId w s
         = showAlert (if exn_message e =? "" then "ファイル削除に失敗しました"
                      else exn_message e) "error" w s1)
  /\ (forall v s1,
         deleteFile fileId w s = (Returned v, s1) ->
         handleDeleteFile fileId w s
         = showAlert "ファイルを削除しました" "success" w (snd (loadFiles w s1))).
Proof.
  unfold handleDeleteFile, try_catch, bind.
  destruct (deleteFile fileId w s) as [[v|e] s1].
  - pose proof (loadFiles_returns w s1) as Hl.
    destruct (loadFiles w s1) as [r s2] eqn:El. simpl in Hl. subst r.
    rewrite showAlert_eq. simpl. split; [reflexivity|]. split.
    + intros e s1' H. discriminate.
    + intros v' s1' H. inversion H; subst. rewrite El, showAlert_eq. reflexivity.
  - rewrite showAlert_eq. simpl. split; [reflexivity|]. split.
    + intros e' s1' H. inversion H; subst. rewrite showAlert_eq. reflexivity.
    + intros v' s1' H. discriminate.
Qed.

Lemma handleDeleteFile_outcomes_witness :
  since Examples.fresh (snd (handleDeleteFile "f-1" Examples2.offline Examples.fresh))
  = [Confirm question; CreateClient "https://id.example" "anon-key"; GetSession;
     Fetch (mkRequest "https://api.example/api/admin/delete" "POST"
              [("Authorization", "Bearer tok-123"); ("Content-Type", "application/json")]
              (Some (TextBody (stringify_field "file_id" "f-1"))));
     Dom (ShowAlert "alert alert-error" "Failed to fetch");
     Dom (HideAlertAfter 5000)].
Proof.
  rewrite (proj1 (proj2 (handleDeleteFile_outcomes "f-1" Examples2.offline Examples.fresh))
             (TypeError "Failed to fetch") _ eq_refl).
  reflexivity.
Defined.

Lemma file_row_eq (file : Value) (w : World) (s : State) :
  file_row file w s
  = match row_html (engine w) file with
    | Fulfilled markup => (Returned tt, log s (Dom (AppendRow markup)))
    | Rejected e => (Thrown e, s)
    end.
Proof.
  unfold file_row, bind, ask, await, dom, emit, ret, throw.
  destruct (row_html (engine w) file); reflexivity.
Qed.

(** The rows of the files before the first whose row cannot be built. *)
Lemma for_each_rows (pre : list Value) (rows : list string) (rest : list Value)
      (w : World) (s : State) :
  Forall2 (fun f markup => row_html (engine w) f = Fulfilled markup) pre rows ->
  for_each file_row (pre ++ rest) w s
  = for_each file_row rest w
      (mkState (supabaseClient s)
         (history s ++ map (fun markup => Dom (AppendRow markup)) rows)).
Proof.
  intros Hpre. revert s. induction Hpre as [|f m pre rows Hf _ IH]; intros s; simpl.
  - rewrite app_nil_r. destruct s; reflexivity.
  - unfold bind at 1. rewrite file_row_eq, Hf. rewrite IH.
    unfold log. simpl. rewrite <- app_assoc. reflexivity.
Qed.

Lemma and_then_error {A B} (r : Settled A) (k : A -> Settled B) (e : Exception) :
  and_then r k = Rejected e ->
  r = Rejected e \/ exists a, r = Fulfilled a /\ k a = Rejected e.
Proof.
  destruct r as [a|e']; simpl; intros H; [right; exists a; auto|].
  left. inversion H. reflexivity.
Qed.

(** Whatever keeps a row from being built is a [TypeError]. *)
Lemma row_html_error (g : Engine) (file : Value) (e : Exception) :
  row_html g file = Rejected e -> exn_name e = "TypeError".
Proof.
  unfold row_html. intros H.
  repeat match goal with
         | H : and_then _ _ = Rejected _ |- _ =>
             apply and_then_error in H; destruct H as [H|(? & _ & H)]
         | H : get _ _ = Rejected _ |- _ => exact (get_error _ _ _ H)
         | H : ToString _ _ = Rejected _ |- _ => exact (ToString_error _ _ _ H)
         end; try discriminate.
  - unfold getStatusBadge in H.
    destruct (ToString g _) eqn:E; [discriminate|]. inversion H; subst.
    exact (ToString_error _ _ _ E).
  - unfold ToPrimitive in H.
    destruct x1; try discriminate;
      match type of H with
      | match ?E with _ => _ end = _ => destruct E eqn:E1; [discriminate|]
      end; inversion H; subst; exact (ToString_error _ _ _ E1).
  - unfold escapeHtml, textContent_of in H.
    destruct x3; try discriminate;
      match type of H with
      | match ?E with _ => _ end = _ => destruct E eqn:E1; [discriminate|]
      end; inversion H; subst; exact (ToString_error _ _ _ E1).
  - destruct x0; try discriminate. exact (ToString_error _ _ _ H).
Qed.

(** X13: on a page with the table, [displayFiles] first empties it; for an
    empty array it puts the one row that says there are no files; for an
    array of files whose rows can be built it appends one row per file, in
    order; and when the row of an element cannot be built -- the element
    is [null], or one of its fields has no string -- it throws a
    [TypeError], with the rows of the files before that element already in
    the table. *)
Theorem displayFiles_rows (w : World) (s : State) (pre : list Value) (rows : list string) :
  has_files_tbody (document w) = true ->
  Forall2 (fun f markup => row_html (engine w) f = Fulfilled markup) pre rows ->
  (exists placeholder,
      displayFiles (VArr []) w s
      = (Returned tt, log (log s (Dom ClearRows)) (Dom (AppendRow placeholder))))
  /\ (pre <> [] ->
      displayFiles (VArr pre) w s
      = (Returned tt,
         mkState (supabaseClient s)
           (history s ++ Dom ClearRows :: map (fun markup => Dom (AppendRow markup)) rows)))
  /\ (forall bad rest e,
         row_html (engine w) bad = Rejected e ->
         displayFiles (VArr (pre ++ bad :: rest)) w s
         = (Thrown e,
            mkState (supabaseClient s)
              (history s ++ Dom ClearRows :: map (fun markup => Dom (AppendRow markup)) rows))
         /\ exn_name e = "TypeError")
  /\ (exists e, row_html (engine w) VNull = Rejected e)
  /\ (forall fields,
         has_key "toString" fields = true ->
         exists e, row_html (engine w) (VObj [("status", VObj fields)]) = Rejected e).
Proof.
  intros Ht Hpre. split; [|split; [|split; [|split]]].
  - eexists. unfold displayFiles, bind, ask, dom, emit, await, ret. rewrite Ht. reflexivity.
  - intros Hne. unfold displayFiles. unfold bind at 1, ask at 1. rewrite Ht. cbn [negb].
    unfold bind at 1, dom at 1, emit at 1.
    destruct pre as [|f pre']; [congruence|].
    cbn [length_is_zero List.length Nat.eqb]. unfold bind at 1, await at 1, ret at 1.
    cbv iota.
    rewrite <- (app_nil_r (f :: pre')) at 1. rewrite (for_each_rows _ _ _ _ _ Hpre).
    simpl. unfold ret. rewrite <- app_assoc. reflexivity.
  - intros bad rest e Hbad. split; [|exact (row_html_error _ _ _ Hbad)].
    unfold displayFiles. unfold bind at 1, ask at 1. rewrite Ht. cbn [negb].
    unfold bind at 1, dom at 1, emit at 1.
    assert (Hlen : length_is_zero (VArr (pre ++ bad :: rest)) = Fulfilled false).
    { simpl. rewrite length_app. simpl. rewrite Nat.add_succ_r. reflexivity. }
    rewrite Hlen. unfold bind at 1, await at 1, ret at 1. cbv iota.
    rewrite (for_each_rows _ _ _ _ _ Hpre). simpl. unfold bind at 1.
    rewrite file_row_eq, Hbad. simpl. rewrite <- app_assoc. reflexivity.
  - eexists. reflexivity.
  - intros fields Hk. exists not_primitive.
    unfold row_html. change (get (VObj [("status", VObj fields)]) "status")
      with (Fulfilled (VObj fields)).
    unfold and_then at 1. unfold getStatusBadge. cbn [ToString]. rewrite Hk. reflexivity.
Qed.

Lemma displayFiles_rows_witness :
  exists markup,
    row_html Examples.engine0 (VObj [("id", VStr "f-1")]) = Fulfilled markup
    /\ displayFiles (VArr [VObj [("id", VStr "f-1")]; VNull; VObj [("id", VStr "f-3")]])
         (Examples.signed_in (Examples.response_ok VNull) true) Examples.fresh
       = (Thrown (TypeError "Cannot read properties of null (reading 'status')"),
          mkState None [Dom ClearRows; Dom (AppendRow markup)]).
Proof.
  eexists. split; [reflexivity|].
  refine (proj1 (proj1 (proj2 (proj2 (displayFiles_rows
                                        (Examples.signed_in (Examples.response_ok VNull) true)
                                        Examples.fresh [VObj [("id", VStr "f-1")]] [_]
                                        eq_refl _)))
                   VNull [VObj [("id", VStr "f-3")]] _ eq_refl)).
  constructor; [reflexivity|constructor].
Defined.

End AdminMore.

(** ** The upload listener *)

Section UploadListener.
Import Auth Gateway Admin AdminPage Lifecycle.

(** The state in which the listener starts the upload. *)
Lemma onFileChange_eq (file : File) (w : World) (s : State) :
  onFileChange (Some file) w s
  = try_finally
      (try_catch (upload_and_reload file)
         (fun error =>
            showAlert (message_or error "ファイルアップロードに失敗しました") "error"))
      enable_upload w
      (log (log s (Dom (SetButtonDisabled true))) (Dom (SetButtonText "アップロード中..."))).
Proof. reflexivity. Qed.

Lemma enable_upload_eq (w : World) (s : State) :
  enable_upload w s
  = (Returned tt,
     log (log s (Dom (SetButtonDisabled false))) (Dom (SetButtonText "アップロード"))).
Proof. reflexivity. Qed.

Lemma onFileChange_failed (file : File) (w : World) (s s1 : State) (e : Exception) :
  uploadFile file w
    (log (log s (Dom (SetButtonDisabled true))) (Dom (SetButtonText "アップロード中...")))
  = (Thrown e, s1) ->
  onFileChange (Some file) w s
  = (Returned tt,
     log (log (snd (showAlert (if exn_message e =? ""
                               then "ファイルアップロードに失敗しました"
                               else exn_message e) "error" w s1))
            (Dom (SetButtonDisabled false)))
       (Dom (SetButtonText "アップロード"))).
Proof.
  intros Hu. rewrite onFileChange_eq.
  unfold try_finally, try_catch, upload_and_reload. unfold bind at 1. rewrite Hu.
  rewrite !showAlert_eq, enable_upload_eq. reflexivity.
Qed.

Lemma onFileChange_uploaded (file : File) (w : World) (s s1 : State) (v : Value) :
  uploadFile file w
    (log (log s (Dom (SetButtonDisabled true))) (Dom (SetButtonText "アップロード中...")))
  = (Returned v, s1) ->
  onFileChange (Some file) w s
  = (Returned tt,
     log (log (log (snd (loadFiles w
                           (snd (showAlert "ファイルをアップロードしました" "success" w s1))))
                 (Dom (SetInputValue "")))
            (Dom (SetButtonDisabled false)))
       (Dom (SetButtonText "アップロード"))).
Proof.
  intros Hu. rewrite onFileChange_eq.
  unfold try_finally, try_catch, upload_and_reload. unfold bind at 1. rewrite Hu.
  unfold bind at 1. rewrite !showAlert_eq. cbn [snd].
  set (s2 := if has_alert_message (document w) then _ else s1).
  unfold bind at 1.
  pose proof (loadFiles_returns w s2) as Hl.
  destruct (loadFiles w s2) as [r s3] eqn:El. simpl in Hl. subst r.
  unfold dom, emit. rewrite enable_upload_eq. reflexivity.
Qed.

(** X14: the listener of the file input does nothing at all when no file is
    chosen.  With a file it never throws and always ends by enabling the
    upload button again; when the upload throws, nothing is reloaded and
    the page shows the error's message as an error alert; when the upload
    returns, the page shows the success alert, reloads the file list and
    clears the file input. *)
Theorem onFileChange_outcomes (file : File) (w : World) (s : State) :
  onFileChange None w s = (Returned tt, s)
  /\ fst (onFileChange (Some file) w s) = Returned tt
  /\ (forall e s1,
         uploadFile file w
           (log (log s (Dom (SetButtonDisabled true))) (Dom (SetButtonText "アップロード中...")))
         = (Thrown e, s1) ->
         snd (onFileChange (Some file) w s)
         = log (log (snd (showAlert (if exn_message e =? ""
                                     then "ファイルアップロードに失敗しました"
                                     else exn_message e) "error" w s1))
                  (Dom (SetButtonDisabled false)))
             (Dom (SetButtonText "アップロード")))
  /\ (forall v s1,
         uploadFile file w
           (log (log s (Dom (SetButtonDisabled true))) (Dom (SetButtonText "アップロード中...")))
         = (Returned v, s1) ->
         snd (onFileChange (Some file) w s)
         = log (log (log (snd (loadFiles w
                                 (snd (showAlert "ファイルをアップロードしました" "success"
                                         w s1))))
                       (Dom (SetInputValue "")))
                  (Dom (SetButtonDisabled false)))
             (Dom (SetButtonText "アップロード"))).
Proof.
  split; [reflexivity|]. split; [|split].
  - destruct (uploadFile file w
                (log (log s (Dom (SetButtonDisabled true)))
                   (Dom (SetButtonText "アップロード中...")))) as [[v|e] s1] eqn:Eu.
    + rewrite (onFileChange_uploaded _ _ _ _ _ Eu). reflexivity.
    + rewrite (onFileChange_failed _ _ _ _ _ Eu). reflexivity.
  - intros e s1 Hu. rewrite (onFileChange_failed _ _ _ _ _ Hu). reflexivity.
  - intros v s1 Hu. rewrite (onFileChange_uploaded _ _ _ _ _ Hu). reflexivity.
Qed.

Lemma onFileChange_outcomes_witness :
  since Examples.fresh
    (snd (onFileChange (Some (mkFile "notes.txt" "hello")) (Examples.signed_out true)
            Examples.fresh))
  = [Dom (SetButtonDisabled true); Dom (SetButtonText "アップロード中...");
     CreateClient "https://id.example" "anon-key"; GetSession;
     Dom (ShowAlert "alert alert-error" "認証トークンが取得できませんでした");
     Dom (HideAlertAfter 5000);
     Dom (SetButtonDisabled false); Dom (SetButtonText "アップロード")].
Proof.
  rewrite (proj1 (proj2 (proj2 (onFileChange_outcomes (mkFile "notes.txt" "hello")
                                  (Examples.signed_out true) Examples.fresh)))
             no_token _ eq_refl).
  reflexivity.
Defined.

End UploadListener.

(** ** More on the chat listener *)

Section ChatMore.
Import Auth Gateway Chat Lifecycle.

Lemma onSubmit_blank (input : string) (w : World) (s : State) :
  trim input = "" ->
  onSubmit input w s = (Returned tt, log s (Dom PreventDefault)).
Proof.
  intros H. unfold onSubmit, bind, ask, dom, emit, ret. rewrite H. reflexivity.
Qed.

Lemma strip_blank (s : string) (n : nat) :
  ascii_blank s = true -> (String.length s <= n)%nat -> strip_all n whitespace s = "".
Proof.
  revert s. induction n as [|n IH]; intros s Hb Hl.
  - destruct s; [reflexivity|simpl in Hl; lia].
  - destruct s as [|c rest]; [reflexivity|].
    simpl in Hb. apply andb_true_iff in Hb. destruct Hb as [Hc Hrest].
    assert (Hs : strip_any whitespace (String c rest) = Some rest).
    { destruct c as [[] [] [] [] [] [] [] []]; try discriminate Hc; reflexivity. }
    cbn [strip_all]. rewrite Hs. apply IH; [exact Hrest|simpl in Hl; lia].
Qed.

Lemma trim_blank (s : string) : ascii_blank s = true -> trim s = "".
Proof.
  intros Hb. unfold trim, trimStart. rewrite (strip_blank s _ Hb (Nat.le_refl _)).
  reflexivity.
Qed.

(** X15: a submission whose message is empty after trimming -- such as any
    message of spaces, tabs and line breaks only -- sends nothing and
    changes nothing on the page: the listener only cancels the form's own
    submission. *)
Theorem blank_message_is_not_sent (input : string) (w : World) (s : State) :
  trim input = "" \/ ascii_blank input = true ->
  onSubmit input w s = (Returned tt, log s (Dom PreventDefault))
  /\ requests (since s (snd (onSubmit input w s))) = [].
Proof.
  intros H.
  assert (Ht : trim input = "") by (destruct H as [H|H]; [exact H|exact (trim_blank _ H)]).
  rewrite (onSubmit_blank _ _ _ Ht). split; [reflexivity|].
  simpl. rewrite since_log. reflexivity.
Qed.

Lemma blank_message_is_not_sent_witness :
  onSubmit (bytes [32; 9; 10; 32])
    (Examples.signed_in (Examples.response_ok Examples.chat_reply) true) Examples.fresh
  = (Returned tt, log Examples.fresh (Dom PreventDefault)).
Proof.
  apply (blank_message_is_not_sent (bytes [32; 9; 10; 32])).
  right. reflexivity.
Defined.

Lemma any_of_sends {A} (n : nat) (c : M A) :
  sends_at_most n c -> only (fun _ => True) c.
Proof.
  intros Hc w s r s' H. destruct (Hc _ _ _ _ H) as (evs & H1 & _).
  exists evs. split; [exact H1|]. apply Forall_forall. intros; exact I.
Qed.

Lemma enable_controls_since (w : World) (s : State) :
  history (snd (enable_controls w s))
  = (history s
     ++ Dom (SetInputDisabled false)
        :: (if has_submit_button (document w)
            then [Dom (SetButtonDisabled false); Dom (SetButtonText "送信")]
            else []))%list.
Proof.
  rewrite enable_controls_eq. destruct (has_submit_button (document w)); simpl;
    rewrite <- ?app_assoc; reflexivity.
Qed.

(** X16: the chat listener never throws, whatever the session, the network
    and the backend do; and a submission with a message always ends with
    the input -- and the submit button, when there is one -- enabled again,
    with the message the user typed on the page first. *)
Theorem onSubmit_always_recovers (input : string) (w : World) (s : State) :
  fst (onSubmit input w s) = Returned tt
  /\ (trim input <> "" ->
      exists between,
        since s (snd (onSubmit input w s))
        = (since s (submitting (trim input) w s)
           ++ between
           ++ Dom (SetInputDisabled false)
              :: (if has_submit_button (document w)
                  then [Dom (SetButtonDisabled false); Dom (SetButtonText "送信")]
                  else []))%list).
Proof.
  destruct (String.eqb_spec (trim input) "") as [Hb|Hn].
  - rewrite (onSubmit_blank input w s Hb). split; [reflexivity|].
    intros H. contradiction.
  - rewrite (onSubmit_eq _ _ _ Hn). split.
    + destruct (listener_wraps (exchange (trim input)) w (submitting (trim input) w s))
        as (ew & Hret & _). exact Hret.
    + intros _. unfold try_finally.
      destruct (try_catch (exchange (trim input))
                  (fun error => displayError (message_or error "メッセージ送信に失敗しました"))
                  w (submitting (trim input) w s)) as [r s1] eqn:Et.
      assert (Ho : only (fun _ => True)
                     (try_catch (exchange (trim input))
                        (fun error =>
                           displayError (message_or error "メッセージ送信に失敗しました")))).
      { apply only_try_catch;
          [|intros e; eapply only_weaken; [intros ? _; exact I|apply displayError_only]].
        unfold exchange. apply only_bind; [apply only_ask|intros w'].
        apply only_bind; [exact (any_of_sends _ _ (run_sends (SendMessage (trim input))))|].
        intros response. eapply only_weaken; [intros ? _; exact I|].
        apply only_bind; [apply only_await|intros answer].
        apply only_bind; [apply displayMessage_only|intros _].
        apply only_bind; [apply only_await|intros sources].
        apply sources_only. }
      destruct (Ho _ _ _ _ Et) as (between & Hb & _).
      destruct (submitting_grows (trim input) w s) as (e0 & H0 & _).
      pose proof (enable_controls_since w s1) as He.
      rewrite enable_controls_eq in He |- *. cbn [snd] in He |- *.
      exists between. rewrite (since_app _ _ _ H0).
      apply since_app. rewrite He, Hb, H0, <- !app_assoc. reflexivity.
Qed.

End ChatMore.

Section ChatFailures.
Import Auth Gateway Chat Lifecycle.

(** X17: when the chat call throws -- no session, a network failure, an
    error reply -- the listener shows the error's message (the fixed
    fallback for an empty message) as an error entry of the conversation,
    renders no answer, and enables the controls again. *)
Theorem onSubmit_shows_failure (input : string) (w : World) (s s1 : State) (e : Exception) :
  trim input <> "" ->
  sendMessage (trim input) w (submitting (trim input) w s) = (Thrown e, s1) ->
  onSubmit input w s
  = (Returned tt,
     snd (enable_controls w
            (snd (displayError (if exn_message e =? "" then "メッセージ送信に失敗しました"
                                else exn_message e) w s1)))).
Proof.
  intros Hn Hs. rewrite (onSubmit_eq _ _ _ Hn).
  unfold try_finally, try_catch, exchange. unfold bind at 1, ask at 1.
  unfold bind at 1. rewrite Hs. rewrite !displayError_eq, !enable_controls_eq.
  reflexivity.
Qed.

Lemma onSubmit_shows_failure_witness :
  since Examples.fresh (snd (onSubmit "hello" (Examples.signed_out true) Examples.fresh))
  = [Dom PreventDefault;
     Dom (AppendMessage "message user" "あなた" "hello");
     Dom (SetInputValue ""); Dom (SetInputDisabled true);
     Dom (SetButtonDisabled true);
     Dom (SetButtonHTML ("<span class=" ++ dquote ++ "loading" ++ dquote
                         ++ "></span> 送信中..."));
     CreateClient "https://id.example" "anon-key"; GetSession;
     Dom (AppendError "エラー" "認証トークンが取得できませんでした");
     Dom (SetInputDisabled false); Dom (SetButtonDisabled false);
     Dom (SetButtonText "送信")].
Proof.
  rewrite (onSubmit_shows_failure "hello" (Examples.signed_out true) Examples.fresh _ no_token
             ltac:(discriminate) eq_refl).
  reflexivity.
Defined.

(** X18: when the reply carries an answer that has a text and no sources
    -- the field is absent, [null], another falsy value or an empty array --
    the answer is the last thing the listener puts on the page: it goes
    straight on to enabling the controls, and no list of sources is
    rendered. *)
Theorem onSubmit_without_sources (input : string) (w : World) (s s1 : State) (t : string)
        (resp : Response) (body : Value) (answer : string) :
  trim input <> "" ->
  has_chat_messages (document w) = true ->
  getAuthToken w (submitting (trim input) w s) = (Returned (Some t), s1) ->
  t <> "" ->
  window_fetch w (history s1)
    (mkRequest (API_BASE_URL w ++ "/chat") "POST"
       [("Authorization", "Bearer " ++ t); ("Content-Type", "application/json")]
       (Some (TextBody (stringify_field "message" (trim input))))) = Fulfilled resp ->
  ok resp = true ->
  json resp = Fulfilled body ->
  body <> VNull -> body <> VUndefined ->
  textContent_of (engine w) (field body "answer") = Fulfilled answer ->
  truthy (field body "sources") = false \/ field body "sources" = VArr [] ->
  onSubmit input w s
  = (Returned tt,
     snd (enable_controls w
            (log (log s1 (Fetch (mkRequest (API_BASE_URL w ++ "/chat") "POST"
                                   [("Authorization", "Bearer " ++ t);
                                    ("Content-Type", "application/json")]
                                   (Some (TextBody (stringify_field "message"
                                                      (trim input)))))))
               (Dom (AppendMessage "message assistant" "アシスタント" answer))))).
Proof.
  intros Hn Hc Ht Hne Hf Hok Hj Hnull Hundef Ha Hsrc. rewrite (onSubmit_eq _ _ _ Hn).
  unfold try_finally, try_catch.
  rewrite (exchange_steps _ _ _ _ _ _ _ _ Hc Ht Hne Hf Hok Hj Hnull Hundef Ha).
  destruct Hsrc as [Hs|Hs]; rewrite Hs; simpl; rewrite !enable_controls_eq; reflexivity.
Qed.

Lemma onSubmit_without_sources_witness :
  since Examples.fresh
    (snd (onSubmit "hello"
            (Examples.signed_in (Examples.response_ok (VObj [("answer", VStr "Hi.")])) true)
            Examples.fresh))
  = [Dom PreventDefault;
     Dom (AppendMessage "message user" "あなた" "hello");
     Dom (SetInputValue ""); Dom (SetInputDisabled true);
     Dom (SetButtonDisabled true);
     Dom (SetButtonHTML ("<span class=" ++ dquote ++ "loading" ++ dquote
                         ++ "></span> 送信中..."));
     CreateClient "https://id.example" "anon-key"; GetSession;
     Fetch (mkRequest "https://api.example/api/chat" "POST"
              [("Authorization", "Bearer tok-123"); ("Content-Type", "application/json")]
              (Some (TextBody (stringify_field "message" "hello"))));
     Dom (AppendMessage "message assistant" "アシスタント" "Hi.");
     Dom (SetInputDisabled false); Dom (SetButtonDisabled false);
     Dom (SetButtonText "送信")].
Proof.
  rewrite (onSubmit_without_sources "hello"
             (Examples.signed_in (Examples.response_ok (VObj [("answer", VStr "Hi.")])) true)
             Examples.fresh _ "tok-123"
             (Examples.response_ok (VObj [("answer", VStr "Hi.")]))
             (VObj [("answer", VStr "Hi.")]) "Hi."
             ltac:(discriminate) eq_refl eq_refl ltac:(discriminate) eq_refl eq_refl eq_refl
             ltac:(discriminate) ltac:(discriminate) eq_refl (or_introl eq_refl)).
  reflexivity.
Defined.

(** A list of sources with a missing one gives no texts at all. *)
Lemma map_m_source_text_missing (pre rest : list Value) (w : World) (s : State) :
  exists e, map_m source_text (pre ++ VNull :: rest) w s = (Thrown e, s)
            /\ exn_name e = "TypeError".
Proof.
  induction pre as [|i pre IH]; simpl.
  - eexists. split; reflexivity.
  - destruct IH as (e & He & Hname). unfold bind at 1.
    destruct (source_text i w s) as [[y|e1] s1] eqn:E.
    + pose proof (source_text_state i w s) as Hs. rewrite E in Hs. simpl in Hs. subst s1.
      unfold bind at 1. rewrite He. exists e. split; [reflexivity|exact Hname].
    + destruct (source_text_throws _ _ _ _ _ E) as [-> Hn].
      exists e1. split; [reflexivity|exact Hn].
Qed.

(** X19: when one of the sources of a reply is [null], no list of sources
    is rendered, not even for the sources before it, whatever they are:
    the page shows the answer and, right after it, a [TypeError]'s message
    as an error entry. *)
Theorem onSubmit_malformed_source (input : string) (w : World) (s s1 : State) (t : string)
        (resp : Response) (body : Value) (answer : string) (pre rest : list Value) :
  trim input <> "" ->
  has_chat_messages (document w) = true ->
  getAuthToken w (submitting (trim input) w s) = (Returned (Some t), s1) ->
  t <> "" ->
  window_fetch w (history s1)
    (mkRequest (API_BASE_URL w ++ "/chat") "POST"
       [("Authorization", "Bearer " ++ t); ("Content-Type", "application/json")]
       (Some (TextBody (stringify_field "message" (trim input))))) = Fulfilled resp ->
  ok resp = true ->
  json resp = Fulfilled body ->
  body <> VNull -> body <> VUndefined ->
  textContent_of (engine w) (field body "answer") = Fulfilled answer ->
  field body "sources" = VArr (pre ++ VNull :: rest) ->
  exists e,
    exn_name e = "TypeError"
    /\ onSubmit input w s
       = (Returned tt,
          snd (enable_controls w
                 (log (log (log s1
                              (Fetch (mkRequest (API_BASE_URL w ++ "/chat") "POST"
                                        [("Authorization", "Bearer " ++ t);
                                         ("Content-Type", "application/json")]
                                        (Some (TextBody (stringify_field "message"
                                                           (trim input)))))))
                         (Dom (AppendMessage "message assistant" "アシスタント" answer)))
                    (Dom (AppendError "エラー"
                            (if exn_message e =? "" then "メッセージ送信に失敗しました"
                             else exn_message e)))))).
Proof.
  intros Hn Hc Ht Hne Hf Hok Hj Hnull Hundef Ha Hsrc.
  set (s3 := log (log s1 _) (Dom (AppendMessage "message assistant" "アシスタント" answer))).
  destruct (map_m_source_text_missing pre rest w s3) as (e & He & Hname).
  exists e. split; [exact Hname|].
  rewrite (onSubmit_eq _ _ _ Hn). unfold try_finally, try_catch.
  rewrite (exchange_steps _ _ _ _ _ _ _ _ Hc Ht Hne Hf Hok Hj Hnull Hundef Ha). fold s3.
  rewrite Hsrc. cbn [truthy].
  assert (Hlen : forall g, length_positive g (VArr (pre ++ VNull :: rest)) = Fulfilled true).
  { intros g. simpl. rewrite length_app. simpl. rewrite Nat.add_succ_r. reflexivity. }
  unfold bind at 1. rewrite Hlen. unfold await at 1, ret at 1. cbv iota.
  unfold displaySources. unfold bind at 1, ask at 1. cbn [truthy negb].
  assert (Hz : length_is_zero (VArr (pre ++ VNull :: rest)) = Fulfilled false).
  { simpl. rewrite length_app. simpl. rewrite Nat.add_succ_r. reflexivity. }
  unfold bind at 1. rewrite Hz. unfold await at 1, ret at 1. cbv iota.
  rewrite Hc. cbn [negb]. cbv iota. unfold bind at 1. rewrite He.
  rewrite !displayError_eq, Hc, !enable_controls_eq. reflexivity.
Qed.

Lemma onSubmit_malformed_source_witness :
  exists e,
    exn_name e = "TypeError"
    /\ In (Dom (AppendError "エラー"
                   (if exn_message e =? "" then "メッセージ送信に失敗しました"
                    else exn_message e)))
         (since Examples.fresh
            (snd (onSubmit "hello"
                    (Examples.signed_in
                       (Examples.response_ok
                          (VObj [("answer", VStr "Hi."); ("sources", VArr [VNull])])) true)
                    Examples.fresh))).
Proof.
  destruct (onSubmit_malformed_source "hello"
              (Examples.signed_in
                 (Examples.response_ok
                    (VObj [("answer", VStr "Hi."); ("sources", VArr [VNull])])) true)
              Examples.fresh _ "tok-123"
              (Examples.response_ok
                 (VObj [("answer", VStr "Hi."); ("sources", VArr [VNull])]))
              (VObj [("answer", VStr "Hi."); ("sources", VArr [VNull])]) "Hi." [] []
              ltac:(discriminate) eq_refl eq_refl ltac:(discriminate) eq_refl eq_refl eq_refl
              ltac:(discriminate) ltac:(discriminate) eq_refl eq_refl)
    as (e & Hname & Hrun).
  exists e. split; [exact Hname|]. rewrite Hrun, enable_controls_eq.
  unfold since. simpl. do 10 right. left. reflexivity.
Defined.

(** X25: an answer that has no text -- an object with an own property
    [toString], for one -- is not put on the page: the assignment to
    [textContent] throws, and the listener shows the error's message as an
    error entry right after the request, then enables the controls. *)
Theorem onSubmit_answer_without_text (input : string) (w : World) (s s1 : State)
        (t : string) (resp : Response) (body : Value) (e : Exception) :
  trim input <> "" ->
  has_chat_messages (document w) = true ->
  getAuthToken w (submitting (trim input) w s) = (Returned (Some t), s1) ->
  t <> "" ->
  window_fetch w (history s1)
    (mkRequest (API_BASE_URL w ++ "/chat") "POST"
       [("Authorization", "Bearer " ++ t); ("Content-Type", "application/json")]
       (Some (TextBody (stringify_field "message" (trim input))))) = Fulfilled resp ->
  ok resp = true ->
  json resp = Fulfilled body ->
  body <> VNull -> body <> VUndefined ->
  textContent_of (engine w) (field body "answer") = Rejected e ->
  exn_name e = "TypeError"
  /\ onSubmit input w s
     = (Returned tt,
        snd (enable_controls w
               (log (log s1 (Fetch (mkRequest (API_BASE_URL w ++ "/chat") "POST"
                                      [("Authorization", "Bearer " ++ t);
                                       ("Content-Type", "application/json")]
                                      (Some (TextBody (stringify_field "message"
                                                         (trim input)))))))
                  (Dom (AppendError "エラー"
                          (if exn_message e =? "" then "メッセージ送信に失敗しました"
                           else exn_message e)))))).
Proof.
  intros Hn Hc Ht Hne Hf Hok Hj Hnull Hundef Ha'.
  split.
  - unfold textContent_of in Ha'.
    destruct (field body "answer"); try discriminate; exact (ToString_error _ _ _ Ha').
  - rewrite (onSubmit_eq _ _ _ Hn). unfold try_finally, try_catch.
    rewrite (exchange_no_text _ _ _ _ _ _ _ _ Hc Ht Hne Hf Hok Hj Hnull Hundef Ha').
    rewrite !displayError_eq, Hc, !enable_controls_eq. reflexivity.
Qed.

Lemma onSubmit_answer_without_text_witness :
  since Examples.fresh
    (snd (onSubmit "hello"
            (Examples.signed_in
               (Examples.response_ok
                  (VObj [("answer", VObj [("toString", VNum 1)])])) true)
            Examples.fresh))
  = [Dom PreventDefault;
     Dom (AppendMessage "message user" "あなた" "hello");
     Dom (SetInputValue ""); Dom (SetInputDisabled true);
     Dom (SetButtonDisabled true);
     Dom (SetButtonHTML ("<span class=" ++ dquote ++ "loading" ++ dquote
                         ++ "></span> 送信中..."));
     CreateClient "https://id.example" "anon-key"; GetSession;
     Fetch (mkRequest "https://api.example/api/chat" "POST"
              [("Authorization", "Bearer tok-123"); ("Content-Type", "application/json")]
              (Some (TextBody (stringify_field "message" "hello"))));
     Dom (AppendError "エラー" "Cannot convert object to primitive value");
     Dom (SetInputDisabled false); Dom (SetButtonDisabled false);
     Dom (SetButtonText "送信")].
Proof.
  rewrite (proj2 (onSubmit_answer_without_text "hello"
                    (Examples.signed_in
                       (Examples.response_ok
                          (VObj [("answer", VObj [("toString", VNum 1)])])) true)
                    Examples.fresh _ "tok-123"
                    (Examples.response_ok (VObj [("answer", VObj [("toString", VNum 1)])]))
                    (VObj [("answer", VObj [("toString", VNum 1)])]) not_primitive
                    ltac:(discriminate) eq_refl eq_refl ltac:(discriminate) eq_refl eq_refl
                    eq_refl ltac:(discriminate) ltac:(discriminate) eq_refl)).
  reflexivity.
Defined.

End ChatFailures.

(** ** Badges, escaping and fixed notation *)

Section Markup.
Import Admin AdminPage.

Lemma existsb_eqb_false (k : string) (l : list string) :
  ~ In k l -> existsb (String.eqb k) l = false.
Proof.
  intros Hn. destruct (existsb (String.eqb k) l) eqn:E; [|reflexivity].
  apply existsb_exists in E. destruct E as (x & Hx & Heq).
  apply String.eqb_eq in Heq. subst. contradiction.
Qed.

Lemma get_key_none (k : string) (o : list (string * string)) :
  ~ In k (map fst o) -> get_key k o = None.
Proof.
  induction o as [|[k' v] o IH]; intros Hn; [reflexivity|]. simpl in *.
  destruct (String.eqb_spec k k') as [->|Hne]; [exfalso; apply Hn; left; reflexivity|].
  apply IH. intros Hin. apply Hn. right. exact Hin.
Qed.

(** A primitive always has a string. *)
Lemma ToString_primitive (g : Engine) (v : Value) :
  primitive v = true -> exists s, ToString g v = Fulfilled s.
Proof.
  destruct v as [| | [|] | x | str | items | fields]; intros H; try discriminate;
    eexists; reflexivity.
Qed.

(** X20: [getStatusBadge] reads [badges] with the status as a string.  For
    one of the four statuses of a file -- uploaded, indexing, indexed,
    error -- it returns a [span] whose class is [badge badge-] followed by
    the status; for the name of a member every object inherits it returns
    that member; any other status is returned as it was given, unchanged.
    A status that has no string -- an object with an own property
    [toString], for one -- makes it throw a [TypeError]; a status that is
    no array and no object always has a string. *)
Theorem getStatusBadge_cases (g : Engine) (status : Value) :
  (forall key,
      ToString g status = Fulfilled key ->
      (In key ["uploaded"; "indexing"; "indexed"; "error"] ->
       exists label,
         getStatusBadge g status
         = Fulfilled (Html ("<span class=" ++ dquote ++ "badge badge-" ++ key ++ dquote
                            ++ ">" ++ label ++ "</span>")))
      /\ (In key inherited -> getStatusBadge g status = Fulfilled (Member key))
      /\ (~ In key ["uploaded"; "indexing"; "indexed"; "error"] ->
          ~ In key inherited ->
          getStatusBadge g status = Fulfilled (Status status)))
  /\ (forall e,
         ToString g status = Rejected e ->
         getStatusBadge g status = Rejected e /\ exn_name e = "TypeError")
  /\ (forall fields,
         has_key "toString" fields = true ->
         getStatusBadge g (VObj fields) = Rejected not_primitive)
  /\ (primitive status = true -> exists b, getStatusBadge g status = Fulfilled b).
Proof.
  unfold getStatusBadge. split; [|split; [|split]].
  - intros key Hkey. rewrite Hkey. split; [|split].
    + intros [H|[H|[H|[H|[]]]]]; rewrite <- H;
        [exists "アップロード済み"|exists "処理中"|exists "完了"|exists "エラー"]; reflexivity.
    + intros Hin. unfold inherited in Hin. simpl in Hin.
      repeat (destruct Hin as [<-|Hin]; [reflexivity|]). destruct Hin.
    + intros Hk Hi. rewrite (get_key_none _ badges Hk), (existsb_eqb_false _ _ Hi).
      reflexivity.
  - intros e He. rewrite He. split; [reflexivity|exact (ToString_error _ _ _ He)].
  - intros fields Hk. cbn [ToString]. rewrite Hk. reflexivity.
  - intros Hp. destruct (ToString_primitive g status Hp) as (key & Hkey).
    rewrite Hkey. eexists. reflexivity.
Qed.

Lemma getStatusBadge_cases_witness :
  getStatusBadge Examples.engine0 (VStr "indexed")
  = Fulfilled (Html ("<span class=" ++ dquote ++ "badge badge-indexed" ++ dquote
                     ++ ">完了</span>"))
  /\ getStatusBadge Examples.engine0 (VStr "<b>archived</b>")
     = Fulfilled (Status (VStr "<b>archived</b>"))
  /\ getStatusBadge Examples.engine0 (VStr "constructor") = Fulfilled (Member "constructor")
  /\ getStatusBadge Examples.engine0 (VObj [("toString", VNull)]) = Rejected not_primitive.
Proof.
  split; [|split; [|split]].
  - destruct (proj1 (proj1 (getStatusBadge_cases Examples.engine0 (VStr "indexed"))
                       "indexed" eq_refl))
      as (label & H); [simpl; auto|].
    reflexivity.
  - apply (proj2 (proj2 (proj1 (getStatusBadge_cases Examples.engine0
                                  (VStr "<b>archived</b>"))
                           "<b>archived</b>" eq_refl))).
    + simpl. intros [H|[H|[H|[H|[]]]]]; discriminate.
    + unfold inherited. simpl. intuition discriminate.
  - apply (proj1 (proj2 (proj1 (getStatusBadge_cases Examples.engine0 (VStr "constructor"))
                           "constructor" eq_refl))).
    left. reflexivity.
  - apply (proj1 (proj2 (proj2 (getStatusBadge_cases Examples.engine0 VNull)))).
    reflexivity.
Defined.

Lemma In_append (x : ascii) (a b : string) :
  In x (list_ascii_of_string (a ++ b))
  <-> In x (list_ascii_of_string a) \/ In x (list_ascii_of_string b).
Proof.
  induction a as [|c a IH]; simpl; [tauto|]. rewrite IH. tauto.
Qed.

Lemma escape_text_no_markup (n : nat) (s : string) (x : ascii) :
  (String.length s <= n)%nat ->
  In x (list_ascii_of_string (escape_text s)) -> x <> "<"%char /\ x <> ">"%char.
Proof.
  revert s. induction n as [|n IH]; intros s Hl Hin.
  - destruct s; [destruct Hin|simpl in Hl; lia].
  - destruct s as [|c rest]; [destruct Hin|]. simpl in Hl.
    cbn [escape_text] in Hin. cbv zeta in Hin.
    destruct (nat_of_ascii c =? 38)%nat eqn:E38.
    { apply In_append in Hin. destruct Hin as [Hin|Hin]; [|apply (IH rest); [lia|exact Hin]].
      simpl in Hin. split; intros ->; intuition discriminate. }
    destruct (nat_of_ascii c =? 60)%nat eqn:E60.
    { apply In_append in Hin. destruct Hin as [Hin|Hin]; [|apply (IH rest); [lia|exact Hin]].
      simpl in Hin. split; intros ->; intuition discriminate. }
    destruct (nat_of_ascii c =? 62)%nat eqn:E62.
    { apply In_append in Hin. destruct Hin as [Hin|Hin]; [|apply (IH rest); [lia|exact Hin]].
      simpl in Hin. split; intros ->; intuition discriminate. }
    assert (Hc : c <> "<"%char /\ c <> ">"%char).
    { split; intros ->; discriminate. }
    destruct rest as [|d rest'].
    + destruct Hin as [<-|[]]. exact Hc.
    + destruct ((nat_of_ascii c =? 194) && (nat_of_ascii d =? 160))%nat.
      * apply In_append in Hin.
        destruct Hin as [Hin|Hin]; [|apply (IH rest'); [simpl in Hl; lia|exact Hin]].
        simpl in Hin. split; intros ->; intuition discriminate.
      * destruct Hin as [<-|Hin]; [exact Hc|]. apply (IH (String d rest')); [lia|exact Hin].
Qed.

Lemma escape_text_plain (n : nat) (s : string) :
  (String.length s <= n)%nat ->
  (forall x, In x (list_ascii_of_string s) ->
             x <> "&"%char /\ x <> "<"%char /\ x <> ">"%char /\ x <> ascii_of_nat 194) ->
  escape_text s = s.
Proof.
  revert s. induction n as [|n IH]; intros s Hl Hs.
  - destruct s; [reflexivity|simpl in Hl; lia].
  - destruct s as [|c rest]; [reflexivity|]. simpl in Hl.
    destruct (Hs c (or_introl eq_refl)) as (Ha & Hlt & Hgt & Hnb).
    assert (Hrest : escape_text rest = rest).
    { apply IH; [lia|]. intros x Hx. apply Hs. right. exact Hx. }
    cbn [escape_text]. cbv zeta.
    assert (E : forall k, c <> ascii_of_nat k -> (k < 256)%nat -> (nat_of_ascii c =? k)%nat = false).
    { intros k Hk Hlt'. apply Nat.eqb_neq. intros Heq. apply Hk.
      rewrite <- Heq, ascii_nat_embedding. reflexivity. }
    rewrite (E 38%nat Ha ltac:(lia)), (E 60%nat Hlt ltac:(lia)), (E 62%nat Hgt ltac:(lia)).
    rewrite (E 194%nat Hnb ltac:(lia)). simpl.
    destruct rest; [reflexivity|]. rewrite Hrest. reflexivity.
Qed.

(** X21: the text [escapeHtml] returns holds no [<] and no [>]; text
    without [&], [<], [>] and without the byte 194 (the first byte of an
    encoded no-break space) is returned as it is; [null] and [undefined]
    give the empty text; any value that is no array and no object has a
    text, and so has an object without an own property [toString].  A
    value that has no string -- an object with an own property [toString],
    for one -- makes [escapeHtml] throw a [TypeError]. *)
Theorem escapeHtml_no_markup (g : Engine) (text : Value) :
  (forall out,
      escapeHtml g text = Fulfilled out ->
      forall x, In x (list_ascii_of_string out) -> x <> "<"%char /\ x <> ">"%char)
  /\ (forall s,
         text = VStr s ->
         (forall x, In x (list_ascii_of_string s) ->
                    x <> "&"%char /\ x <> "<"%char /\ x <> ">"%char
                    /\ x <> ascii_of_nat 194) ->
         escapeHtml g text = Fulfilled s)
  /\ escapeHtml g VNull = Fulfilled "" /\ escapeHtml g VUndefined = Fulfilled ""
  /\ (primitive text = true -> exists out, escapeHtml g text = Fulfilled out)
  /\ (forall fields,
         escapeHtml g (VObj fields)
         = if has_key "toString" fields then Rejected not_primitive
           else Fulfilled "[object Object]")
  /\ (forall e, escapeHtml g text = Rejected e -> exn_name e = "TypeError").
Proof.
  split; [|split; [|split; [|split; [|split; [|split]]]]]; try reflexivity.
  - intros out Hout x Hin. unfold escapeHtml in Hout.
    destruct (textContent_of g text) as [s|e]; [|discriminate].
    inversion Hout; subst out.
    exact (escape_text_no_markup _ _ _ (Nat.le_refl _) Hin).
  - intros s -> Hs. unfold escapeHtml. simpl.
    rewrite (escape_text_plain _ _ (Nat.le_refl _) Hs). reflexivity.
  - intros Hp. unfold escapeHtml, textContent_of.
    destruct (ToString_primitive g text Hp) as (s & Hs).
    destruct text; try discriminate; try (eexists; reflexivity);
      rewrite Hs; eexists; reflexivity.
  - intros fields. unfold escapeHtml, textContent_of. cbn [ToString].
    destruct (has_key "toString" fields); reflexivity.
  - intros e He. unfold escapeHtml in He.
    destruct (textContent_of g text) as [s|e'] eqn:E; [discriminate|].
    inversion He; subst e'. unfold textContent_of in E.
    destruct text; try discriminate; exact (ToString_error _ _ _ E).
Qed.

Lemma escapeHtml_no_markup_witness :
  escapeHtml Examples.engine0 (VStr "notes.txt") = Fulfilled "notes.txt"
  /\ escapeHtml Examples.engine0 (VStr "<img src=x>&") = Fulfilled "&lt;img src=x&gt;&amp;"
  /\ exists out, escapeHtml Examples.engine0 (VNum 1.5) = Fulfilled out.
Proof.
  split; [|split; [reflexivity|]].
  - apply (proj1 (proj2 (escapeHtml_no_markup Examples.engine0 (VStr "notes.txt")))
             "notes.txt" eq_refl).
    intros x Hx. simpl in Hx.
    repeat (destruct Hx as [<-|Hx]; [repeat split; discriminate|]). destruct Hx.
  - apply (proj1 (proj2 (proj2 (proj2 (proj2 (escapeHtml_no_markup Examples.engine0
                                                 (VNum 1.5))))))).
    reflexivity.
Defined.

Lemma ToPrimitive_primitive (g : Engine) (v : Value) :
  primitive v = true -> ToPrimitive g v = Fulfilled v.
Proof. destruct v; intros H; try discriminate; reflexivity. Qed.

Lemma or_else_primitive (a b : Value) :
  primitive a = true -> primitive b = true -> primitive (or_else a b) = true.
Proof. intros Ha Hb. unfold or_else. destruct (truthy a); assumption. Qed.

(** X26: the row of a file -- an element that is neither [null] nor
    [undefined] -- whose [status], [created_at], [file_name],
    [chunk_count], [embedding_count] and [id] are no arrays and no objects
    is always built.  The name is put into the row escaped; the date is
    the engine's text of [created_at]; a count that is missing or falsy is
    printed as its default [0]; and the id is put into the [onclick]
    attribute as it is, unescaped. *)
Theorem row_html_of_file (g : Engine) (file : Value) :
  file <> VNull -> file <> VUndefined ->
  (forall k,
      In k ["status"; "created_at"; "file_name"; "chunk_count"; "embedding_count"; "id"] ->
      primitive (field file k) = true) ->
  exists name badge chunks embeddings id_text,
    escapeHtml g (field file "file_name") = Fulfilled name
    /\ and_then (getStatusBadge g (field file "status")) (badge_text g) = Fulfilled badge
    /\ ToString g (or_else (field file "chunk_count") (VNum 0)) = Fulfilled chunks
    /\ ToString g (or_else (field file "embedding_count") (VNum 0)) = Fulfilled embeddings
    /\ ToString g (field file "id") = Fulfilled id_text
    /\ row_html g file
       = Fulfilled
           (newline ++ "      <td>" ++ name ++ "</td>"
            ++ newline ++ "      <td>"
            ++ Date_toLocaleString g (field file "created_at") "ja-JP" ++ "</td>"
            ++ newline ++ "      <td>" ++ badge ++ "</td>"
            ++ newline ++ "      <td>" ++ chunks ++ " / " ++ embeddings ++ "</td>"
            ++ newline ++ "      <td>"
            ++ newline ++ "        <button class=" ++ dquote ++ "btn btn-danger btn-sm"
            ++ dquote ++ " onclick=" ++ dquote ++ "handleDeleteFile('" ++ id_text ++ "')"
            ++ dquote ++ ">"
            ++ newline ++ "          削除"
            ++ newline ++ "        </button>"
            ++ newline ++ "      </td>"
            ++ newline ++ "    ")
    /\ (truthy (field file "chunk_count") = false -> chunks = "0").
Proof.
  intros Hn Hu Hp.
  assert (Hget : forall k, get file k = Fulfilled (field file k)).
  { intros k. destruct file; try reflexivity; congruence. }
  assert (Hzero : primitive (VNum 0) = true) by reflexivity.
  destruct (ToString_primitive g (field file "status")) as (key & Hkey);
    [apply Hp; simpl; auto|].
  destruct (ToString_primitive g (or_else (field file "chunk_count") (VNum 0)))
    as (chunks & Hchunks); [apply or_else_primitive; [apply Hp; simpl; auto 7|exact Hzero]|].
  destruct (ToString_primitive g (or_else (field file "embedding_count") (VNum 0)))
    as (embeddings & Hemb); [apply or_else_primitive; [apply Hp; simpl; auto 7|exact Hzero]|].
  destruct (ToString_primitive g (field file "id")) as (id_text & Hid);
    [apply Hp; simpl; auto 7|].
  assert (Hname : exists name, escapeHtml g (field file "file_name") = Fulfilled name).
  { assert (Hf : primitive (field file "file_name") = true) by (apply Hp; simpl; auto 7).
    unfold escapeHtml, textContent_of.
    destruct (ToString_primitive g _ Hf) as (t & Ht).
    destruct (field file "file_name"); try discriminate; try (eexists; reflexivity);
      rewrite Ht; eexists; reflexivity. }
  destruct Hname as (name & Hname).
  assert (Hbadge : exists badge,
             and_then (getStatusBadge g (field file "status")) (badge_text g)
             = Fulfilled badge).
  { unfold getStatusBadge. rewrite Hkey. cbn [and_then].
    destruct (get_key key badges); [eexists; reflexivity|].
    destruct (existsb (String.eqb key) inherited); [eexists; reflexivity|].
    exists key. exact Hkey. }
  destruct Hbadge as (badge & Hbadge).
  exists name, badge, chunks, embeddings, id_text.
  repeat (split; [assumption|]). split.
  - unfold row_html. rewrite !Hget. cbn [and_then].
    destruct (getStatusBadge g (field file "status")) as [b|e]; [|discriminate].
    cbn [and_then] in Hbadge |- *.
    rewrite ToPrimitive_primitive by (apply Hp; simpl; auto 7). cbn [and_then].
    rewrite Hname. cbn [and_then]. rewrite Hbadge. cbn [and_then].
    rewrite Hchunks. cbn [and_then]. rewrite Hemb. cbn [and_then]. rewrite Hid.
    reflexivity.
  - intros Hf. unfold or_else in Hchunks. rewrite Hf in Hchunks.
    inversion Hchunks. reflexivity.
Qed.

Lemma row_html_of_file_witness :
  exists row,
    row_html Examples.engine0
      (VObj [("id", VStr "f-1"); ("file_name", VStr "a<b>.pdf"); ("status", VStr "indexed");
             ("created_at", VStr "2024-01-15T00:30:00Z"); ("chunk_count", VNum 0)])
    = Fulfilled row.
Proof.
  destruct (row_html_of_file Examples.engine0
              (VObj [("id", VStr "f-1"); ("file_name", VStr "a<b>.pdf");
                     ("status", VStr "indexed");
                     ("created_at", VStr "2024-01-15T00:30:00Z"); ("chunk_count", VNum 0)])
              ltac:(discriminate) ltac:(discriminate))
    as (name & badge & chunks & embeddings & id_text & _ & _ & _ & _ & _ & Hrow & _).
  - intros k Hk. simpl in Hk.
    repeat (destruct Hk as [<-|Hk]; [reflexivity|]). destruct Hk.
  - eexists. exact Hrow.
Defined.

End Markup.

Section FixedNotation.

Lemma length_append (a b : string) :
  String.length (a ++ b) = (String.length a + String.length b)%nat.
Proof. induction a as [|c a IH]; simpl; [reflexivity|rewrite IH; reflexivity]. Qed.

Lemma length_zeros (n : nat) : String.length (zeros n) = n.
Proof. induction n as [|n IH]; simpl; [reflexivity|rewrite IH; reflexivity]. Qed.

Lemma length_substring (s : string) (n m : nat) :
  (n + m <= String.length s)%nat -> String.length (substring n m s) = m.
Proof.
  revert n m. induction s as [|c s IH]; intros n m H; simpl in H.
  - destruct n, m; simpl; lia.
  - destruct n as [|n]; simpl.
    + destruct m as [|m]; simpl; [reflexivity|]. rewrite IH; [reflexivity|lia].
    + apply IH. lia.
Qed.

Lemma decimal_nonempty (n : Z) : (1 <= String.length (decimal n))%nat.
Proof.
  unfold decimal, NilZero.string_of_uint.
  destruct (N.to_uint (Z.to_N n)); simpl; lia.
Qed.

(** The point stands before exactly [f] digits and after at least one. *)
Lemma place_point_shape (n : Z) (f : nat) :
  (0 < f)%nat ->
  exists a b,
    place_point n f = a ++ "." ++ b
    /\ String.length b = f /\ (1 <= String.length a)%nat.
Proof.
  intros Hf. unfold place_point. destruct f as [|f']; [lia|].
  set (f := S f') in *. cbv zeta.
  pose proof (decimal_nonempty n) as Hd.
  set (m' := if (String.length (decimal n) <=? f)%nat
             then zeros (f + 1 - String.length (decimal n)) ++ decimal n else decimal n).
  assert (Hm : (f + 1 <= String.length m')%nat).
  { unfold m'. destruct (Nat.leb_spec (String.length (decimal n)) f).
    - rewrite length_append, length_zeros. lia.
    - lia. }
  exists (substring 0 (String.length m' - f) m'),
         (substring (String.length m' - f) f m').
  split; [reflexivity|]. split.
  - apply length_substring. lia.
  - rewrite length_substring; lia.
Qed.

(** X22: for a finite number below [10^21], [toFixed(f)] prints the sign
    and the integer nearest to the magnitude times [10^f] -- the larger one
    of two nearest -- and, for [f > 0], with the point before exactly [f]
    digits; so a similarity is shown with one digit after the point, and
    within a twentieth of its value times 100. *)
Theorem toFixed_is_nearest (g : Engine) (x : float) (f : nat) (sgn : bool)
        (m : positive) (e : Z) :
  Prim2SF x = S754_finite sgn m e ->
  at_least_1e21 m e = false ->
  exists n,
    toFixed g x f = (if sgn then "-" else "") ++ place_point n f
    /\ ((2 * n - 1) * 2 ^ Z.max 0 (- e)
        <= 2 * (Z.pos m * 10 ^ Z.of_nat f * 2 ^ Z.max 0 e)
        < (2 * n + 1) * 2 ^ Z.max 0 (- e))%Z
    /\ ((0 < f)%nat ->
        exists a b,
          place_point n f = a ++ "." ++ b
          /\ String.length b = f /\ (1 <= String.length a)%nat).
Proof.
  intros Hx Hlt. exists (nearest_scaled m e f).
  split; [exact (toFixed_fixed g x f sgn m e Hx Hlt)|].
  split; [|apply place_point_shape].
  destruct (Z.lt_ge_cases e 0) as [Hneg|Hpos].
  - replace (Z.max 0 (- e)) with (- e)%Z by lia.
    replace (Z.max 0 e) with 0%Z by lia.
    rewrite Z.pow_0_r, Z.mul_1_r. apply nearest_scaled_spec. exact Hneg.
  - replace (Z.max 0 (- e)) with 0%Z by lia.
    replace (Z.max 0 e) with e by lia.
    rewrite (nearest_scaled_exact m e f Hpos), Z.pow_0_r. lia.
Qed.

Lemma toFixed_is_nearest_witness :
  toFixed Examples.engine0 (0x1.a5604189374bcp-1 * 100)%float 1 = "82.3".
Proof.
  destruct (toFixed_is_nearest Examples.engine0 (0x1.a5604189374bcp-1 * 100)%float 1
              false 5791347645821747%positive (-46)%Z eq_refl eq_refl)
    as (n & Hn & _).
  reflexivity.
Defined.

End FixedNotation.

(** ** The page guard and the reload, once more *)

Section GuardAndReload.
Import Auth Gateway Admin Lifecycle.

(** X23: the reload asks for the file list with the filter the page shows:
    every request it issues is a [GET] of the file list, with [?status=] and
    the value of the status filter when the page has a filter with a value,
    and without a query otherwise. *)
Theorem loadFiles_request (w : World) (s : State) (req : Request) :
  In req (requests (since s (snd (loadFiles w s)))) ->
  method req = "GET"
  /\ url req
     = match status_filter_value (document w) with
       | Some v =>
           if v =? "" then backend w ++ "/admin/files"
           else (backend w ++ "/admin/files") ++ "?status=" ++ v
       | None => backend w ++ "/admin/files"
       end.
Proof.
  intros Hin.
  set (f := if string_or (status_filter_value (document w)) "" =? "" then None
            else Some (string_or (status_filter_value (document w)) "")).
  assert (Hload : exists tail,
             history (snd (loadFiles w s))
             = (history (snd (run (GetFiles f) w s)) ++ tail)%list /\ silent tail).
  { unfold loadFiles, bind at 1, ask at 1, try_catch. cbv zeta. fold f.
    unfold bind at 1. change (getFiles f) with (run (GetFiles f)).
    destruct (run (GetFiles f) w s) as [[data|e] s1]; cbn [snd].
    - assert (Ho : only no_fetch
                     (bind (await (get data "files")) (fun files => displayFiles files))).
      { apply only_bind; [apply only_await|intros files]. apply displayFiles_only. }
      destruct (bind (await (get data "files")) (fun files => displayFiles files) w s1)
        as [[[]|e'] s2] eqn:E.
      + exact (Ho _ _ _ _ E).
      + destruct (Ho _ _ _ _ E) as (e1 & H1 & S1).
        destruct (showAlert (message_or e' "ファイル一覧の取得に失敗しました") "error" w s2)
          as [r3 s3] eqn:Ea.
        destruct (showAlert_only _ _ _ _ _ _ Ea) as (e2 & H2 & S2).
        exists (e1 ++ e2)%list. simpl. rewrite H2, H1, app_assoc.
        split; [reflexivity|apply Forall_app; split; assumption].
    - destruct (showAlert (message_or e "ファイル一覧の取得に失敗しました") "error" w s1)
        as [r3 s3] eqn:Ea.
      exact (showAlert_only _ _ _ _ _ _ Ea). }
  destruct Hload as (tail & Htail & Stail).
  destruct (run (GetFiles f) w s) as [r0 s1] eqn:Erun.
  destruct (run_sends (GetFiles f) _ _ _ _ Erun) as (evs & Hevs & _).
  pose proof (run_cases (GetFiles f) w s) as Hcases. rewrite Erun in Hcases.
  simpl in Htail, Hcases. rewrite (since_app _ _ _ Hevs) in Hcases.
  rewrite (since_app s _ (evs ++ tail)) in Hin
    by (rewrite Htail, Hevs, app_assoc; reflexivity).
  rewrite requests_app, (silent_requests _ Stail), app_nil_r in Hin.
  destruct Hcases as [Hs|(h & s1' & evs' & _ & _ & _ & Hsil & _ & Hsince & _)].
  - rewrite (silent_requests _ Hs) in Hin. destruct Hin.
  - rewrite Hsince, requests_app, (silent_requests _ Hsil) in Hin.
    destruct Hin as [<-|[]]. destruct (backend_eq w) as [_ Ha].
    split; [reflexivity|]. clear - Ha. subst f. unfold request. cbn [url]. rewrite Ha.
    unfold string_or.
    destruct (status_filter_value (document w)) as [v|]; [|reflexivity].
    destruct (v =? "") eqn:Ev; [reflexivity|]. rewrite Ev. cbn. rewrite Ev. reflexivity.
Qed.

Lemma loadFiles_request_witness :
  url (mkRequest "https://api.example/api/admin/files?status=indexed" "GET"
         [("Authorization", "Bearer tok-123"); ("Content-Type", "application/json")] None)
  = "https://api.example/api/admin/files?status=indexed".
Proof.
  refine (proj2 (loadFiles_request
                   (Examples.signed_in (Examples.response_ok (VObj [("files", VArr [])])) true)
                   Examples.fresh _ _)).
  left. reflexivity.
Defined.

(** X24: the page guard sends the browser to the login page whenever the
    identity service gives no user: also when the identity library is
    missing and when the service reports an error (each is logged).  When
    the promise of the query is rejected, the guard throws instead, and
    the location is left as it is; and when [createClient] refuses the
    configuration of the page, the guard throws the error of
    [createClient] and leaves everything as it is. *)
Theorem requireAuth_on_failure (w : World) (s : State) :
  (supabase_defined w = false ->
   requireAuth w s
   = (Returned false,
      log (log s (ConsoleError "Supabaseクライアントが読み込まれていません" None))
        (SetLocation "/login.html")))
  /\ (supabase_defined w = true ->
      client_error w s = None ->
      forall r error,
        auth_getUser w (history (client_state w s)) = Fulfilled r ->
        user_error r = Some error ->
        requireAuth w s
        = (Returned false,
           log (log (log (client_state w s) GetUser)
                  (ConsoleError "ユーザー取得エラー:" (Some error)))
             (SetLocation "/login.html")))
  /\ (supabase_defined w = true ->
      client_error w s = None ->
      forall e,
        auth_getUser w (history (client_state w s)) = Rejected e ->
        requireAuth w s = (Thrown e, log (client_state w s) GetUser))
  /\ (forall e, client_error w s = Some e -> requireAuth w s = (Thrown e, s)).
Proof.
  unfold requireAuth, checkAuth, bind. rewrite getCurrentUser_eq.
  split; [|split; [|split]].
  - intros Hd. unfold client_error, client_state. rewrite Hd. reflexivity.
  - intros Hd Hc r error Hr He. rewrite Hc, Hd, Hr, He. reflexivity.
  - intros Hd Hc e He. rewrite Hc, Hd, He. reflexivity.
  - intros e He. rewrite He, (client_state_refused _ _ _ He). reflexivity.
Qed.

Lemma requireAuth_on_failure_witness :
  since Examples.fresh (snd (requireAuth Examples.no_library Examples.fresh))
  = [ConsoleError "Supabaseクライアントが読み込まれていません" None;
     SetLocation "/login.html"]
  /\ since Examples.fresh (snd (requireAuth Examples.auth_failing Examples.fresh))
     = [CreateClient "https://id.example" "anon-key"; GetUser;
        ConsoleError "ユーザー取得エラー:" (Some (mkAuthError "invalid JWT"));
        SetLocation "/login.html"]
  /\ since Examples.fresh (snd (requireAuth Examples.auth_rejecting Examples.fresh))
     = [CreateClient "https://id.example" "anon-key"; GetUser]
  /\ requireAuth Examples.not_configured Examples.fresh
     = (Thrown (Error "supabaseUrl is required."), Examples.fresh).
Proof.
  split; [|split; [|split]].
  - rewrite (proj1 (requireAuth_on_failure Examples.no_library Examples.fresh) eq_refl).
    reflexivity.
  - rewrite (proj1 (proj2 (requireAuth_on_failure Examples.auth_failing Examples.fresh))
               eq_refl eq_refl _ (mkAuthError "invalid JWT") eq_refl eq_refl).
    reflexivity.
  - rewrite (proj1 (proj2 (proj2 (requireAuth_on_failure Examples.auth_rejecting
                                    Examples.fresh)))
               eq_refl eq_refl _ eq_refl).
    reflexivity.
  - apply (proj2 (proj2 (proj2 (requireAuth_on_failure Examples.not_configured
                                  Examples.fresh)))).
    reflexivity.
Defined.

End GuardAndReload.
